(** * Moltbot Gateway WebSocket client (client.py): a shallow embedding

    The client is an asyncio program.  Every coroutine of [MoltbotClient] is
    embedded as a function in a state-and-exception monad over the client
    object and the objects it references (futures, tasks, sockets).  What an
    [await] yields (a frame read from the socket, a timeout, the result of a
    request) is supplied by an explicit environment argument. *)

From Stdlib Require Import ZArith NArith String Ascii.
From stdpp Require Import gmap list.

Local Open Scope N_scope.

(** ** Python values *)

(** A Python [str] is a sequence of code points. *)
Abbreviation pystr := (list N).

(** Source literals are written as UTF-8 text and decoded to code points. *)
Fixpoint utf8_decode (bs : list N) : pystr :=
  match bs with
  | [] => []
  | b0 :: r0 =>
      if b0 <? 128 then b0 :: utf8_decode r0
      else if b0 <? 224 then
        match r0 with
        | b1 :: r1 => ((b0 - 192) * 64 + (b1 - 128)) :: utf8_decode r1
        | _ => []
        end
      else if b0 <? 240 then
        match r0 with
        | b1 :: b2 :: r2 =>
            ((b0 - 224) * 4096 + (b1 - 128) * 64 + (b2 - 128)) :: utf8_decode r2
        | _ => []
        end
      else
        match r0 with
        | b1 :: b2 :: b3 :: r3 =>
            ((b0 - 240) * 262144 + (b1 - 128) * 4096 + (b2 - 128) * 64 + (b3 - 128))
              :: utf8_decode r3
        | _ => []
        end
  end.

Definition lit (s : string) : pystr :=
  utf8_decode (map N_of_ascii (list_ascii_of_string s)).

(** The values [json.loads] produces (numbers are integers here). A JSON
    object is a Python [dict]: an association list read by its first binding
    of a key. *)
#[warnings="-register-all"]
Inductive json : Type :=
| JNull
| JBool (b : bool)
| JNum (z : Z)
| JStr (s : pystr)
| JArr (items : list json)
| JObj (fields : list (pystr * json)).

(** Exception classes that occur in the client. [is_Exception] tells the
    classes derived from [Exception], the ones [except Exception] catches. *)
Inductive exn_class : Type :=
| Exception_
| TimeoutError_
| AttributeError_
| TypeError_
| ValueError_
| KeyError_
| InvalidStateError_
| ConnectionClosed_
| JSONDecodeError_
| UnicodeDecodeError_
| RecursionError_
| OSError_
| CancelledError_
| KeyboardInterrupt_
| SystemExit_.

Definition is_Exception (c : exn_class) : bool :=
  match c with
  | CancelledError_ | KeyboardInterrupt_ | SystemExit_ => false
  | _ => true
  end.

(** The argument an exception was built with: a value, or an f-string made of
    a literal prefix and a formatted value. *)
Inductive exn_arg : Type :=
| ArgVal (v : json)
| ArgFmt (prefix : pystr) (v : json).

Record exn : Type := Exn { exn_cls : exn_class; exn_msg : exn_arg }.

Definition Exception (v : json) : exn := Exn Exception_ (ArgVal v).

Inductive outcome (A : Type) : Type :=
| Return (a : A)
| Raise (e : exn).
Arguments Return {A} a.
Arguments Raise {A} e.

(** ** Python operations on values *)

Definition truthy (v : json) : bool :=
  match v with
  | JNull => false
  | JBool b => b
  | JNum z => negb (z =? 0)%Z
  | JStr s => negb (bool_decide (s = []))
  | JArr l => match l with [] => false | _ => true end
  | JObj f => match f with [] => false | _ => true end
  end.

Fixpoint dict_lookup (k : pystr) (f : list (pystr * json)) : option json :=
  match f with
  | [] => None
  | (k', v) :: f' => if bool_decide (k' = k) then Some v else dict_lookup k f'
  end.

(** [d.get(k, default)]; [d.get(k)] is [py_get d k JNull]. *)
Definition py_get (d : json) (k : pystr) (dflt : json) : outcome json :=
  match d with
  | JObj f => Return (default dflt (dict_lookup k f))
  | _ => Raise (Exn AttributeError_ (ArgVal (JStr (lit "get"))))
  end.

(** [x == "..."] against a string. *)
Definition py_eq_str (v : json) (s : pystr) : bool :=
  match v with
  | JStr s' => bool_decide (s' = s)
  | _ => false
  end.

Definition isinstance_dict (v : json) : bool :=
  match v with
  | JObj _ => true
  | _ => false
  end.

(** Lists and dicts have no hash: using one as a dict key raises. *)
Definition hashable (v : json) : bool :=
  match v with
  | JArr _ | JObj _ => false
  | _ => true
  end.

Definition unhashable_type : exn :=
  Exn TypeError_ (ArgVal (JStr (lit "unhashable type"))).

(** ** The client object *)

Record PendingRequest : Type := mkPendingRequest {
  future : nat;          (* reference to an asyncio.Future *)
  expect_final : bool
}.

Inductive fut_state : Type :=
| FutPending
| FutResult (v : json)
| FutException (e : exn)
| FutCancelled.

Inductive task_state : Type :=
| TaskRunning
| TaskFinished
| TaskCancelled.

Record Config : Type := mkConfig {
  url : pystr;
  token : json;            (* str | None *)
  password : json;         (* str | None *)
  client_name : pystr;
  client_version : pystr
}.

(** The dataclass fields of [MoltbotClient], followed by the objects its
    fields refer to: futures, tasks and sockets are Python objects with
    identity, kept in stores indexed by reference, and [sent] logs the frames
    written to each socket. *)
Record MoltbotClient : Type := mkClient {
  cfg : Config;
  ws : option nat;
  connected : bool;
  pending : gmap pystr PendingRequest;
  event_handlers : gmap pystr (list nat);
  _recv_task : option nat;
  _reconnect_task : option nat;
  _closed : bool;
  _connect_nonce : json;
  futures : gmap nat fut_state;
  tasks : gmap nat task_state;
  sockets : gmap nat bool;     (* socket reference, and whether it is open *)
  sent : list (nat * json)
}.

(** Field assignment. *)
Definition set_ws (v : option nat) (c : MoltbotClient) : MoltbotClient :=
  mkClient (cfg c) v (connected c) (pending c) (event_handlers c) (_recv_task c)
    (_reconnect_task c) (_closed c) (_connect_nonce c) (futures c) (tasks c) (sockets c)
    (sent c).
Definition set_connected (v : bool) (c : MoltbotClient) : MoltbotClient :=
  mkClient (cfg c) (ws c) v (pending c) (event_handlers c) (_recv_task c)
    (_reconnect_task c) (_closed c) (_connect_nonce c) (futures c) (tasks c) (sockets c)
    (sent c).
Definition set_pending (v : gmap pystr PendingRequest) (c : MoltbotClient) : MoltbotClient :=
  mkClient (cfg c) (ws c) (connected c) v (event_handlers c) (_recv_task c)
    (_reconnect_task c) (_closed c) (_connect_nonce c) (futures c) (tasks c) (sockets c)
    (sent c).
Definition set_event_handlers (v : gmap pystr (list nat)) (c : MoltbotClient) : MoltbotClient :=
  mkClient (cfg c) (ws c) (connected c) (pending c) v (_recv_task c) (_reconnect_task c)
    (_closed c) (_connect_nonce c) (futures c) (tasks c) (sockets c) (sent c).
Definition set__recv_task (v : option nat) (c : MoltbotClient) : MoltbotClient :=
  mkClient (cfg c) (ws c) (connected c) (pending c) (event_handlers c) v
    (_reconnect_task c) (_closed c) (_connect_nonce c) (futures c) (tasks c) (sockets c)
    (sent c).
Definition set__closed (v : bool) (c : MoltbotClient) : MoltbotClient :=
  mkClient (cfg c) (ws c) (connected c) (pending c) (event_handlers c) (_recv_task c)
    (_reconnect_task c) v (_connect_nonce c) (futures c) (tasks c) (sockets c) (sent c).
Definition set__connect_nonce (v : json) (c : MoltbotClient) : MoltbotClient :=
  mkClient (cfg c) (ws c) (connected c) (pending c) (event_handlers c) (_recv_task c)
    (_reconnect_task c) (_closed c) v (futures c) (tasks c) (sockets c) (sent c).
Definition set_futures (v : gmap nat fut_state) (c : MoltbotClient) : MoltbotClient :=
  mkClient (cfg c) (ws c) (connected c) (pending c) (event_handlers c) (_recv_task c)
    (_reconnect_task c) (_closed c) (_connect_nonce c) v (tasks c) (sockets c) (sent c).
Definition set_tasks (v : gmap nat task_state) (c : MoltbotClient) : MoltbotClient :=
  mkClient (cfg c) (ws c) (connected c) (pending c) (event_handlers c) (_recv_task c)
    (_reconnect_task c) (_closed c) (_connect_nonce c) (futures c) v (sockets c)
    (sent c).
Definition set_sockets (v : gmap nat bool) (c : MoltbotClient) : MoltbotClient :=
  mkClient (cfg c) (ws c) (connected c) (pending c) (event_handlers c) (_recv_task c)
    (_reconnect_task c) (_closed c) (_connect_nonce c) (futures c) (tasks c) v (sent c).
Definition set_sent (v : list (nat * json)) (c : MoltbotClient) : MoltbotClient :=
  mkClient (cfg c) (ws c) (connected c) (pending c) (event_handlers c) (_recv_task c)
    (_reconnect_task c) (_closed c) (_connect_nonce c) (futures c) (tasks c) (sockets c)
    v.

(** ** Coroutines: state and exceptions *)

(** A coroutine runs on a state [S] (the client, for its methods) and either
    returns or raises; the state keeps whatever was assigned before the
    exception. *)
Definition M (S A : Type) : Type := S → outcome A * S.

Definition ret {S A} (a : A) : M S A := λ c, (Return a, c).
Definition raise {S A} (e : exn) : M S A := λ c, (Raise e, c).
Definition lift {S A} (o : outcome A) : M S A := λ c, (o, c).
Definition get_self {S} : M S S := λ c, (Return c, c).
Definition modify {S} (f : S → S) : M S unit := λ c, (Return tt, f c).

Definition bind {S A B} (m : M S A) (k : A → M S B) : M S B :=
  λ c, match m c with
       | (Return a, c') => k a c'
       | (Raise e, c') => (Raise e, c')
       end.

Declare Scope py_scope.
Delimit Scope py_scope with py.
Notation "x <- m ;; k" := (bind m (λ x, k))
  (at level 100, m at next level, right associativity) : py_scope.
Notation "m ;; k" := (bind m (λ _, k))
  (at level 100, right associativity) : py_scope.
Local Open Scope py_scope.

(** [try: body except C: handler], with [catches] deciding whether the
    clause matches the exception. *)
Definition try_except {S A} (body : M S A) (catches : exn → bool)
    (handler : exn → M S A) : M S A :=
  λ c, match body c with
       | (Raise e, c') => if catches e then handler e c' else (Raise e, c')
       | r => r
       end.

(** [try: body finally: cleanup]. *)
Definition try_finally {S A} (body : M S A) (cleanup : M S unit) : M S A :=
  λ c, match body c with
       | (r, c') =>
           match cleanup c' with
           | (Return _, c'') => (r, c'')
           | (Raise e, c'') => (Raise e, c'')
           end
       end.

(** [for x in l: body]. *)
Fixpoint for_each {S A} (l : list A) (body : A → M S unit) : M S unit :=
  match l with
  | [] => ret tt
  | x :: l' => body x ;; for_each l' body
  end.

Definition except_Exception (e : exn) : bool := is_Exception (exn_cls e).
Definition except_TimeoutError (e : exn) : bool :=
  match exn_cls e with TimeoutError_ => true | _ => false end.

(** ** Futures, tasks and sockets *)

(** [future.done()]. A reference never allocated reads as not done. *)
Definition fut_done (futs : gmap nat fut_state) (f : nat) : bool :=
  match futs !! f with
  | Some FutPending | None => false
  | Some _ => true
  end.

Definition invalid_state : exn :=
  Exn InvalidStateError_ (ArgVal (JStr (lit "invalid state"))).

(** [future.set_result(v)] and [future.set_exception(e)]: a future is
    assigned once, a second assignment raises InvalidStateError. *)
Definition future_set (f : nat) (r : fut_state) : M MoltbotClient unit :=
  c <- get_self ;;
  if fut_done (futures c) f then raise invalid_state
  else modify (set_futures (<[f := r]> (futures c))).

Definition future_set_result (f : nat) (v : json) : M MoltbotClient unit :=
  future_set f (FutResult v).
Definition future_set_exception (f : nat) (e : exn) : M MoltbotClient unit :=
  future_set f (FutException e).

(** [task.cancel()] followed by [await task] under
    [except asyncio.CancelledError: pass]: a running task ends cancelled, a
    task that is over stays as it is. *)
Definition cancel_task (t : nat) (ts : gmap nat task_state) : gmap nat task_state :=
  match ts !! t with
  | Some TaskRunning => <[t := TaskCancelled]> ts
  | _ => ts
  end.

(** [await ws.close()], which the library documents as idempotent. *)
Definition close_socket (s : nat) (ss : gmap nat bool) : gmap nat bool :=
  <[s := false]> ss.

(** The messages ["连接已关闭"] and ["未知错误"]. *)
Definition msg_connection_closed : pystr := Eval vm_compute in lit "连接已关闭".
Definition msg_unknown_error : pystr := Eval vm_compute in lit "未知错误".

(** The slot of a waiter failed with [Exception("连接已关闭")]. *)
Definition closed_error : fut_state :=
  FutException (Exception (JStr msg_connection_closed)).

(** One turn of the loop that fails the waiters:
    [if not pending.future.done(): pending.future.set_exception(...)]. *)
Definition fail_waiter (p : PendingRequest) (futs : gmap nat fut_state)
    : gmap nat fut_state :=
  if fut_done futs (future p) then futs
  else <[future p := closed_error]> futs.

Definition fail_all_waiters (pend : gmap pystr PendingRequest)
    (futs : gmap nat fut_state) : gmap nat fut_state :=
  map_fold (λ _ p acc, fail_waiter p acc) futs pend.

(** ** [MoltbotClient.disconnect] *)
Definition disconnect : M MoltbotClient unit :=
  modify (set__closed true) ;;
  modify (set_connected false) ;;
  c <- get_self ;;
  match _recv_task c with
  | Some t => modify (set_tasks (cancel_task t (tasks c)))
  | None => ret tt
  end ;;
  match ws c with
  | Some s =>
      modify (set_sockets (close_socket s (sockets c))) ;;
      modify (set_ws None)
  | None => ret tt
  end ;;
  modify (λ c, set_futures (fail_all_waiters (pending c) (futures c)) c) ;;
  modify (set_pending ∅).

(** ** [MoltbotClient._cleanup_connection] *)
Definition _cleanup_connection : M MoltbotClient unit :=
  modify (set_connected false) ;;
  c <- get_self ;;
  match _recv_task c with
  | Some t => modify (set_tasks (cancel_task t (tasks c)))
  | None => ret tt
  end ;;
  modify (set__recv_task None) ;;
  match ws c with
  | Some s =>
      modify (set_sockets (close_socket s (sockets c))) ;;
      modify (set_ws None)
  | None => ret tt
  end ;;
  modify (λ c, set_futures (fail_all_waiters (pending c) (futures c)) c) ;;
  modify (set_pending ∅).

(** ** [MoltbotClient._handle_response] *)

(** [req_id not in self.pending]: the keys are strings, and a list or a dict
    cannot be looked up at all. *)
Definition not_in_pending (req_id : json) (pend : gmap pystr PendingRequest) : outcome bool :=
  match req_id with
  | JStr k => Return (bool_decide (pend !! k = None))
  | JArr _ | JObj _ => Raise unhashable_type
  | _ => Return true
  end.

Definition key_error : exn := Exn KeyError_ (ArgVal JNull).

(** [self.pending[req_id]]. *)
Definition pending_getitem (req_id : json) (pend : gmap pystr PendingRequest)
    : outcome PendingRequest :=
  match req_id with
  | JStr k => match pend !! k with Some p => Return p | None => Raise key_error end
  | JArr _ | JObj _ => Raise unhashable_type
  | _ => Raise key_error
  end.

(** [del self.pending[req_id]]. *)
Definition pending_delitem (req_id : json) : M MoltbotClient unit :=
  c <- get_self ;;
  p <- lift (pending_getitem req_id (pending c)) ;;
  match req_id with
  | JStr k => modify (set_pending (delete k (pending c)))
  | _ => ret tt
  end.

Definition _handle_response (response : json) : M MoltbotClient unit :=
  req_id <- lift (py_get response (lit "id") JNull) ;;
  c <- get_self ;;
  absent <- (if negb (truthy req_id) then ret true
             else lift (not_in_pending req_id (pending c))) ;;
  if absent : bool then ret tt
  else
    p <- lift (pending_getitem req_id (pending c)) ;;
    payload <- lift (py_get response (lit "payload") JNull) ;;
    ack <- (if expect_final p && isinstance_dict payload then
              status <- lift (py_get payload (lit "status") JNull) ;;
              ret (py_eq_str status (lit "accepted"))
            else ret false) ;;
    if ack : bool then ret tt
    else
      pending_delitem req_id ;;
      ok <- lift (py_get response (lit "ok") JNull) ;;
      if truthy ok then future_set_result (future p) payload
      else
        error <- lift (py_get response (lit "error") (JObj [])) ;;
        error_msg <- lift (py_get error (lit "message") (JStr msg_unknown_error)) ;;
        future_set_exception (future p) (Exception error_msg).

(** ** The socket *)

(** Why [json.loads] raises on a message instead of returning a value. *)
Inductive loads_failure : Type :=
| NotJSON          (* json.JSONDecodeError: the text is not JSON *)
| NotUTF8          (* UnicodeDecodeError: a binary frame that is not UTF-8 *)
| TooDeep          (* RecursionError: nesting beyond the recursion limit *)
| TooManyDigits.   (* ValueError: an integer literal beyond the digit limit *)

(** A message off the socket, given by what [json.loads] makes of it: the
    value it returns, or the reason it raises. *)
Inductive received : Type :=
| Parsed (v : json)
| Unloadable (why : loads_failure).

Definition loads_error (why : loads_failure) : exn :=
  Exn match why with
      | NotJSON => JSONDecodeError_
      | NotUTF8 => UnicodeDecodeError_
      | TooDeep => RecursionError_
      | TooManyDigits => ValueError_
      end
      (ArgVal JNull).

(** What [await asyncio.wait_for(self.ws.recv(), timeout)] yields: the wait
    times out, the connection is closed, or a message arrives. *)
Inductive recv_result : Type :=
| RecvTimeout
| RecvClosed
| RecvMsg (m : received).

Definition no_attribute (name : string) : exn :=
  Exn AttributeError_ (ArgVal (JStr (lit name))).

Definition ws_recv (r : recv_result) : M MoltbotClient received :=
  c <- get_self ;;
  match ws c with
  | None => raise (no_attribute "recv")
  | Some _ =>
      match r with
      | RecvTimeout => raise (Exn TimeoutError_ (ArgVal JNull))
      | RecvClosed => raise (Exn ConnectionClosed_ (ArgVal JNull))
      | RecvMsg m => ret m
      end
  end.

Definition json_loads {S} (raw : received) : M S json :=
  match raw with
  | Parsed v => ret v
  | Unloadable why => raise (loads_error why)
  end.

(** [await self.ws.send(json.dumps(frame))]; [delivered] is false when the
    connection is closed under the write. *)
Definition ws_send (delivered : bool) (frame : json) : M MoltbotClient unit :=
  c <- get_self ;;
  match ws c with
  | None => raise (no_attribute "send")
  | Some s =>
      if delivered then modify (set_sent (sent c ++ [(s, frame)]))
      else raise (Exn ConnectionClosed_ (ArgVal JNull))
  end.

(** ** [MoltbotClient._send_connect] *)

Definition PROTOCOL_VERSION : Z := 3.

Record handshake_env : Type := mkHandshakeEnv {
  hs_req_id : pystr;          (* str(uuid.uuid4()) *)
  hs_platform : pystr;        (* sys.platform *)
  hs_first : recv_result;     (* the read bounded by 2 *)
  hs_delivered : bool;        (* the write of the connect request *)
  hs_second : recv_result     (* the read bounded by 10 *)
}.

Definition connect_params (cf : Config) (platform : pystr) : json :=
  let base :=
    [(lit "minProtocol", JNum PROTOCOL_VERSION);
     (lit "maxProtocol", JNum PROTOCOL_VERSION);
     (lit "client",
       JObj [(lit "id", JStr (client_name cf));
             (lit "version", JStr (client_version cf));
             (lit "platform", JStr platform);
             (lit "mode", JStr (lit "backend"))]);
     (lit "caps", JArr []);
     (lit "role", JStr (lit "operator"));
     (lit "scopes", JArr [JStr (lit "operator.admin")])] in
  if truthy (token cf) || truthy (password cf) then
    JObj (base ++
          [(lit "auth",
             JObj ((if truthy (token cf) then [(lit "token", token cf)] else [])
                   ++ (if truthy (password cf) then [(lit "password", password cf)] else [])))])
  else JObj base.

Definition connect_frame (cf : Config) (env : handshake_env) : json :=
  JObj [(lit "type", JStr (lit "req"));
        (lit "id", JStr (hs_req_id env));
        (lit "method", JStr (lit "connect"));
        (lit "params", connect_params cf (hs_platform env))].

(** The bounded wait for an unsolicited [connect.challenge] (the inner
    [try] of [_send_connect]); the nonce is only logged. *)
Definition await_challenge (env : handshake_env) : M MoltbotClient unit :=
  try_except
    (first_msg <- ws_recv (hs_first env) ;;
     first_data <- json_loads first_msg ;;
     ty <- lift (py_get first_data (lit "type") JNull) ;;
     challenge <- (if py_eq_str ty (lit "event") then
                     ev <- lift (py_get first_data (lit "event") JNull) ;;
                     ret (py_eq_str ev (lit "connect.challenge"))
                   else ret false) ;;
     if challenge : bool then
       payload <- lift (py_get first_data (lit "payload") (JObj [])) ;;
       nonce <- lift (py_get payload (lit "nonce") JNull) ;;
       ret tt
     else ret tt)
    except_TimeoutError (λ _, ret tt).

(** The bounded wait for the response to the connect request. *)
Definition await_hello (env : handshake_env) : M MoltbotClient json :=
  response_raw <- ws_recv (hs_second env) ;;
  response <- json_loads response_raw ;;
  ty <- lift (py_get response (lit "type") JNull) ;;
  matching <- (if py_eq_str ty (lit "res") then
                 rid <- lift (py_get response (lit "id") JNull) ;;
                 ret (py_eq_str rid (hs_req_id env))
               else ret false) ;;
  if matching : bool then
    ok <- lift (py_get response (lit "ok") JNull) ;;
    if truthy ok then lift (py_get response (lit "payload") JNull)
    else
      error <- lift (py_get response (lit "error") (JObj [])) ;;
      error_msg <- lift (py_get error (lit "message") (JStr msg_unknown_error)) ;;
      ret JNull
  else ret JNull.

(** The result is the [hello] payload, [JNull] for [None]. *)
Definition _send_connect (env : handshake_env) : M MoltbotClient json :=
  c <- get_self ;;
  let frame := connect_frame (cfg c) env in
  try_except
    (await_challenge env ;;
     ws_send (hs_delivered env) frame ;;
     await_hello env)
    except_Exception (λ _, ret JNull).

(** ** [MoltbotClient.connect] *)

Record connect_env : Type := mkConnectEnv {
  cn_opened : bool;           (* whether websockets.connect returns a socket *)
  cn_handshake : handshake_env
}.

(** [await websockets.connect(self.url, ...)]: a new socket object. *)
Definition websockets_connect (opened : bool) : M MoltbotClient nat :=
  c <- get_self ;;
  if opened then
    let s := fresh (dom (sockets c)) in
    modify (set_sockets (<[s := true]> (sockets c))) ;;
    ret s
  else raise (Exn OSError_ (ArgVal JNull)).

(** [asyncio.create_task(...)]: a new running task. *)
Definition create_task : M MoltbotClient nat :=
  c <- get_self ;;
  let t := fresh (dom (tasks c)) in
  modify (set_tasks (<[t := TaskRunning]> (tasks c))) ;;
  ret t.

Definition connect (env : connect_env) : M MoltbotClient bool :=
  c <- get_self ;;
  if _closed c then ret false
  else
    _cleanup_connection ;;
    try_except
      (s <- websockets_connect (cn_opened env) ;;
       modify (set_ws (Some s)) ;;
       hello <- _send_connect (cn_handshake env) ;;
       if truthy hello then
         modify (set_connected true) ;;
         protocol <- lift (py_get hello (lit "protocol") JNull) ;;
         t <- create_task ;;
         modify (set__recv_task (Some t)) ;;
         ret true
       else
         _cleanup_connection ;;
         ret false)
      except_Exception (λ _, _cleanup_connection ;; ret false).

(** ** [MoltbotClient._reconnect] *)

Definition max_backoff : Z := 30.

(** One turn of the loop as the rest of the program shapes it: what the other
    tasks did to the client during [asyncio.sleep(backoff)], and what
    [connect()] meets. *)
Record reconnect_turn : Type := mkTurn {
  tn_meanwhile : MoltbotClient → MoltbotClient;
  tn_connect : connect_env
}.

(** The loop, one turn per element of [turns]; it returns the durations it
    slept, in order, and stops with the list when the turns are used up. *)
Fixpoint reconnect_loop (turns : list reconnect_turn) (backoff : Z)
    : M MoltbotClient (list Z) :=
  match turns with
  | [] => ret []
  | turn :: turns' =>
      c <- get_self ;;
      if negb (_closed c) && negb (connected c) then
        modify (tn_meanwhile turn) ;;              (* await asyncio.sleep(backoff) *)
        c <- get_self ;;
        if _closed c then ret [backoff]
        else
          ok <- connect (tn_connect turn) ;;
          if ok : bool then ret [backoff]
          else
            rest <- reconnect_loop turns' (Z.min (backoff * 2) max_backoff) ;;
            ret (backoff :: rest)
      else ret []
  end.

Definition _reconnect (turns : list reconnect_turn) : M MoltbotClient (list Z) :=
  c <- get_self ;;
  if _closed c then ret []
  else reconnect_loop turns 1.

(** ** [MoltbotClient.request] *)

Record request_env : Type := mkRequestEnv {
  rq_id : pystr;                (* str(uuid.uuid4()) *)
  rq_delivered : bool;          (* the write of the req frame *)
  (* what the other tasks, the receive loop above all, do to the client
     while the caller waits on the future *)
  rq_meanwhile : MoltbotClient → MoltbotClient
}.

(** [asyncio.get_event_loop().create_future()]: a new future, not done. *)
Definition create_future : M MoltbotClient nat :=
  c <- get_self ;;
  let f := fresh (dom (futures c)) in
  modify (set_futures (<[f := FutPending]> (futures c))) ;;
  ret f.

(** [await asyncio.wait_for(future, timeout)], the other tasks having run:
    the result or the exception of a future that is done; otherwise the wait
    times out, which cancels the future. *)
Definition wait_for_future (meanwhile : MoltbotClient → MoltbotClient) (f : nat)
    : M MoltbotClient json :=
  modify meanwhile ;;
  c <- get_self ;;
  match futures c !! f with
  | Some (FutResult v) => ret v
  | Some (FutException e) => raise e
  | Some FutCancelled => raise (Exn CancelledError_ (ArgVal JNull))
  | Some FutPending | None =>
      modify (set_futures (<[f := FutCancelled]> (futures c))) ;;
      raise (Exn TimeoutError_ (ArgVal JNull))
  end.

(** [if req_id in self.pending: del self.pending[req_id]]. *)
Definition forget_request (req_id : pystr) : M MoltbotClient unit :=
  modify (λ c, set_pending (delete req_id (pending c)) c).

(** The messages ["未连接到 Moltbot"] and ["请求超时: "]. *)
Definition msg_not_connected : pystr := Eval vm_compute in lit "未连接到 Moltbot".
Definition msg_request_timeout : pystr := Eval vm_compute in lit "请求超时: ".

Definition request (method : pystr) (params : json) (expect_final : bool)
    (env : request_env) : M MoltbotClient json :=
  c <- get_self ;;
  match ws c with
  | None => raise (Exception (JStr msg_not_connected))
  | Some _ =>
      let req_id := rq_id env in
      let frame :=
        JObj [(lit "type", JStr (lit "req")); (lit "id", JStr req_id);
              (lit "method", JStr method); (lit "params", params)] in
      future <- create_future ;;
      modify (λ c, set_pending (<[req_id := mkPendingRequest future expect_final]> (pending c)) c) ;;
      try_except
        (ws_send (rq_delivered env) frame ;;
         wait_for_future (rq_meanwhile env) future)
        except_Exception
        (λ e,
           forget_request req_id ;;
           if except_TimeoutError e
           then raise (Exn Exception_ (ArgFmt msg_request_timeout (JStr method)))
           else raise e)
  end.

(** ** [MoltbotClient.on_event] *)
Definition on_event (event_name : pystr) (handler : nat) : M MoltbotClient unit :=
  modify (λ c, set_event_handlers
                 (<[event_name := default [] (event_handlers c !! event_name) ++ [handler]]>
                    (event_handlers c)) c).

(** ** [MoltbotClient._handle_event] and [MoltbotClient._handle_message] *)

(** The receive path runs the client together with the registered handlers.
    A handler is user code: it is referred to by its identity in the
    registry, runs on a state [W] of its own and returns or raises. The log
    [rt_calls] records which handler was called with which arguments. *)
Record runtime (W : Type) : Type := mkRuntime {
  rt_client : MoltbotClient;
  rt_world : W;
  rt_calls : list (nat * list json)
}.
Arguments mkRuntime {W} _ _ _.
Arguments rt_client {W} _.
Arguments rt_world {W} _.
Arguments rt_calls {W} _.

Section Dispatcher.

Context {W : Type}.
Variable run_handler : nat → list json → W → outcome unit * W.

(** A method of the client, run from the receive path. *)
Definition on_client {A} (m : M MoltbotClient A) : M (runtime W) A :=
  λ rt, let (o, c') := m (rt_client rt) in
        (o, mkRuntime c' (rt_world rt) (rt_calls rt)).

(** [await handler(args...)]. *)
Definition call_handler (h : nat) (args : list json) : M (runtime W) unit :=
  λ rt, let (o, w') := run_handler h args (rt_world rt) in
        (o, mkRuntime (rt_client rt) w' (rt_calls rt ++ [(h, args)])).

(** [self.event_handlers.get(name, [])]; the keys are strings. *)
Definition registered (name : json) : M (runtime W) (list nat) :=
  rt <- get_self ;;
  match name with
  | JStr k => ret (default [] (event_handlers (rt_client rt) !! k))
  | JArr _ | JObj _ => raise unhashable_type
  | _ => ret []
  end.

(** One turn of a handler loop: the call, under [except Exception]. *)
Definition guarded (handler : nat) (args : list json) : M (runtime W) unit :=
  try_except (call_handler handler args) except_Exception (λ _, ret tt).

Definition _handle_event (event : json) : M (runtime W) unit :=
  event_name <- lift (py_get event (lit "event") JNull) ;;
  payload <- lift (py_get event (lit "payload") JNull) ;;
  if py_eq_str event_name (lit "connect.challenge") then
    nonce <- (if truthy payload then lift (py_get payload (lit "nonce") JNull)
              else ret JNull) ;;
    if truthy nonce then
      on_client (modify (set__connect_nonce nonce) ;;
                 t <- create_task ;;        (* self._send_connect(), as a task *)
                 ret tt)
    else ret tt
  else if py_eq_str event_name (lit "tick") then ret tt
  else
    handlers <- registered event_name ;;
    for_each handlers (λ handler, guarded handler [payload]) ;;
    all_handlers <- registered (JStr (lit "*")) ;;
    for_each all_handlers (λ handler, guarded handler [event_name; payload]).

(** The handlers fail with exceptions derived from [Exception] only (not
    with a cancellation or an interpreter exit). *)
Definition handlers_raise_Exception : Prop :=
  ∀ h args w e w', run_handler h args w = (Raise e, w') →
                   is_Exception (exn_cls e) = true.

Definition except_JSONDecodeError (e : exn) : bool :=
  match exn_cls e with JSONDecodeError_ => true | _ => false end.

Definition _handle_message (raw : received) : M (runtime W) unit :=
  try_except
    (data <- json_loads raw ;;
     frame_type <- lift (py_get data (lit "type") JNull) ;;
     if py_eq_str frame_type (lit "event") then _handle_event data
     else if py_eq_str frame_type (lit "res") then on_client (_handle_response data)
     else ret tt)
    except_JSONDecodeError (λ _, ret tt).

End Dispatcher.

(** ** Strings and iteration, as the chat session uses them *)

(** The code points [str.strip()] removes. *)
Definition py_isspace (ch : N) : bool :=
  ((9 <=? ch) && (ch <=? 13)) || ((28 <=? ch) && (ch <=? 32))
  || (ch =? 133) || (ch =? 160) || (ch =? 5760)
  || ((8192 <=? ch) && (ch <=? 8202))
  || (ch =? 8232) || (ch =? 8233) || (ch =? 8239) || (ch =? 8287) || (ch =? 12288).

Fixpoint py_lstrip (s : pystr) : pystr :=
  match s with
  | [] => []
  | ch :: s' => if py_isspace ch then py_lstrip s' else s
  end.

Definition py_rstrip (s : pystr) : pystr := reverse (py_lstrip (reverse s)).

Definition py_strip (s : pystr) : pystr := py_rstrip (py_lstrip s).

(** [v.strip()]. *)
Definition str_strip (v : json) : outcome json :=
  match v with
  | JStr s => Return (JStr (py_strip s))
  | _ => Raise (no_attribute "strip")
  end.

Definition type_error (what : string) : exn :=
  Exn TypeError_ (ArgVal (JStr (lit what))).

(** [for item in v]: the items of a list, the characters of a string, the
    keys of a dict; other values are not iterable. *)
Definition py_iter (v : json) : outcome (list json) :=
  match v with
  | JArr items => Return items
  | JStr s => Return (map (λ ch, JStr [ch]) s)
  | JObj f => Return (map (λ kv, JStr (fst kv)) f)
  | _ => Raise (type_error "object is not iterable")
  end.

(** [v[:50]] (evaluated for a log line): strings and lists have slices. *)
Definition py_slice (v : json) : outcome unit :=
  match v with
  | JStr _ | JArr _ => Return tt
  | _ => Raise (type_error "object is not subscriptable")
  end.

(** [len(v)] (evaluated for a log line). *)
Definition py_len (v : json) : outcome unit :=
  match v with
  | JStr _ | JArr _ | JObj _ => Return tt
  | _ => Raise (type_error "object has no len()")
  end.

(** ** The chat session: [handle_chat_event] *)

(** The variables of [chat_send] that its closure [handle_chat_event]
    assigns, and the log of the arguments [on_delta] was called with. *)
Record ChatStream : Type := mkChatStream {
  response_text : json;
  response_complete : bool;          (* the asyncio.Event *)
  response_error : option exn;
  delta_calls : list json
}.

Definition set_response_text (v : json) (st : ChatStream) : ChatStream :=
  mkChatStream v (response_complete st) (response_error st) (delta_calls st).
Definition set_response_complete (st : ChatStream) : ChatStream :=
  mkChatStream (response_text st) true (response_error st) (delta_calls st).
Definition set_response_error (e : exn) (st : ChatStream) : ChatStream :=
  mkChatStream (response_text st) (response_complete st) (Some e) (delta_calls st).
Definition log_delta_call (v : json) (st : ChatStream) : ChatStream :=
  mkChatStream (response_text st) (response_complete st) (response_error st)
    (delta_calls st ++ [v]).

Definition new_stream : ChatStream := mkChatStream (JStr []) false None [].

(** The message ["请求被中止"]. *)
Definition msg_aborted : pystr := Eval vm_compute in lit "请求被中止".

(** [await on_delta(delta_text)] under its own [try]. *)
Definition call_on_delta (on_delta : json → outcome unit) (delta_text : json)
    : M ChatStream unit :=
  try_except
    (modify (log_delta_call delta_text) ;; lift (on_delta delta_text))
    except_Exception (λ _, ret tt).

(** The body of the loop over the content of a [delta] event. *)
Definition delta_item (on_delta : option (json → outcome unit)) (item : json)
    : M ChatStream unit :=
  ty <- lift (py_get item (lit "type") JNull) ;;
  if py_eq_str ty (lit "text") then
    delta_text <- lift (py_get item (lit "text") (JStr [])) ;;
    modify (set_response_text delta_text) ;;
    lift (py_slice delta_text) ;;
    match on_delta with
    | Some callback =>
        if truthy delta_text then call_on_delta callback delta_text else ret tt
    | None => ret tt
    end
  else ret tt.

(** The body of the loop over the content of a [final] event. *)
Definition final_item (item : json) : M ChatStream unit :=
  ty <- lift (py_get item (lit "type") JNull) ;;
  if py_eq_str ty (lit "text") then
    text <- lift (py_get item (lit "text") (JStr [])) ;;
    modify (set_response_text text)
  else ret tt.

Definition handle_chat_event (session_key : pystr)
    (on_delta : option (json → outcome unit)) (payload : json) : M ChatStream unit :=
  sk <- lift (py_get payload (lit "sessionKey") JNull) ;;
  if negb (py_eq_str sk session_key) then ret tt
  else
    state <- lift (py_get payload (lit "state") JNull) ;;
    msg <- lift (py_get payload (lit "message") JNull) ;;
    if py_eq_str state (lit "delta") && truthy msg then
      content <- lift (py_get msg (lit "content") (JArr [])) ;;
      items <- lift (py_iter content) ;;
      for_each items (delta_item on_delta)
    else if py_eq_str state (lit "final") then
      (if truthy msg then
         content <- lift (py_get msg (lit "content") (JArr [])) ;;
         items <- lift (py_iter content) ;;
         for_each items final_item
       else ret tt) ;;
      st <- get_self ;;
      lift (py_len (response_text st)) ;;
      modify set_response_complete
    else if py_eq_str state (lit "error") then
      error_msg <- lift (py_get payload (lit "errorMessage") (JStr msg_unknown_error)) ;;
      modify (set_response_error (Exception error_msg)) ;;
      modify set_response_complete
    else if py_eq_str state (lit "aborted") then
      modify (set_response_error (Exception (JStr msg_aborted))) ;;
      modify set_response_complete
    else ret tt.

(** The receive loop hands the chat events to the closure one by one, each
    call under the guard of [_handle_event]; an exception that the guard
    does not catch ends the receive loop. *)
Definition deliver (session_key : pystr) (on_delta : option (json → outcome unit))
    (payloads : list json) : M ChatStream unit :=
  for_each payloads
    (λ payload, try_except (handle_chat_event session_key on_delta payload)
                  except_Exception (λ _, ret tt)).

(** The closure state once the receive loop has handed over [payloads]. *)
Definition stream_after (session_key : pystr) (on_delta : option (json → outcome unit))
    (payloads : list json) (st : ChatStream) : ChatStream :=
  snd (deliver session_key on_delta payloads st).

(** ** [MoltbotClient.chat_send] *)

Record chat_env : Type := mkChatEnv {
  ce_handler : nat;             (* the identity of the closure handle_chat_event *)
  ce_idempotency_key : pystr;   (* str(uuid.uuid4()) *)
  ce_request : request_env;     (* what the chat.send request meets *)
  (* the chat events handed to the closure while the request is awaited *)
  ce_early : list json;
  (* what the other tasks do to the client, and the chat events handed to
     the closure, while the completion flag is awaited *)
  ce_meanwhile : MoltbotClient → MoltbotClient;
  ce_events : list json
}.

Fixpoint map_outcome {A B} (f : A → outcome B) (l : list A) : outcome (list B) :=
  match l with
  | [] => Return []
  | x :: l' =>
      match f x with
      | Return y =>
          match map_outcome f l' with
          | Return ys => Return (y :: ys)
          | Raise e => Raise e
          end
      | Raise e => Raise e
      end
  end.

Definition attachment (img : json) : outcome json :=
  match py_get img (lit "mimeType") (JStr (lit "image/jpeg")) with
  | Return mime =>
      match py_get img (lit "base64") JNull with
      | Return content =>
          Return (JObj [(lit "type", JStr (lit "image")); (lit "mimeType", mime);
                        (lit "content", content)])
      | Raise e => Raise e
      end
  | Raise e => Raise e
  end.

Definition chat_params (session_key message : pystr) (thinking image_attachments : json)
    (idempotency_key : pystr) : outcome json :=
  let base :=
    [(lit "sessionKey", JStr session_key); (lit "message", JStr message);
     (lit "idempotencyKey", JStr idempotency_key)]
    ++ (if truthy thinking then [(lit "thinking", thinking)] else []) in
  if truthy image_attachments then
    match py_iter image_attachments with
    | Return imgs =>
        match map_outcome attachment imgs with
        | Return attachments => Return (JObj (base ++ [(lit "attachments", JArr attachments)]))
        | Raise e => Raise e
        end
    | Raise e => Raise e
    end
  else Return (JObj base).

(** [l.remove(x)] under [except ValueError: pass]: the first occurrence goes. *)
Fixpoint remove_first (x : nat) (l : list nat) : list nat :=
  match l with
  | [] => []
  | y :: l' => if bool_decide (y = x) then l' else y :: remove_first x l'
  end.

(** The [finally] clause of [chat_send]. *)
Definition unregister_chat (handler : nat) : M MoltbotClient unit :=
  c <- get_self ;;
  match event_handlers c !! lit "chat" with
  | Some l =>
      modify (set_event_handlers
                (<[lit "chat" := remove_first handler l]> (event_handlers c)))
  | None => ret tt
  end.

(** The message ["chat.send 失败: "]. *)
Definition msg_chat_send_failed : pystr := Eval vm_compute in lit "chat.send 失败: ".

(** [return response_text.strip() if response_text else None]. *)
Definition chat_result (response_text : json) : outcome json :=
  if truthy response_text then str_strip response_text else Return JNull.

(** The closure state at the moment [chat_send] looks at it. *)
Definition final_stream (session_key : pystr) (on_delta : option (json → outcome unit))
    (env : chat_env) : ChatStream :=
  stream_after session_key on_delta (ce_events env)
    (stream_after session_key on_delta (ce_early env) new_stream).

(** The [try] block of [chat_send]. *)
Definition chat_try (session_key : pystr) (on_delta : option (json → outcome unit))
    (params : json) (env : chat_env) : M MoltbotClient json :=
  result <- request (lit "chat.send") params false (ce_request env) ;;
  (if isinstance_dict result then
     status <- lift (py_get result (lit "status") JNull) ;;
     if py_eq_str status (lit "error") then
       error_msg <- lift (py_get result (lit "summary") (JStr msg_unknown_error)) ;;
       raise (Exn Exception_ (ArgFmt msg_chat_send_failed error_msg))
     else ret tt
   else ret tt) ;;
  (* await asyncio.wait_for(response_complete.wait(), timeout) *)
  modify (ce_meanwhile env) ;;
  let st := final_stream session_key on_delta env in
  if response_complete st then
    match response_error st with
    | Some e => raise e
    | None => lift (chat_result (response_text st))
    end
  else raise (Exn TimeoutError_ (ArgVal JNull)).

Definition chat_send (session_key message : pystr) (thinking : json)
    (on_delta : option (json → outcome unit)) (image_attachments : json)
    (env : chat_env) : M MoltbotClient json :=
  params <- lift (chat_params session_key message thinking image_attachments
                    (ce_idempotency_key env)) ;;
  let handle_chat_event := ce_handler env in
  on_event (lit "chat") handle_chat_event ;;
  try_finally
    (try_except (chat_try session_key on_delta params env)
       except_TimeoutError (λ e, raise e))
    (unregister_chat handle_chat_event).

(** The handlers registered for ["chat"]. *)
Definition chat_handlers (c : MoltbotClient) : list nat :=
  default [] (event_handlers c !! lit "chat").

(** How often a handler occurs in a list of handlers. *)
Definition occurrences (h : nat) (l : list nat) : nat :=
  length (filter (λ x, x = h) l).

(** The res frames whose id is absent: the frame has no ["id"], or its id is
    a value that can be looked up (a string on the wire; null, a boolean or
    a number as well) and is not a key of the pending map. *)
Definition id_absent (response : json) (pend : gmap pystr PendingRequest) : bool :=
  match response with
  | JObj f =>
      match dict_lookup (lit "id") f with
      | None => true
      | Some (JStr k) => bool_decide (pend !! k = None)
      | Some v => hashable v
      end
  | _ => false
  end.

(** A payload that is a mapping with status ["accepted"]. *)
Definition is_accepted_ack (payload : json) : bool :=
  match payload with
  | JObj f => py_eq_str (default JNull (dict_lookup (lit "status") f)) (lit "accepted")
  | _ => false
  end.

(** [MoltbotClient(...)]: the dataclass defaults. *)
Definition new_client (cf : Config) : MoltbotClient :=
  mkClient cf None false ∅ ∅ None None false JNull ∅ ∅ ∅ [].

(** [frame.get(key)] on a frame that is a mapping. *)
Definition frame_field (frame : json) (key : pystr) : json :=
  match frame with
  | JObj f => default JNull (dict_lookup key f)
  | _ => JNull
  end.

(** A res frame that carries the id [k]. *)
Definition res_for (k : pystr) (frame : json) : bool :=
  match frame with
  | JObj f => py_eq_str (default JNull (dict_lookup (lit "id") f)) k
  | _ => false
  end.

(** The frame has no ["error"] field, or one that is a mapping. *)
Definition error_is_mapping (frame : json) : bool :=
  match frame with
  | JObj f =>
      match dict_lookup (lit "error") f with
      | None | Some (JObj _) => true
      | Some _ => false
      end
  | _ => false
  end.

(** The message of the frame's error, ["未知错误"] when it has none. *)
Definition error_message (frame : json) : json :=
  match frame_field frame (lit "error") with
  | JObj e => default (JStr msg_unknown_error) (dict_lookup (lit "message") e)
  | _ => JStr msg_unknown_error
  end.

(** How a completing res frame fills the waiter's slot. *)
Definition completion (frame : json) : fut_state :=
  if truthy (frame_field frame (lit "ok"))
  then FutResult (frame_field frame (lit "payload"))
  else FutException (Exception (error_message frame)).

(** Sample objects used to run the definitions. *)
Module Sample.

Definition config : Config :=
  mkConfig (lit "ws://127.0.0.1:18789") JNull JNull (lit "gateway-client") (lit "1.0.0").

(** A connected client with one request [r1] registered with
    [expect_final=True], its future (reference 0) not done. *)
Definition agent_client : MoltbotClient :=
  set_futures {[ 0%nat := FutPending ]}
    (set_pending {[ lit "r1" := mkPendingRequest 0 true ]}
       (set_connected true (set_ws (Some 0%nat) (new_client config)))).

Definition ack_frame : json :=
  JObj [(lit "type", JStr (lit "res")); (lit "id", JStr (lit "r1"));
        (lit "ok", JBool true);
        (lit "payload", JObj [(lit "status", JStr (lit "accepted"))])].

Definition final_frame : json :=
  JObj [(lit "type", JStr (lit "res")); (lit "id", JStr (lit "r1"));
        (lit "ok", JBool true);
        (lit "payload", JObj [(lit "status", JStr (lit "ok"));
                              (lit "text", JStr (lit "hello"))])].

(** [ok] is false and the payload still says ["accepted"]. *)
Definition failed_ack_frame : json :=
  JObj [(lit "type", JStr (lit "res")); (lit "id", JStr (lit "r1"));
        (lit "ok", JBool false);
        (lit "payload", JObj [(lit "status", JStr (lit "accepted"))]);
        (lit "error", JObj [(lit "message", JStr (lit "boom"))])].

(** [ok] is false, the status is not ["accepted"], and the error is [null]. *)
Definition null_error_frame : json :=
  JObj [(lit "type", JStr (lit "res")); (lit "id", JStr (lit "r1"));
        (lit "ok", JBool false);
        (lit "payload", JObj [(lit "status", JStr (lit "failed"))]);
        (lit "error", JNull)].

Definition stale_frame : json :=
  JObj [(lit "type", JStr (lit "res")); (lit "id", JStr (lit "r0"));
        (lit "ok", JBool true); (lit "payload", JNull)].

Definition list_id_frame : json :=
  JObj [(lit "type", JStr (lit "res")); (lit "id", JArr [JNum 1])].

(** The gateway cannot be reached. *)
Definition unreachable : connect_env :=
  mkConnectEnv false (mkHandshakeEnv (lit "c1") (lit "linux") RecvTimeout true RecvTimeout).

Definition failed_turn : reconnect_turn := mkTurn id unreachable.

(** The gateway accepts the socket and never answers the connect request. *)
Definition silent_gateway : connect_env :=
  mkConnectEnv true (mkHandshakeEnv (lit "c1") (lit "linux") RecvTimeout true RecvTimeout).

(** The gateway accepts the handshake [c1] with a hello payload. *)
Definition hello_frame : json :=
  JObj [(lit "type", JStr (lit "res")); (lit "id", JStr (lit "c1"));
        (lit "ok", JBool true); (lit "payload", JObj [(lit "protocol", JNum 3)])].

Definition accepting : connect_env :=
  mkConnectEnv true
    (mkHandshakeEnv (lit "c1") (lit "linux") RecvTimeout true (RecvMsg (Parsed hello_frame))).

Definition accepted_turn : reconnect_turn := mkTurn id accepting.

(** An event that no built-in intercepts. *)
Definition custom_event : json :=
  JObj [(lit "type", JStr (lit "event")); (lit "event", JStr (lit "custom.thing"));
        (lit "payload", JObj [(lit "n", JNum 7)])].

(** Handlers 1 and 2 are registered in this order for ["custom.thing"],
    handler 3 for every event. *)
Definition observed_client : MoltbotClient :=
  snd ((on_event (lit "custom.thing") 1 ;;
        on_event (lit "custom.thing") 2 ;;
        on_event (lit "*") 3)%py (new_client config)).

(** Handler 1 fails with a ValueError; the others return. Each run is
    counted in the state of the handlers. *)
Definition failing_first (h : nat) (args : list json) (runs : nat) : outcome unit * nat :=
  (if (h =? 1)%nat then Raise (Exn ValueError_ (ArgVal (JStr (lit "bad payload"))))
   else Return tt,
   S runs).

(** A client with an open socket. *)
Definition connected_client : MoltbotClient :=
  set_sockets {[ 0%nat := true ]}
    (set_connected true (set_ws (Some 0%nat) (new_client config))).

Definition text_item (s : pystr) : json :=
  JObj [(lit "type", JStr (lit "text")); (lit "text", JStr s)].

Definition chat_event (session_key state : pystr) (items : list json) : json :=
  JObj [(lit "sessionKey", JStr session_key); (lit "state", JStr state);
        (lit "message",
          JObj [(lit "role", JStr (lit "assistant")); (lit "content", JArr items)])].

Definition chat_failure (session_key state : pystr) : json :=
  JObj [(lit "sessionKey", JStr session_key); (lit "state", JStr state);
        (lit "errorMessage", JStr (lit "model overloaded"))].

(** The gateway answers the chat.send request [q1] with [status]. *)
Definition chat_ack (status : pystr) : json :=
  JObj [(lit "type", JStr (lit "res")); (lit "id", JStr (lit "q1"));
        (lit "ok", JBool true);
        (lit "payload", JObj [(lit "runId", JStr (lit "run-1"));
                              (lit "status", JStr status);
                              (lit "summary", JStr (lit "no such session"))])].

Definition acked_request (status : pystr) : request_env :=
  mkRequestEnv (lit "q1") true (λ c, snd (_handle_response (chat_ack status) c)).

(** A chat call for the session [s1] whose request is answered with
    [status] and whose closure, of identity 1, is handed [events]. *)
Definition chat_call (status : pystr) (events : list json) : chat_env :=
  mkChatEnv 1 (lit "key-1") (acked_request status) [] id events.

Definition quiet_callback (fragment : json) : outcome unit := Return tt.

Definition s1 : pystr := Eval vm_compute in lit "s1".

(** A delta then the final event of the session [s1]. *)
Definition hello_events : list json :=
  [chat_event s1 (lit "delta") [text_item (lit "he")];
   chat_event s1 (lit "final") [text_item (lit "hello")]].

(** The last event is final with a text of two spaces and a newline. *)
Definition blank_events : list json :=
  [chat_event s1 (lit "final") [text_item [32; 32; 10]]].

End Sample.

(** The read bounded by 10 did not bring the matching, successful res frame:
    it timed out, the connection closed, the message is not JSON or not a
    mapping, its type is not ["res"], its id is not the request's, or its
    [ok] is false. *)
Definition handshake_refused (env : handshake_env) : bool :=
  match hs_second env with
  | RecvTimeout | RecvClosed | RecvMsg (Unloadable _) => true
  | RecvMsg (Parsed r) =>
      negb (isinstance_dict r
            && py_eq_str (frame_field r (lit "type")) (lit "res")
            && py_eq_str (frame_field r (lit "id")) (hs_req_id env)
            && truthy (frame_field r (lit "ok")))
  end.

(** A list of waits that starts at [b] and goes on by doubling, capped at
    [max_backoff]. *)
Fixpoint backoff_chain (b : Z) (waits : list Z) : Prop :=
  match waits with
  | [] => True
  | w :: rest => w = b ∧ backoff_chain (Z.min (b * 2) max_backoff) rest
  end.

(** The text of a content item typed ["text"]. *)
Definition text_of_item (item : json) : option json :=
  match item with
  | JObj f =>
      if py_eq_str (default JNull (dict_lookup (lit "type") f)) (lit "text")
      then Some (default (JStr []) (dict_lookup (lit "text") f))
      else None
  | _ => None
  end.

Definition is_str (v : json) : bool :=
  match v with
  | JStr _ => true
  | _ => false
  end.

(** A content list as the wire format has it: every item is a mapping, and
    the text of a text item is a string. *)
Definition content_item_ok (item : json) : bool :=
  isinstance_dict item
  && match text_of_item item with Some t => is_str t | None => true end.

(** The texts of the text items of a content list, in order. *)
Definition texts (items : list json) : list json := omap text_of_item items.

(** A chat event for the session [session_key] in state [state] whose message
    carries the content list [items]. *)
Definition chat_event_with (session_key state : pystr) (items : list json)
    (payload : json) : Prop :=
  ∃ msg,
    py_get payload (lit "sessionKey") JNull = Return (JStr session_key)
    ∧ py_get payload (lit "state") JNull = Return (JStr state)
    ∧ py_get payload (lit "message") JNull = Return (JObj msg)
    ∧ msg ≠ []
    ∧ dict_lookup (lit "content") msg = Some (JArr items).

(** The callback fails with exceptions derived from [Exception] only. *)
Definition callback_raises_Exception (on_delta : option (json → outcome unit)) : Prop :=
  match on_delta with
  | Some callback => ∀ v e, callback v = Raise e → is_Exception (exn_cls e) = true
  | None => True
  end.

(** The fragments [on_delta] is called with, for the texts of an event. *)
Definition fragments (on_delta : option (json → outcome unit)) (ts : list json)
    : list json :=
  match on_delta with
  | Some _ => filter (λ t, truthy t = true) ts
  | None => []
  end.

(** A computation that leaves the part [f] of the state as it finds it. *)
Definition keeps {S A X} (f : S → X) (m : M S A) : Prop :=
  ∀ s, f (snd (m s)) = f s.

(** A computation that raises exceptions derived from [Exception] only. *)
Definition only_Exception {S A} (m : M S A) : Prop :=
  ∀ s e s', m s = (Raise e, s') → is_Exception (exn_cls e) = true.

(** What [chat_send] does once the completion wait is over. *)
Definition chat_outcome (st : ChatStream) : outcome json :=
  if response_complete st then
    match response_error st with
    | Some e => Raise e
    | None => chat_result (response_text st)
    end
  else Raise (Exn TimeoutError_ (ArgVal JNull)).

(** The acknowledgment of [chat.send] reports an error. *)
Definition ack_reports_error (result : json) : bool :=
  isinstance_dict result && py_eq_str (frame_field result (lit "status")) (lit "error").

(** The chat.send request was acknowledged without an error status: the
    parameters were built, the request returned, and its result does not
    report an error. *)
Definition acknowledged (session_key message : pystr) (thinking image_attachments : json)
    (env : chat_env) (c : MoltbotClient) : Prop :=
  ∃ params result c2,
    chat_params session_key message thinking image_attachments (ce_idempotency_key env)
    = Return params
    ∧ request (lit "chat.send") params false (ce_request env)
        (snd (on_event (lit "chat") (ce_handler env) c))
      = (Return result, c2)
    ∧ ack_reports_error result = false.

(** ** The request while it waits *)

(** The req frame [request] writes. *)
Definition request_frame (method : pystr) (params : json) (env : request_env) : json :=
  JObj [(lit "type", JStr (lit "req")); (lit "id", JStr (rq_id env));
        (lit "method", JStr method); (lit "params", params)].

(** The client as [request] has it when it starts to wait on a socket [s]:
    a new future that is not done, the pending entry, the frame written. *)
Definition waiting_client (method : pystr) (params : json) (expect_final : bool)
    (env : request_env) (s : nat) (c : MoltbotClient) : MoltbotClient :=
  let f := fresh (dom (futures c)) in
  set_sent (sent c ++ [(s, request_frame method params env)])
    (set_pending (<[rq_id env := mkPendingRequest f expect_final]> (pending c))
       (set_futures (<[f := FutPending]> (futures c)) c)).

(** [Exception(f"请求超时: {method}")]. *)
Definition request_timed_out (method : pystr) : exn :=
  Exn Exception_ (ArgFmt msg_request_timeout (JStr method)).

(** ** The handshake, read by read *)

(** The read bounded by 2 lets the handshake go on: it timed out, or it
    brought a mapping (a [connect.challenge] only with a mapping for
    payload). *)
Definition first_read_passes (r : recv_result) : bool :=
  match r with
  | RecvTimeout => true
  | RecvClosed | RecvMsg (Unloadable _) => false
  | RecvMsg (Parsed (JObj f)) =>
      if py_eq_str (default JNull (dict_lookup (lit "type") f)) (lit "event")
         && py_eq_str (default JNull (dict_lookup (lit "event") f)) (lit "connect.challenge")
      then isinstance_dict (default (JObj []) (dict_lookup (lit "payload") f))
      else true
  | RecvMsg (Parsed _) => false
  end.

(** The mapping [r] is the res frame of the connect request [req_id] with
    a true [ok]. *)
Definition accepts_handshake (req_id : pystr) (r : json) : bool :=
  isinstance_dict r
  && py_eq_str (frame_field r (lit "type")) (lit "res")
  && py_eq_str (frame_field r (lit "id")) req_id
  && truthy (frame_field r (lit "ok")).

(** ** [MoltbotClient._receive_loop] *)

(** What [async for message in self.ws] brings: the messages, and how the
    iteration ends: it is exhausted ([None]) or it raises. *)
Record receive_env : Type := mkReceiveEnv {
  rv_messages : list received;
  rv_end : option exn
}.

Definition except_ConnectionClosed (e : exn) : bool :=
  match exn_cls e with ConnectionClosed_ => true | _ => false end.

Section Receiver.

Context {W : Type}.
Variable run_handler : nat → list json → W → outcome unit * W.

(** The two [except] clauses are tried in order; [ConnectionClosed] derives
    from [Exception], so the first clause takes it. *)
Definition _receive_loop (env : receive_env) : M (runtime W) unit :=
  try_except
    (rt <- get_self ;;
     match ws (rt_client rt) with
     | None => raise (type_error "'async for' requires an object with __aiter__ method")
     | Some _ =>
         for_each (rv_messages env) (_handle_message run_handler) ;;
         match rv_end env with
         | Some e => raise e
         | None => ret tt
         end
     end)
    except_Exception
    (λ e,
       if except_ConnectionClosed e then
         on_client (modify (set_connected false) ;;
                    c <- get_self ;;
                    if negb (_closed c) then
                      t <- create_task ;;      (* self._reconnect(), as a task *)
                      ret tt
                    else ret tt)
       else on_client (modify (set_connected false))).

End Receiver.

(** A message the receive path drops: text that is not JSON (the failure
    of [json.loads] that [_handle_message] catches), or a mapping whose
    ["type"] is neither ["event"] nor ["res"]. *)
Definition dropped_message (raw : received) : bool :=
  match raw with
  | Unloadable NotJSON => true
  | Unloadable _ => false
  | Parsed (JObj f) =>
      negb (py_eq_str (default JNull (dict_lookup (lit "type") f)) (lit "event"))
      && negb (py_eq_str (default JNull (dict_lookup (lit "type") f)) (lit "res"))
  | Parsed _ => false
  end.

(** ** [MoltbotClient.agent_send] and [MoltbotClient.send_message] *)

Section Agent.

(** [str(v)] of a value that is not a string. *)
Variable py_repr : json → pystr.

(** [str(v)]: a string is its own [str]. *)
Definition py_str (v : json) : pystr :=
  match v with
  | JStr s => s
  | _ => py_repr v
  end.

Definition agent_params (message : pystr) (session_key agent_id thinking : json)
    (idempotency_key : pystr) : json :=
  JObj ([(lit "message", JStr message); (lit "idempotencyKey", JStr idempotency_key)]
        ++ (if truthy session_key then [(lit "sessionKey", session_key)] else [])
        ++ (if truthy agent_id then [(lit "agentId", agent_id)] else [])
        ++ (if truthy thinking then [(lit "thinking", thinking)] else [])).

(** [idempotency_key] is [str(uuid.uuid4())]. *)
Definition agent_send (message : pystr) (session_key agent_id thinking : json)
    (idempotency_key : pystr) (env : request_env) : M MoltbotClient json :=
  let params := agent_params message session_key agent_id thinking idempotency_key in
  try_except
    (result <- request (lit "agent") params true env ;;
     if isinstance_dict result then
       first <- lift (py_get result (lit "text") JNull) ;;
       text <- (if truthy first then ret first
                else lift (py_get result (lit "response") JNull)) ;;
       if truthy text then ret (JStr (py_strip (py_str text)))
       else ret JNull
     else ret JNull)
    except_Exception (λ e, raise e).

End Agent.

Definition send_params (to message : pystr) (channel account_id : json)
    (idempotency_key : pystr) : json :=
  JObj ([(lit "to", JStr to); (lit "message", JStr message);
         (lit "idempotencyKey", JStr idempotency_key)]
        ++ (if truthy channel then [(lit "channel", channel)] else [])
        ++ (if truthy account_id then [(lit "accountId", account_id)] else [])).

Definition send_message (to message : pystr) (channel account_id : json)
    (idempotency_key : pystr) (env : request_env) : M MoltbotClient json :=
  request (lit "send") (send_params to message channel account_id idempotency_key)
    false env.

(** ** Chat events, by session and by state *)

(** The payload is a mapping whose ["sessionKey"] is [session_key]. *)
Definition for_session (session_key : pystr) (payload : json) : bool :=
  py_eq_str (frame_field payload (lit "sessionKey")) session_key.

(** The events of the session among [payloads], in order. *)
Definition own_events (session_key : pystr) (payloads : list json) : list json :=
  filter (λ payload, for_session session_key payload = true) payloads.

(** An event of the session in state ["error"] or ["aborted"]. *)
Definition failure_event (session_key : pystr) (payload : json) : bool :=
  for_session session_key payload
  && (py_eq_str (frame_field payload (lit "state")) (lit "error")
      || py_eq_str (frame_field payload (lit "state")) (lit "aborted")).

(** An event of the session in a state that sets the completion flag. *)
Definition completing_event (session_key : pystr) (payload : json) : bool :=
  for_session session_key payload
  && (py_eq_str (frame_field payload (lit "state")) (lit "final")
      || py_eq_str (frame_field payload (lit "state")) (lit "error")
      || py_eq_str (frame_field payload (lit "state")) (lit "aborted")).

(** The chat call [env] with the events [early] and [events] handed to its
    closure instead of its own. *)
Definition with_events (early events : list json) (env : chat_env) : chat_env :=
  mkChatEnv (ce_handler env) (ce_idempotency_key env) (ce_request env) early
    (ce_meanwhile env) events.

(** A computation whose every run takes the state [s] to a state related
    to it by [R]. *)
Definition moves {S A} (R : S → S → Prop) (m : M S A) : Prop :=
  ∀ s, R s (snd (m s)).

(** The closure state only moves forward: the completion flag is never
    reset, and a recorded error is at most replaced by another one. *)
Definition latched (st st' : ChatStream) : Prop :=
  (response_complete st = true → response_complete st' = true)
  ∧ (response_error st' = response_error st
     ∨ ∃ msg, response_error st' = Some (Exception msg)).

(** The completion flag is set and an error is recorded. *)
Definition failed (st : ChatStream) : Prop :=
  response_complete st = true ∧ ∃ msg, response_error st = Some (Exception msg).

(** ** The waits of the reconnect procedure *)

(** The first [n] waits: 1, 2, 4, 8, 16, 30, 30, ... *)
Definition schedule (n : nat) : list Z :=
  map (λ i, Z.min (2 ^ Z.of_nat i) max_backoff) (seq 0 n).

(** Nobody closes the client during the wait of the turn. *)
Definition quiet_wait (turn : reconnect_turn) : Prop :=
  ∀ c, _closed c = false → _closed (tn_meanwhile turn c) = false.

(** The attempt of the turn fails: its wait is quiet and [connect()]
    returns [False]. *)
Definition failed_attempt (turn : reconnect_turn) : Prop :=
  quiet_wait turn
  ∧ ∀ c, _closed c = false → fst (connect (tn_connect turn) c) = Return false.

(** The attempt of the turn succeeds: its wait is quiet and [connect()]
    returns [True]. *)
Definition successful_attempt (turn : reconnect_turn) : Prop :=
  quiet_wait turn
  ∧ ∀ c, _closed c = false → fst (connect (tn_connect turn) c) = Return true.

(** * Properties *)

Ltac run_py :=
  unfold bind, lift, ret, raise, get_self, modify; simpl.

Section Waiters.

Implicit Types (pend : gmap pystr PendingRequest) (futs : gmap nat fut_state).

Lemma fut_done_insert_closed futs f g :
  fut_done futs g = true → fut_done (<[f := closed_error]> futs) g = true.
Proof.
  unfold fut_done. destruct (decide (f = g)) as [->|Hne].
  - by rewrite lookup_insert_eq.
  - by rewrite lookup_insert_ne.
Qed.

Lemma fail_waiter_done p futs g :
  fut_done futs g = true → fail_waiter p futs !! g = futs !! g.
Proof.
  intros Hg. unfold fail_waiter.
  destruct (fut_done futs (future p)) eqn:Hp; [done|].
  rewrite lookup_insert_ne; [done|]. intros <-. congruence.
Qed.

Lemma fail_waiter_other p futs g :
  future p ≠ g → fail_waiter p futs !! g = futs !! g.
Proof.
  intros Hne. unfold fail_waiter.
  destruct (fut_done futs (future p)); [done|]. by rewrite lookup_insert_ne.
Qed.

Lemma fail_waiter_self p futs :
  fut_done futs (future p) = false → fail_waiter p futs !! future p = Some closed_error.
Proof. intros Hp. unfold fail_waiter. rewrite Hp. by rewrite lookup_insert_eq. Qed.

(** What the loop over [self.pending.items()] leaves in the future store. *)
Lemma fail_all_waiters_spec pend futs g :
  (fut_done futs g = true → fail_all_waiters pend futs !! g = futs !! g)
  ∧ ((∀ k p, pend !! k = Some p → future p ≠ g) →
     fail_all_waiters pend futs !! g = futs !! g)
  ∧ (fut_done futs g = false → (∃ k p, pend !! k = Some p ∧ future p = g) →
     fail_all_waiters pend futs !! g = Some closed_error)
  ∧ (fail_all_waiters pend futs !! g = futs !! g
     ∨ fail_all_waiters pend futs !! g = Some closed_error).
Proof.
  unfold fail_all_waiters.
  apply (map_fold_weak_ind
           (λ r m,
             (fut_done futs g = true → r !! g = futs !! g)
             ∧ ((∀ k p, m !! k = Some p → future p ≠ g) → r !! g = futs !! g)
             ∧ (fut_done futs g = false → (∃ k p, m !! k = Some p ∧ future p = g) →
                r !! g = Some closed_error)
             ∧ (r !! g = futs !! g ∨ r !! g = Some closed_error))).
  - split; [done|]. split; [done|]. split; [|by left].
    intros _ (k & p & Hk & _). by rewrite lookup_empty in Hk.
  - intros i x m r Hi (IHd & IHo & IHs & IHc).
    destruct (decide (future x = g)) as [Hx|Hx].
    + (* this turn is about the slot [g] *)
      unfold fail_waiter. rewrite Hx.
      destruct (fut_done r g) eqn:Hr.
      * split; [done|]. split; [|split; [|done]].
        -- intros Hg. exfalso. apply (Hg i x); [by rewrite lookup_insert_eq|done].
        -- intros Hg _. destruct IHc as [Heq|Hc]; [|done].
           unfold fut_done in Hr, Hg. rewrite Heq in Hr. congruence.
      * rewrite lookup_insert_eq. split; [|split; [|split; [done|by right]]].
        -- intros Hg. unfold fut_done in Hr, Hg. rewrite (IHd Hg) in Hr. congruence.
        -- intros Hg. exfalso. apply (Hg i x); [by rewrite lookup_insert_eq|done].
    + rewrite fail_waiter_other by done.
      split; [done|]. split; [|split; [|done]].
      * intros Hg. apply IHo. intros k p Hk. apply (Hg k p).
        rewrite lookup_insert_ne; [done|]. intros ->. congruence.
      * intros Hg (k & p & Hk & Hp). apply IHs; [done|]. exists k, p. split; [|done].
        destruct (decide (i = k)) as [->|Hik].
        -- rewrite lookup_insert_eq in Hk. congruence.
        -- by rewrite lookup_insert_ne in Hk.
Qed.

End Waiters.

Section Disconnect.

Lemma cancel_task_idemp t ts : cancel_task t (cancel_task t ts) = cancel_task t ts.
Proof.
  unfold cancel_task at 2 3. destruct (ts !! t) as [[]|] eqn:Ht.
  - unfold cancel_task. by rewrite lookup_insert_eq.
  - unfold cancel_task. by rewrite Ht.
  - unfold cancel_task. by rewrite Ht.
  - unfold cancel_task. by rewrite Ht.
Qed.

Lemma fail_all_waiters_empty futs : fail_all_waiters ∅ futs = futs.
Proof. unfold fail_all_waiters. by rewrite map_fold_empty. Qed.

(** C3. [disconnect()] returns, marks the client closed and not connected,
    fails with the connection-closed error every waiter whose slot was
    unfilled, and leaves the pending map empty; run again on the client it
    left, it returns and leaves that client as it is. *)
Theorem disconnect_fails_waiters_and_is_idempotent (c : MoltbotClient) :
  ∃ c', disconnect c = (Return tt, c')
    ∧ _closed c' = true
    ∧ connected c' = false
    ∧ pending c' = ∅
    ∧ (∀ k p, pending c !! k = Some p →
              fut_done (futures c) (future p) = false →
              futures c' !! future p = Some closed_error)
    ∧ disconnect c' = (Return tt, c').
Proof.
  unfold disconnect. run_py.
  destruct (_recv_task c) as [t|] eqn:Ht, (ws c) as [s|] eqn:Hs; simpl;
    eexists; (split; [reflexivity|]); simpl;
    (split; [reflexivity|]); (split; [reflexivity|]); (split; [reflexivity|]);
    (split;
     [ intros k p Hk Hp;
       destruct (fail_all_waiters_spec (pending c) (futures c) (future p))
         as (_ & _ & Hfail & _);
       apply Hfail; [done|by exists k, p]
     | rewrite ?Ht; simpl; rewrite ?Hs; simpl;
       rewrite ?cancel_task_idemp, fail_all_waiters_empty; reflexivity ]).
Qed.

End Disconnect.

Section Responses.

Implicit Types (c : MoltbotClient) (k : pystr) (p : PendingRequest).

Lemma handle_response_ack c k p frame :
  pending c !! k = Some p → expect_final p = true → k ≠ [] →
  res_for k frame = true →
  is_accepted_ack (frame_field frame (lit "payload")) = true →
  _handle_response frame c = (Return tt, c).
Proof.
  intros Hp Hef Hk Hid Hack. destruct frame as [| | | | |f]; try discriminate.
  simpl in Hid. unfold _handle_response. run_py.
  destruct (default JNull (dict_lookup (lit "id") f)) as [| | |k'| |]; try discriminate.
  simpl in Hid. apply bool_decide_eq_true in Hid. subst k'. simpl.
  rewrite (bool_decide_eq_false_2 (k = [])) by done. simpl.
  rewrite Hp. rewrite bool_decide_eq_false_2 by done. simpl. rewrite Hef. simpl.
  simpl in Hack. unfold is_accepted_ack in Hack.
  destruct (default JNull (dict_lookup (lit "payload") f)) as [| | | | |pf];
    try discriminate.
  simpl. simpl in Hack. rewrite Hack. reflexivity.
Qed.

Lemma handle_response_complete c k p frame :
  pending c !! k = Some p → k ≠ [] →
  fut_done (futures c) (future p) = false →
  res_for k frame = true →
  expect_final p && is_accepted_ack (frame_field frame (lit "payload")) = false →
  truthy (frame_field frame (lit "ok")) = true ∨ error_is_mapping frame = true →
  _handle_response frame c
  = (Return tt,
     set_futures (<[future p := completion frame]> (futures c))
       (set_pending (delete k (pending c)) c)).
Proof.
  intros Hp Hk Hdone Hid Hack Herr. destruct frame as [| | | | |f]; try discriminate.
  simpl in Hid. unfold _handle_response, pending_delitem, future_set_result,
    future_set_exception, future_set. run_py.
  destruct (default JNull (dict_lookup (lit "id") f)) as [| | |k'| |]; try discriminate.
  simpl in Hid. apply bool_decide_eq_true in Hid. subst k'. simpl.
  rewrite (bool_decide_eq_false_2 (k = [])) by done. simpl.
  rewrite Hp. rewrite bool_decide_eq_false_2 by done. simpl.
  unfold completion, error_message, error_is_mapping in *. simpl in *.
  destruct (expect_final p && isinstance_dict (default JNull (dict_lookup (lit "payload") f)))
    eqn:Hguard.
  - destruct (default JNull (dict_lookup (lit "payload") f)) as [| | | | |pf] eqn:Hpl;
      try (rewrite andb_false_r in Hguard; discriminate).
    simpl in *. destruct (expect_final p); [|discriminate]. simpl in Hack.
    rewrite Hack. simpl. rewrite Hp. simpl.
    destruct (truthy (default JNull (dict_lookup (lit "ok") f))) eqn:Hok; simpl.
    + rewrite Hdone. reflexivity.
    + destruct Herr as [|Herr]; [discriminate|].
      destruct (dict_lookup (lit "error") f) as [[| | | | |e]|]; try discriminate;
        simpl; rewrite Hdone; reflexivity.
  - simpl. rewrite Hp. simpl.
    destruct (truthy (default JNull (dict_lookup (lit "ok") f))) eqn:Hok; simpl.
    + rewrite Hdone. reflexivity.
    + destruct Herr as [|Herr]; [discriminate|].
      destruct (dict_lookup (lit "error") f) as [[| | | | |e]|]; try discriminate;
        simpl; rewrite Hdone; reflexivity.
Qed.

Lemma for_each_snoc {S A} (l : list A) (x : A) (body : A → M S unit) (c : S) :
  for_each (l ++ [x]) body c
  = match for_each l body c with
    | (Return _, c') => body x c'
    | (Raise e, c') => (Raise e, c')
    end.
Proof.
  revert c. induction l as [|y l IH]; intros c; simpl.
  - unfold bind, ret. by destruct (body x c) as [[[]|e] c'].
  - unfold bind at 1 2. destruct (body y c) as [[|e] c']; [apply IH|done].
Qed.

(** C8, as the code has it. A res frame whose id is missing, null, or a
    string, number or boolean that is not a key of the pending map leaves
    the client exactly as it was, and [_handle_response] returns without
    raising. Ids that are JSON arrays or objects are left out: they have
    no hash. *)
Theorem handle_response_absent_id_is_discarded c frame :
  id_absent frame (pending c) = true →
  _handle_response frame c = (Return tt, c).
Proof.
  intros Habs. destruct frame as [| | | | |f]; try discriminate.
  unfold _handle_response. run_py. simpl in Habs.
  destruct (dict_lookup (lit "id") f) as [[|b|z|k| |]|]; simpl; try done.
  - by destruct b.
  - by destruct (z =? 0)%Z.
  - destruct (bool_decide (k = [])); simpl; [done|]. by rewrite Habs.
Qed.

Lemma handle_response_absent_id_is_discarded_witness :
  id_absent Sample.stale_frame (pending Sample.agent_client) = true
  ∧ _handle_response Sample.stale_frame Sample.agent_client
    = (Return tt, Sample.agent_client).
Proof.
  split; [by vm_compute|].
  apply handle_response_absent_id_is_discarded. by vm_compute.
Defined.

(** C8 as stated fails: an id that is a JSON array is not a key of the
    pending map (whose only key is the string ["r1"]), yet the frame is not
    discarded without an error: the membership test raises [TypeError],
    since a list has no hash. *)
Lemma handle_response_list_id_raises :
  pending Sample.agent_client = {[ lit "r1" := mkPendingRequest 0 true ]}
  ∧ frame_field Sample.list_id_frame (lit "id") = JArr [JNum 1]
  ∧ _handle_response Sample.list_id_frame Sample.agent_client
    = (Raise unhashable_type, Sample.agent_client)
  ∧ exn_cls unhashable_type = TypeError_.
Proof. split; [reflexivity|]. split; [reflexivity|]. split; [by vm_compute|reflexivity]. Qed.

(** C1, as the code has it. For a request registered with
    [expect_final=True] whose slot is unfilled: every res frame with its id
    whose payload is a mapping with status ["accepted"] leaves the client
    unchanged (the request stays pending), whatever its [ok]; and the first
    later res frame with its id whose payload is not such a mapping, and
    whose error field, when [ok] is false, is absent or a mapping,
    completes it: the entry leaves the pending map and the slot receives
    the payload when [ok] is true, the error message otherwise. *)
Theorem expect_final_completes_on_first_non_ack c k p acks final :
  pending c !! k = Some p → expect_final p = true → k ≠ [] →
  fut_done (futures c) (future p) = false →
  Forall (λ r, res_for k r = true
               ∧ is_accepted_ack (frame_field r (lit "payload")) = true) acks →
  res_for k final = true →
  is_accepted_ack (frame_field final (lit "payload")) = false →
  truthy (frame_field final (lit "ok")) = true ∨ error_is_mapping final = true →
  for_each acks _handle_response c = (Return tt, c)
  ∧ for_each (acks ++ [final]) _handle_response c
    = (Return tt,
       set_futures (<[future p := completion final]> (futures c))
         (set_pending (delete k (pending c)) c)).
Proof.
  intros Hp Hef Hk Hdone Hacks Hid Hnack Herr.
  assert (Hloop : for_each acks _handle_response c = (Return tt, c)).
  { induction Hacks as [|r acks [Hr1 Hr2] _ IH]; [done|].
    simpl. unfold bind. by rewrite (handle_response_ack c k p r). }
  split; [done|]. rewrite for_each_snoc, Hloop.
  apply handle_response_complete; try done. by rewrite Hnack, andb_false_r.
Qed.

Lemma expect_final_completes_on_first_non_ack_witness :
  for_each [Sample.ack_frame; Sample.ack_frame] _handle_response Sample.agent_client
  = (Return tt, Sample.agent_client)
  ∧ for_each ([Sample.ack_frame; Sample.ack_frame] ++ [Sample.final_frame])
      _handle_response Sample.agent_client
    = (Return tt,
       set_futures (<[0%nat := completion Sample.final_frame]>
                      (futures Sample.agent_client))
         (set_pending (delete (lit "r1") (pending Sample.agent_client))
            Sample.agent_client)).
Proof.
  apply (expect_final_completes_on_first_non_ack Sample.agent_client (lit "r1")
           (mkPendingRequest 0 true)).
  - by vm_compute.
  - reflexivity.
  - vm_compute. discriminate.
  - by vm_compute.
  - repeat constructor.
  - by vm_compute.
  - by vm_compute.
  - left. by vm_compute.
Defined.

(** The same frames, seen from the caller: [request(..., expect_final=True)]
    on a client with an open socket resolves with the payload of the first
    frame that is not an acknowledgment. *)
Example request_expect_final_resolves :
  let payload (status : pystr) := JObj [(lit "status", JStr status)] in
  let res (ok : bool) (status : pystr) :=
    JObj [(lit "type", JStr (lit "res")); (lit "id", JStr (lit "a1"));
          (lit "ok", JBool ok); (lit "payload", payload status)] in
  let env frames :=
    mkRequestEnv (lit "a1") true (λ c, snd (for_each frames _handle_response c)) in
  fst (request (lit "agent") JNull true
         (env [res true (lit "accepted"); res true (lit "accepted"); res true (lit "ok")])
         Sample.connected_client)
  = Return (payload (lit "ok"))
  ∧ fst (request (lit "agent") JNull true
           (env [res true (lit "accepted"); res false (lit "accepted")])
           Sample.connected_client)
    = Raise (Exn Exception_ (ArgFmt msg_request_timeout (JStr (lit "agent")))).
Proof. by vm_compute. Qed.

(** C1 as stated fails twice. A res frame with [ok == false] whose payload
    still says ["accepted"] does not complete the request: the client is
    unchanged. And a res frame with [ok == false], another status and an
    error that is [null] does not complete it either: [error.get] raises
    after the entry was deleted, and the slot stays unfilled. *)
Lemma expect_final_failed_ack_stays_pending :
  pending Sample.agent_client !! lit "r1" = Some (mkPendingRequest 0 true)
  ∧ fut_done (futures Sample.agent_client) 0 = false
  ∧ (res_for (lit "r1") Sample.failed_ack_frame = true
     ∧ frame_field Sample.failed_ack_frame (lit "ok") = JBool false
     ∧ _handle_response Sample.failed_ack_frame Sample.agent_client
       = (Return tt, Sample.agent_client))
  ∧ (res_for (lit "r1") Sample.null_error_frame = true
     ∧ frame_field Sample.null_error_frame (lit "ok") = JBool false
     ∧ is_accepted_ack (frame_field Sample.null_error_frame (lit "payload")) = false
     ∧ fst (_handle_response Sample.null_error_frame Sample.agent_client)
       = Raise (no_attribute "get")
     ∧ fut_done
         (futures (snd (_handle_response Sample.null_error_frame Sample.agent_client))) 0
       = false
     ∧ pending (snd (_handle_response Sample.null_error_frame Sample.agent_client))
         !! lit "r1"
       = None).
Proof. vm_compute. by repeat split. Qed.

End Responses.

Section Connect.

Implicit Types (c : MoltbotClient).

Ltac outcome_ok :=
  eexists; split; [reflexivity|]; intros ? ?; simplify_eq; reflexivity.

Lemma await_challenge_spec env c :
  ∃ o, await_challenge env c = (o, c)
    ∧ (∀ e, o = Raise e → is_Exception (exn_cls e) = true).
Proof.
  unfold await_challenge, ws_recv, json_loads, try_except, except_TimeoutError.
  run_py. destruct (ws c) as [s|]; simpl; [|outcome_ok].
  destruct (hs_first env) as [| |[fd|[]]]; simpl; try outcome_ok.
  unfold py_get.
  destruct fd as [| | | | |f]; simpl; try outcome_ok.
  destruct (py_eq_str (default JNull (dict_lookup (lit "type") f)) (lit "event")); simpl;
    [|outcome_ok].
  destruct (py_eq_str (default JNull (dict_lookup (lit "event") f))
              (lit "connect.challenge")); simpl; [|outcome_ok].
  destruct (default (JObj []) (dict_lookup (lit "payload") f)); simpl; outcome_ok.
Qed.

Lemma await_hello_spec env c :
  ∃ o, await_hello env c = (o, c)
    ∧ (∀ e, o = Raise e → is_Exception (exn_cls e) = true)
    ∧ (∀ v, o = Return v → handshake_refused env = true → v = JNull).
Proof.
  unfold await_hello, handshake_refused, ws_recv, json_loads.
  run_py. destruct (ws c) as [s|]; simpl;
    [|eexists; split; [reflexivity|]; split; intros ? ?; simplify_eq; reflexivity].
  destruct (hs_second env) as [| |[r|[]]]; simpl;
    try (eexists; split; [reflexivity|]; split; intros ? ?; simplify_eq; reflexivity).
  unfold py_get, frame_field.
  destruct r as [| | | | |f]; simpl;
    try (eexists; split; [reflexivity|]; split; intros ? ?; simplify_eq; reflexivity).
  destruct (py_eq_str (default JNull (dict_lookup (lit "type") f)) (lit "res")); simpl;
    [|eexists; split; [reflexivity|]; split; intros ? ?; simplify_eq; reflexivity].
  destruct (py_eq_str (default JNull (dict_lookup (lit "id") f)) (hs_req_id env)); simpl;
    [|eexists; split; [reflexivity|]; split; intros ? ?; simplify_eq; reflexivity].
  destruct (truthy (default JNull (dict_lookup (lit "ok") f))); simpl.
  - eexists; split; [reflexivity|]; split; intros ? ?; simplify_eq. discriminate.
  - destruct (default (JObj []) (dict_lookup (lit "error") f)); simpl;
      eexists; (split; [reflexivity|]); split; intros ? ?; simplify_eq; reflexivity.
Qed.

(** [_send_connect] never raises; it touches neither the tasks nor the
    pending map, and it yields [None] when the handshake is refused. *)
Lemma send_connect_spec env c :
  ∃ v c', _send_connect env c = (Return v, c')
    ∧ c' = set_sent (sent c') c
    ∧ (handshake_refused env = true → v = JNull).
Proof.
  assert (Hc : c = set_sent (sent c) c) by by destruct c.
  unfold _send_connect, try_except, except_Exception. run_py.
  destruct (await_challenge_spec env c) as (o1 & -> & H1).
  destruct o1 as [[]|e1].
  2:{ rewrite (H1 e1 eq_refl). by exists JNull, c. }
  unfold ws_send. run_py.
  destruct (ws c) as [s|]; simpl; [|by exists JNull, c].
  destruct (hs_delivered env); simpl; [|by exists JNull, c].
  destruct (await_hello_spec env (set_sent (sent c ++ [(s, connect_frame (cfg c) env)]) c))
    as (o2 & -> & H2 & H3).
  destruct o2 as [v|e2].
  - eexists _, _. split; [reflexivity|]. split; [reflexivity|]. by apply H3.
  - rewrite (H2 e2 eq_refl). eexists _, _. split; [reflexivity|]. by split.
Qed.

Lemma cancel_task_running t ts t' :
  cancel_task t ts !! t' = Some TaskRunning → ts !! t' = Some TaskRunning.
Proof.
  unfold cancel_task. destruct (ts !! t) as [[]|] eqn:Ht; try done.
  destruct (decide (t = t')) as [->|Hne].
  - by rewrite lookup_insert_eq.
  - by rewrite lookup_insert_ne.
Qed.

Lemma cleanup_connection_spec c :
  ∃ c', _cleanup_connection c = (Return tt, c')
    ∧ connected c' = false ∧ _recv_task c' = None ∧ ws c' = None
    ∧ pending c' = ∅ ∧ _closed c' = _closed c
    ∧ (∀ t, tasks c' !! t = Some TaskRunning → tasks c !! t = Some TaskRunning).
Proof.
  unfold _cleanup_connection. run_py.
  destruct (_recv_task c) as [t|], (ws c) as [s|] eqn:Hws; simpl;
    eexists; (split; [reflexivity|]); simpl; rewrite ?Hws;
    repeat (split; [reflexivity|]);
    intros t'; try done; apply cancel_task_running.
Qed.

(** [connect()] always returns, and when it returns failure on a client
    that is not closed, the client is left disconnected with no receive
    task. *)
Lemma connect_returns env c :
  ∃ b c', connect env c = (Return b, c')
    ∧ _closed c' = _closed c
    ∧ (b = false → _closed c = false →
       connected c' = false ∧ _recv_task c' = None
       ∧ ∀ t, tasks c' !! t = Some TaskRunning → tasks c !! t = Some TaskRunning)
    ∧ (b = true → handshake_refused (cn_handshake env) = false).
Proof.
  unfold connect. run_py. destruct (_closed c) eqn:Hcl.
  { exists false, c. by rewrite Hcl. }
  destruct (cleanup_connection_spec c) as (c1 & -> & Hc1 & Hr1 & Hw1 & Hp1 & Hcl1 & Ht1).
  unfold try_except, except_Exception, websockets_connect, create_task. run_py.
  destruct (cn_opened env); simpl.
  2:{ destruct (cleanup_connection_spec c1) as (c2 & -> & Hc2 & Hr2 & _ & _ & Hcl2 & Ht2).
      exists false, c2. split; [done|]. split; [congruence|]. split; [|done].
      intros _ _. split; [done|]. split; [done|]. intros t Ht. by apply Ht1, Ht2. }
  set (c2 := set_ws _ (set_sockets _ c1)).
  destruct (send_connect_spec (cn_handshake env) c2) as (v & c3 & -> & Hc3 & Hv).
  assert (Hf3 : tasks c3 = tasks c1 ∧ _closed c3 = _closed c1).
  { rewrite Hc3. by subst c2. }
  destruct Hf3 as [Htk3 Hcl3].
  destruct (truthy v) eqn:Htv; simpl.
  - destruct (py_get v (lit "protocol") JNull) as [pr|e] eqn:Hpr; simpl.
    + exists true. eexists. split; [reflexivity|]. simpl. split; [congruence|].
      split; [done|]. intros _. destruct (handshake_refused (cn_handshake env)); [|done].
      rewrite Hv in Htv by done. done.
    + assert (He : is_Exception (exn_cls e) = true).
      { unfold py_get in Hpr. destruct v; by simplify_eq. }
      rewrite He.
      destruct (cleanup_connection_spec (set_connected true c3))
        as (c4 & -> & Hc4 & Hr4 & _ & _ & Hcl4 & Ht4).
      exists false, c4. split; [done|]. split; [simpl in Hcl4; congruence|].
      split; [|done]. intros _ _. split; [done|]. split; [done|].
      intros t Ht. apply Ht1. rewrite <- Htk3. by apply Ht4.
  - destruct (cleanup_connection_spec c3) as (c4 & -> & Hc4 & Hr4 & _ & _ & Hcl4 & Ht4).
    exists false, c4. split; [done|]. split; [congruence|].
    split; [|done]. intros _ _. split; [done|]. split; [done|].
    intros t Ht. apply Ht1. rewrite <- Htk3. by apply Ht4.
Qed.

(** C6. On a client that is not closed, when the handshake does not succeed
    (the wait for the res frame times out or the connection closes, the
    message is not JSON or not a mapping, its type or id does not match, or
    [ok] is false), [connect()] returns [False] and does not raise, the
    [connected] flag is false afterwards, [_recv_task] is unset, and no
    task is running that was not running before. *)
Theorem connect_reports_handshake_failure env c :
  _closed c = false →
  handshake_refused (cn_handshake env) = true →
  ∃ c', connect env c = (Return false, c')
    ∧ connected c' = false
    ∧ _recv_task c' = None
    ∧ (∀ t, tasks c' !! t = Some TaskRunning → tasks c !! t = Some TaskRunning).
Proof.
  intros Hcl Href.
  destruct (connect_returns env c) as (b & c' & Hrun & _ & Hfail & Hok).
  destruct b.
  - rewrite Hok in Href; done.
  - exists c'. split; [done|]. by apply Hfail.
Qed.

End Connect.

Section Reconnect.

Local Open Scope Z_scope.

Lemma reconnect_loop_chain turns b c :
  ∃ waits c', reconnect_loop turns b c = (Return waits, c') ∧ backoff_chain b waits.
Proof.
  revert b c. induction turns as [|turn turns IH]; intros b c; simpl.
  - by exists [], c.
  - run_py. destruct (negb (_closed c) && negb (connected c)); simpl; [|by exists [], c].
    destruct (_closed (tn_meanwhile turn c)) eqn:Hcl; simpl.
    + by eexists [b], _.
    + destruct (connect_returns (tn_connect turn) (tn_meanwhile turn c))
        as ([] & c1 & -> & _).
      * by eexists [b], _.
      * destruct (IH (Z.min (b * 2) max_backoff) c1) as (waits & c2 & -> & Hchain).
        by eexists (b :: waits), _.
Qed.

Lemma backoff_chain_bounds b waits :
  1 ≤ b ≤ 30 → backoff_chain b waits →
  (∀ w, waits !! 0%nat = Some w → w = b)
  ∧ (∀ i w w', waits !! i = Some w → waits !! S i = Some w' →
               w' = Z.min (2 * w) 30 ∧ w ≤ w')
  ∧ (∀ i w, waits !! i = Some w → 1 ≤ w ≤ 30).
Proof.
  revert b. induction waits as [|x waits IH]; intros b Hb Hchain.
  - repeat split; intros; simplify_eq.
  - destruct Hchain as [-> Hchain]. unfold max_backoff in Hchain.
    destruct (IH (Z.min (b * 2) 30)) as (H0 & Hstep & Hbound); [lia|done|].
    split; [by intros w [= <-]|]. split.
    + intros [|i] w w' Hw Hw'; simpl in *.
      * injection Hw as <-. apply H0 in Hw'. lia.
      * by apply (Hstep i).
    + intros [|i] w Hw; simpl in *.
      * injection Hw as <-. lia.
      * by apply (Hbound i).
Qed.


Lemma connect_unreachable env c :
  cn_opened env = false → _closed c = false →
  ∃ c', connect env c = (Return false, c') ∧ _closed c' = false ∧ connected c' = false.
Proof.
  intros Hopen Hcl. unfold connect. run_py. rewrite Hcl.
  destruct (cleanup_connection_spec c) as (c1 & -> & _ & _ & _ & _ & Hcl1 & _).
  unfold try_except, except_Exception, websockets_connect. run_py. rewrite Hopen. simpl.
  destruct (cleanup_connection_spec c1) as (c2 & -> & Hc2 & _ & _ & _ & Hcl2 & _).
  exists c2. split; [done|]. split; [congruence|done].
Qed.

(** The loop really waits: while the gateway cannot be reached and nobody
    closes the client, every turn adds a wait. *)
Lemma reconnect_waits_every_turn turns c :
  _closed c = false → connected c = false →
  Forall (λ turn, (∀ c0, tn_meanwhile turn c0 = c0)
                  ∧ cn_opened (tn_connect turn) = false) turns →
  ∃ waits c', _reconnect turns c = (Return waits, c') ∧ length waits = length turns.
Proof.
  intros Hcl Hco Hturns. unfold _reconnect. run_py. rewrite Hcl.
  generalize 1. revert c Hcl Hco.
  induction Hturns as [|turn turns [Hid Hopen] _ IH]; intros c Hcl Hco b.
  - by exists [], c.
  - simpl. run_py. rewrite Hcl, Hco. simpl. rewrite !Hid, Hcl.
    destruct (connect_unreachable (tn_connect turn) c Hopen Hcl) as (c1 & -> & Hcl1 & Hco1).
    destruct (IH c1 Hcl1 Hco1 (Z.min (b * 2) max_backoff)) as (waits & c2 & -> & Hlen).
    exists (b :: waits), c2. split; [done|]. simpl. by rewrite Hlen.
Qed.

(** Seven attempts in a row that cannot reach the gateway. *)
Example reconnect_seven_failures :
  fst (_reconnect (replicate 7 Sample.failed_turn) (new_client Sample.config))
  = Return [1; 2; 4; 8; 16; 30; 30].
Proof. by vm_compute. Qed.

End Reconnect.

Section Dispatch.

Context {W : Type}.
Variable run_handler : nat → list json → W → outcome unit * W.

Lemma guarded_call h args rt :
  handlers_raise_Exception run_handler →
  ∃ w', guarded run_handler h args rt
        = (Return tt, mkRuntime (rt_client rt) w' (rt_calls rt ++ [(h, args)])).
Proof.
  intros Hexc. unfold guarded, try_except, call_handler, except_Exception, ret.
  destruct (run_handler h args (rt_world rt)) as [[[]|e] w1] eqn:Hrun.
  - by exists w1.
  - rewrite (Hexc _ _ _ _ _ Hrun). by exists w1.
Qed.



End Dispatch.


(** ** Exceptions that [except Exception] catches *)

Create HintDb py_safe.

Lemma only_Exception_ret {S A} (a : A) : only_Exception (S:=S) (ret a).
Proof. by intros s e s' [=]. Qed.

Lemma only_Exception_modify {S} (f : S → S) : only_Exception (modify f).
Proof. by intros s e s' [=]. Qed.

Lemma only_Exception_get_self {S} : only_Exception (S:=S) get_self.
Proof. by intros s e s' [=]. Qed.

Lemma only_Exception_raise {S A} (e : exn) :
  is_Exception (exn_cls e) = true → only_Exception (S:=S) (A:=A) (raise e).
Proof. by intros He s e' s' [= <- _]. Qed.

Lemma only_Exception_bind {S A B} (m : M S A) (k : A → M S B) :
  only_Exception m → (∀ a, only_Exception (k a)) → only_Exception (bind m k).
Proof.
  intros Hm Hk s e s'. unfold bind. destruct (m s) as [[a|e1] s1] eqn:Hms.
  - apply Hk.
  - intros [= <- _]. by apply (Hm s e1 s1).
Qed.

Lemma only_Exception_for_each {S A} (l : list A) (body : A → M S unit) :
  (∀ x, only_Exception (body x)) → only_Exception (for_each l body).
Proof.
  intros Hbody. induction l as [|x l IH]; simpl.
  - apply only_Exception_ret.
  - apply only_Exception_bind; [apply Hbody|by intros _].
Qed.

Lemma only_Exception_try_except {S A} (m : M S A) catches (handler : exn → M S A) :
  only_Exception m → (∀ e, only_Exception (handler e)) →
  only_Exception (try_except m catches handler).
Proof.
  intros Hm Hh s e s'. unfold try_except. destruct (m s) as [[a|e1] s1] eqn:Hms.
  - by intros [=].
  - destruct (catches e1).
    + apply Hh.
    + intros [= <- _]. by apply (Hm s e1 s1).
Qed.

Lemma only_Exception_py_get {S} d k dflt : only_Exception (S:=S) (lift (py_get d k dflt)).
Proof. intros s e s'. unfold lift, py_get. destruct d; by intros [= <- _]. Qed.

Lemma only_Exception_py_iter {S} v : only_Exception (S:=S) (lift (py_iter v)).
Proof. intros s e s'. unfold lift, py_iter. destruct v; by intros [= <- _]. Qed.

Lemma only_Exception_py_slice {S} v : only_Exception (S:=S) (lift (py_slice v)).
Proof. intros s e s'. unfold lift, py_slice. destruct v; by intros [= <- _]. Qed.

Lemma only_Exception_py_len {S} v : only_Exception (S:=S) (lift (py_len v)).
Proof. intros s e s'. unfold lift, py_len. destruct v; by intros [= <- _]. Qed.

#[export] Hint Resolve only_Exception_ret only_Exception_modify only_Exception_get_self
  only_Exception_py_get only_Exception_py_iter only_Exception_py_slice
  only_Exception_py_len : py_safe.

(** ** What a computation leaves alone *)

Lemma keeps_ret {S A X} (f : S → X) (a : A) : keeps f (ret a).
Proof. done. Qed.

Lemma keeps_raise {S A X} (f : S → X) (e : exn) : keeps f (raise (A:=A) e).
Proof. done. Qed.

Lemma keeps_lift {S A X} (f : S → X) (o : outcome A) : keeps f (lift o).
Proof. done. Qed.

Lemma keeps_get_self {S X} (f : S → X) : keeps f get_self.
Proof. done. Qed.

Lemma keeps_modify {S X} (f : S → X) (g : S → S) :
  (∀ s, f (g s) = f s) → keeps f (modify g).
Proof. intros Hg s. apply Hg. Qed.

Lemma keeps_bind {S A B X} (f : S → X) (m : M S A) (k : A → M S B) :
  keeps f m → (∀ a, keeps f (k a)) → keeps f (bind m k).
Proof.
  intros Hm Hk s. unfold bind. specialize (Hm s).
  destruct (m s) as [[a|e] s1]; simpl in *; [|done]. by rewrite Hk.
Qed.

Ltac keeps_step :=
  first
    [ apply keeps_bind; [|intros ?]
    | apply keeps_ret | apply keeps_raise | apply keeps_lift | apply keeps_get_self
    | apply keeps_modify; intros ?; reflexivity
    | match goal with
      | |- keeps _ (if ?b then _ else _) => destruct b
      | |- keeps _ (match ?x with _ => _ end) => destruct x
      end ].

Lemma handle_response_keeps_handlers frame :
  keeps event_handlers (_handle_response frame).
Proof.
  unfold _handle_response, pending_delitem, future_set_result, future_set_exception,
    future_set.
  repeat keeps_step.
Qed.

Section ChatStreaming.

Variable session_key : pystr.

Implicit Types (st : ChatStream) (items : list json)
  (on_delta : option (json → outcome unit)).

Lemma call_on_delta_returns callback v st :
  callback_raises_Exception (Some callback) →
  call_on_delta callback v st = (Return tt, log_delta_call v st).
Proof.
  intros Hcb. unfold call_on_delta, try_except, except_Exception. run_py.
  destruct (callback v) as [[]|e] eqn:Hcall; [done|].
  by rewrite (Hcb v e Hcall).
Qed.

Lemma delta_item_spec on_delta item st :
  callback_raises_Exception on_delta →
  content_item_ok item = true →
  ∃ st1,
    delta_item on_delta item st = (Return tt, st1)
    ∧ response_complete st1 = response_complete st
    ∧ response_error st1 = response_error st
    ∧ match text_of_item item with
      | Some t => response_text st1 = t
                  ∧ delta_calls st1 = delta_calls st ++ fragments on_delta [t]
      | None => response_text st1 = response_text st
                ∧ delta_calls st1 = delta_calls st
      end.
Proof.
  intros Hcb Hitem.
  unfold content_item_ok in Hitem. apply andb_true_iff in Hitem as [Hd Ht].
  destruct item as [| | | | |f]; try discriminate.
  unfold delta_item. run_py. simpl in Ht |- *.
  destruct (py_eq_str (default JNull (dict_lookup (lit "type") f)) (lit "text")).
  - destruct (default (JStr []) (dict_lookup (lit "text") f)) as [| | |t| |];
      try discriminate.
    simpl. unfold fragments. destruct on_delta as [callback|]; simpl.
    + destruct (bool_decide (t = [])) eqn:Hempty; simpl.
      * eexists. split; [reflexivity|]. simpl.
        rewrite filter_cons_False, filter_nil, app_nil_r; [done|].
        simpl. by rewrite Hempty.
      * rewrite (call_on_delta_returns callback (JStr t)) by done.
        eexists. split; [reflexivity|]. simpl.
        rewrite filter_cons_True, filter_nil; [done|].
        simpl. by rewrite Hempty.
    + eexists. split; [reflexivity|]. simpl. by rewrite app_nil_r.
  - eexists. by split.
Qed.

Lemma delta_items_spec on_delta items st :
  callback_raises_Exception on_delta →
  forallb content_item_ok items = true →
  for_each items (delta_item on_delta) st
  = (Return tt,
     mkChatStream (default (response_text st) (last (texts items)))
       (response_complete st) (response_error st)
       (delta_calls st ++ fragments on_delta (texts items))).
Proof.
  intros Hcb. revert st. induction items as [|item items IH]; intros st Hok.
  - simpl. unfold ret, fragments. destruct on_delta; simpl; rewrite app_nil_r;
      by destruct st.
  - simpl in Hok. apply andb_true_iff in Hok as [Hitem Hok].
    simpl. unfold bind at 1.
    destruct (delta_item_spec on_delta item st Hcb Hitem)
      as (st1 & -> & Hc & He & Hitem1).
    rewrite (IH st1 Hok). f_equal. unfold texts. simpl.
    destruct (text_of_item item) as [t|]; destruct Hitem1 as [Htext Hcalls].
    + rewrite Hc, He, Hcalls. f_equal.
      * rewrite last_cons. destruct (last (omap text_of_item items)); simpl; congruence.
      * rewrite <- app_assoc. f_equal. unfold fragments.
        destruct on_delta; [|done]. by rewrite <- filter_app.
    + by rewrite Hc, He, Hcalls, Htext.
Qed.

Lemma final_items_spec items st :
  forallb content_item_ok items = true →
  for_each items final_item st
  = (Return tt, set_response_text (default (response_text st) (last (texts items))) st).
Proof.
  revert st. induction items as [|item items IH]; intros st Hok.
  - simpl. unfold ret. by destruct st.
  - simpl in Hok. apply andb_true_iff in Hok as [Hitem Hok].
    simpl. unfold bind at 1.
    unfold content_item_ok in Hitem. apply andb_true_iff in Hitem as [Hd _].
    destruct item as [| | | | |f]; try discriminate.
    unfold final_item at 1. run_py. unfold texts. simpl.
    destruct (py_eq_str (default JNull (dict_lookup (lit "type") f)) (lit "text")); simpl.
    + rewrite (IH _ Hok). rewrite last_cons. unfold texts. simpl.
      by destruct (last (omap text_of_item items)).
    + by rewrite (IH _ Hok).
Qed.

Lemma handle_chat_event_delta on_delta payload items st :
  callback_raises_Exception on_delta →
  chat_event_with session_key (lit "delta") items payload →
  forallb content_item_ok items = true →
  handle_chat_event session_key on_delta payload st
  = (Return tt,
     mkChatStream (default (response_text st) (last (texts items)))
       (response_complete st) (response_error st)
       (delta_calls st ++ fragments on_delta (texts items))).
Proof.
  intros Hcb (msg & Hsk & Hstate & Hmsg & Hne & Hcontent) Hok.
  unfold handle_chat_event. unfold bind at 1, lift at 1. rewrite Hsk. simpl.
  rewrite bool_decide_eq_true_2 by done. simpl.
  unfold bind at 1, lift at 1. rewrite Hstate.
  unfold bind at 1, lift at 1. rewrite Hmsg. simpl.
  destruct msg as [|kv msg']; [done|].
  unfold bind at 1, lift at 1, py_get. rewrite Hcontent. simpl.
  unfold bind at 1, lift at 1. simpl. by apply delta_items_spec.
Qed.

Lemma handle_chat_event_final on_delta payload items st t :
  chat_event_with session_key (lit "final") items payload →
  forallb content_item_ok items = true →
  last (texts items) = Some t →
  handle_chat_event session_key on_delta payload st
  = (Return tt,
     mkChatStream t true (response_error st) (delta_calls st)).
Proof.
  intros (msg & Hsk & Hstate & Hmsg & Hne & Hcontent) Hok Hlast.
  assert (Hstr : is_str t = true).
  { apply last_Some in Hlast as (l' & Hl). unfold texts in Hl.
    assert (Hin : t ∈ omap text_of_item items) by (rewrite Hl; set_solver).
    apply list_elem_of_omap in Hin as (item & Hitem & Ht).
    rewrite forallb_forall in Hok. apply list_elem_of_In, Hok in Hitem.
    unfold content_item_ok in Hitem. rewrite Ht in Hitem.
    by apply andb_true_iff in Hitem as [_ ?]. }
  unfold handle_chat_event. unfold bind at 1, lift at 1. rewrite Hsk. simpl.
  rewrite bool_decide_eq_true_2 by done. simpl.
  unfold bind at 1, lift at 1. rewrite Hstate.
  unfold bind at 1, lift at 1. rewrite Hmsg. simpl.
  destruct msg as [|kv msg']; [done|].
  unfold bind at 1. unfold bind at 1, lift at 1, py_get. rewrite Hcontent. simpl.
  unfold bind at 1, lift at 1. simpl. rewrite (final_items_spec items st Hok), Hlast.
  run_py. destruct t; try discriminate. reflexivity.
Qed.

Lemma unregister_chat_spec h c :
  unregister_chat h c
  = (Return tt,
     match event_handlers c !! lit "chat" with
     | Some l => set_event_handlers (<[lit "chat" := remove_first h l]> (event_handlers c)) c
     | None => c
     end).
Proof. unfold unregister_chat. run_py. by destruct (event_handlers c !! lit "chat"). Qed.

Lemma finally_unregister {A} (m : M MoltbotClient A) h c :
  try_finally m (unregister_chat h) c
  = (fst (m c), snd (unregister_chat h (snd (m c)))).
Proof.
  unfold try_finally. destruct (m c) as [r c']. simpl. by rewrite !unregister_chat_spec.
Qed.

Lemma reraise_TimeoutError {A} (m : M MoltbotClient A) c :
  try_except m except_TimeoutError (λ e, raise e) c = m c.
Proof.
  unfold try_except, raise. destruct (m c) as [[a|e] c']; [done|].
  by destruct (except_TimeoutError e).
Qed.

Lemma chat_try_paths on_delta (params : json) (env : chat_env) c1 :
  chat_try session_key on_delta params env c1
  = match request (lit "chat.send") params false (ce_request env) c1 with
    | (Raise e, c2) => (Raise e, c2)
    | (Return result, c2) =>
        if ack_reports_error result then
          (Raise (Exn Exception_
                    (ArgFmt msg_chat_send_failed
                       (default (JStr msg_unknown_error)
                          (match result with
                           | JObj f => dict_lookup (lit "summary") f
                           | _ => None
                           end)))),
           c2)
        else (chat_outcome (final_stream session_key on_delta env), ce_meanwhile env c2)
    end.
Proof.
  unfold chat_try. unfold bind at 1.
  destruct (request (lit "chat.send") params false (ce_request env) c1)
    as [[result|e] c2]; [|done].
  unfold ack_reports_error, chat_outcome.
  destruct result as [| | | | |f]; simpl;
    try (run_py; destruct (response_complete _); simpl; [|done];
         by destruct (response_error _)).
  run_py.
  destruct (py_eq_str (default JNull (dict_lookup (lit "status") f)) (lit "error")); simpl;
    [done|].
  destruct (response_complete _); simpl; [|done]. by destruct (response_error _).
Qed.

(** [chat_send], path by path. *)
Lemma chat_send_paths (message : pystr) (thinking : json) on_delta
    (image_attachments : json) (env : chat_env) c :
  chat_send session_key message thinking on_delta image_attachments env c
  = match chat_params session_key message thinking image_attachments
            (ce_idempotency_key env) with
    | Raise e => (Raise e, c)
    | Return params =>
        match request (lit "chat.send") params false (ce_request env)
                (snd (on_event (lit "chat") (ce_handler env) c)) with
        | (Raise e, c2) => (Raise e, snd (unregister_chat (ce_handler env) c2))
        | (Return result, c2) =>
            if ack_reports_error result then
              (Raise (Exn Exception_
                        (ArgFmt msg_chat_send_failed
                           (default (JStr msg_unknown_error)
                              (match result with
                               | JObj f => dict_lookup (lit "summary") f
                               | _ => None
                               end)))),
               snd (unregister_chat (ce_handler env) c2))
            else
              (chat_outcome (final_stream session_key on_delta env),
               snd (unregister_chat (ce_handler env) (ce_meanwhile env c2)))
        end
    end.
Proof.
  unfold chat_send. unfold bind at 1, lift at 1.
  destruct (chat_params _ _ _ _ _) as [params|e]; [|done].
  unfold bind at 1, on_event at 1, modify at 1. simpl.
  rewrite finally_unregister, reraise_TimeoutError, chat_try_paths.
  unfold on_event, modify. simpl.
  destruct (request _ _ _ _ _) as [[result|e] c2]; [|done].
  by destruct (ack_reports_error result).
Qed.

(** *** The registry across [chat_send] *)

Lemma occurrences_snoc h l : occurrences h (l ++ [h]) = S (occurrences h l).
Proof.
  unfold occurrences. rewrite filter_app, length_app.
  rewrite filter_cons_True by done. simpl. lia.
Qed.

Lemma occurrences_zero h l : occurrences h l = 0%nat ↔ h ∉ l.
Proof.
  unfold occurrences. induction l as [|x l IH].
  - split; [intros _; apply not_elem_of_nil|done].
  - destruct (decide (x = h)) as [->|Hne].
    + rewrite filter_cons_True by done. simpl. split; [done|].
      intros Hn. exfalso. apply Hn. by left.
    + rewrite filter_cons_False by done. rewrite IH, not_elem_of_cons.
      split; [by intros ?; split|by intros [_ ?]].
Qed.

Lemma occurrences_remove_first h l :
  occurrences h (remove_first h l) = pred (occurrences h l).
Proof.
  unfold occurrences. induction l as [|x l IH]; [done|]. simpl.
  destruct (decide (x = h)) as [->|Hne].
  - rewrite bool_decide_eq_true_2 by done. by rewrite filter_cons_True.
  - rewrite bool_decide_eq_false_2 by done. by rewrite !filter_cons_False.
Qed.

Lemma chat_handlers_on_event h c :
  chat_handlers (snd (on_event (lit "chat") h c)) = chat_handlers c ++ [h].
Proof. unfold on_event, modify, chat_handlers. simpl. by rewrite lookup_insert_eq. Qed.

Lemma chat_handlers_unregister h c :
  occurrences h (chat_handlers (snd (unregister_chat h c)))
  = pred (occurrences h (chat_handlers c)).
Proof.
  rewrite unregister_chat_spec. unfold chat_handlers. simpl.
  destruct (event_handlers c !! lit "chat") as [l|] eqn:Hl; simpl.
  - rewrite lookup_insert_eq. simpl. apply occurrences_remove_first.
  - by rewrite Hl.
Qed.

(** [request] leaves the registry to the other tasks. *)
Lemma request_keeps_handlers (method : pystr) (params : json) (expect_final : bool)
    (env : request_env) h c :
  (∀ c0, occurrences h (chat_handlers (rq_meanwhile env c0))
         = occurrences h (chat_handlers c0)) →
  occurrences h (chat_handlers (snd (request method params expect_final env c)))
  = occurrences h (chat_handlers c).
Proof.
  intros Hmean. unfold request, create_future, ws_send, wait_for_future,
    forget_request, try_except. run_py.
  destruct (ws c) as [s|] eqn:Hws; simpl; [|done]. rewrite ?Hws.
  destruct (rq_delivered env); simpl.
  - match goal with
    | |- context [rq_meanwhile env ?x] =>
        pose proof (Hmean x) as Hx; destruct (futures (rq_meanwhile env x) !! _)
          as [[| | |]|]; simpl
    end;
      repeat match goal with
        | |- context [if ?b then _ else _] => destruct b; simpl
        end;
      exact Hx.
  - done.
Qed.

(** C5. Whatever the environment and whichever way [chat_send] ends, by
    returning or by raising, the closure it registered for ["chat"] is not
    in the registry when it ends, no other task having registered or
    removed that closure. *)
Theorem chat_send_always_unregisters (message : pystr) (thinking : json) on_delta
    (image_attachments : json) (env : chat_env) c :
  ce_handler env ∉ chat_handlers c →
  (∀ c0, occurrences (ce_handler env) (chat_handlers (rq_meanwhile (ce_request env) c0))
         = occurrences (ce_handler env) (chat_handlers c0)) →
  (∀ c0, occurrences (ce_handler env) (chat_handlers (ce_meanwhile env c0))
         = occurrences (ce_handler env) (chat_handlers c0)) →
  ce_handler env
  ∉ chat_handlers
      (snd (chat_send session_key message thinking on_delta image_attachments env c)).
Proof.
  intros Hfresh Hreq Hmean.
  destruct (chat_send _ _ _ _ _ _ _) as [o c'] eqn:Hrun. simpl. revert Hrun.
  rewrite chat_send_paths.
  destruct (chat_params _ _ _ _ _) as [params|e]; [|by intros [= _ <-]].
  set (h := ce_handler env) in *.
  pose proof (request_keeps_handlers (lit "chat.send") params false (ce_request env) h
                (snd (on_event (lit "chat") h c)) Hreq) as Hkeep.
  rewrite chat_handlers_on_event, occurrences_snoc in Hkeep.
  apply occurrences_zero in Hfresh. rewrite Hfresh in Hkeep.
  destruct (request _ _ _ _ _) as [[result|e] c2]; simpl in Hkeep.
  - destruct (ack_reports_error result); intros [= _ <-];
      apply occurrences_zero; rewrite chat_handlers_unregister, ?Hmean, Hkeep; done.
  - intros [= _ <-]. apply occurrences_zero.
    by rewrite chat_handlers_unregister, Hkeep.
Qed.

(** *** The events reach the closure *)

Lemma call_on_delta_only_Exception callback v :
  callback_raises_Exception (Some callback) →
  only_Exception (call_on_delta callback v).
Proof. intros Hcb st e st'. by rewrite call_on_delta_returns. Qed.

Lemma handle_chat_event_only_Exception on_delta payload :
  callback_raises_Exception on_delta →
  only_Exception (handle_chat_event session_key on_delta payload).
Proof.
  intros Hcb. unfold handle_chat_event, delta_item, final_item.
  repeat first
    [ apply only_Exception_bind; [|intros ?]
    | apply only_Exception_for_each; intros ?
    | match goal with
      | |- only_Exception (if ?b then _ else _) => destruct b
      | |- only_Exception (match on_delta with _ => _ end) =>
          destruct on_delta as [callback|]
      end
    | by apply call_on_delta_only_Exception
    | solve [auto with py_safe] ].
Qed.

Lemma guarded_chat_event_returns on_delta payload st :
  callback_raises_Exception on_delta →
  ∃ st', try_except (handle_chat_event session_key on_delta payload)
           except_Exception (λ _, ret tt) st
         = (Return tt, st').
Proof.
  intros Hcb. unfold try_except, except_Exception, ret.
  destruct (handle_chat_event _ _ _ _) as [[[]|e] st1] eqn:Hh; [by exists st1|].
  rewrite (handle_chat_event_only_Exception _ _ Hcb _ _ _ Hh). by exists st1.
Qed.

Lemma deliver_returns on_delta (payloads : list json) st :
  callback_raises_Exception on_delta →
  ∃ st', deliver session_key on_delta payloads st = (Return tt, st').
Proof.
  intros Hcb. revert st. induction payloads as [|p payloads IH]; intros st.
  - by exists st.
  - unfold deliver. simpl. unfold bind.
    destruct (guarded_chat_event_returns on_delta p st Hcb) as (st1 & ->).
    apply IH.
Qed.

Lemma stream_after_snoc on_delta (payloads : list json) payload st :
  callback_raises_Exception on_delta →
  stream_after session_key on_delta (payloads ++ [payload]) st
  = snd (try_except (handle_chat_event session_key on_delta payload)
           except_Exception (λ _, ret tt)
           (stream_after session_key on_delta payloads st)).
Proof.
  intros Hcb. unfold stream_after. unfold deliver at 1. rewrite for_each_snoc.
  fold (deliver session_key on_delta payloads).
  by destruct (deliver_returns on_delta payloads st Hcb) as (st1 & ->).
Qed.

(** *** What the call resolves with *)

Lemma py_lstrip_spaces (s : pystr) : forallb py_isspace s = true → py_lstrip s = [].
Proof.
  induction s as [|ch s IH]; [done|]. simpl.
  intros [Hch Hs]%andb_true_iff. rewrite Hch. by apply IH.
Qed.

Lemma chat_result_str (s : pystr) :
  chat_result (JStr s)
  = Return (if bool_decide (s = []) then JNull else JStr (py_strip s)).
Proof. unfold chat_result. simpl. by destruct (bool_decide (s = [])). Qed.

Lemma chat_send_return_inv (message : pystr) (thinking : json) on_delta
    (image_attachments : json) (env : chat_env) c v c' :
  chat_send session_key message thinking on_delta image_attachments env c
  = (Return v, c') →
  response_complete (final_stream session_key on_delta env) = true
  ∧ response_error (final_stream session_key on_delta env) = None
  ∧ chat_result (response_text (final_stream session_key on_delta env)) = Return v.
Proof.
  rewrite chat_send_paths.
  destruct (chat_params _ _ _ _ _) as [params|e]; [|done].
  destruct (request _ _ _ _ _) as [[result|e] c2]; [|done].
  destruct (ack_reports_error result); [done|].
  unfold chat_outcome. destruct (response_complete _); [|done].
  destruct (response_error _); [done|]. by intros [= -> _].
Qed.

(** C9. A call that completes successfully (the request is acknowledged,
    the completion flag is set and no error is recorded) returns, and what
    it returns is [None] exactly when the accumulated text is the empty
    string; a text that is not empty and made of whitespace only yields the
    empty string. *)
Theorem chat_send_none_iff_empty_text (message : pystr) (thinking : json) on_delta
    (image_attachments : json) (env : chat_env) c (s : pystr) :
  acknowledged session_key message thinking image_attachments env c →
  response_complete (final_stream session_key on_delta env) = true →
  response_error (final_stream session_key on_delta env) = None →
  response_text (final_stream session_key on_delta env) = JStr s →
  ∃ v,
    fst (chat_send session_key message thinking on_delta image_attachments env c)
    = Return v
    ∧ (v = JNull ↔ s = [])
    ∧ (s ≠ [] → forallb py_isspace s = true → v = JStr []).
Proof.
  intros (params & result & c2 & Hparams & Hreq & Hnoerr) Hdone Herr Htext.
  rewrite chat_send_paths, Hparams, Hreq, Hnoerr. simpl.
  unfold chat_outcome. rewrite Hdone, Herr, Htext, chat_result_str.
  eexists. split; [reflexivity|]. split.
  - destruct (bool_decide (s = [])) eqn:Hs.
    + by apply bool_decide_eq_true in Hs.
    + apply bool_decide_eq_false in Hs. by split.
  - intros Hne Hsp. rewrite bool_decide_eq_false_2 by done.
    unfold py_strip, py_rstrip. rewrite (py_lstrip_spaces s) by done. reflexivity.
Qed.

(** C10. On a [delta] event of the session whose content is well formed,
    the accumulated text becomes the text of the last text item, the empty
    string included, and [on_delta] is called with the non-empty texts
    only, each of them a non-empty string. *)
Theorem empty_delta_overwrites_without_callback on_delta payload items st :
  callback_raises_Exception on_delta →
  chat_event_with session_key (lit "delta") items payload →
  forallb content_item_ok items = true →
  ∃ st',
    handle_chat_event session_key on_delta payload st = (Return tt, st')
    ∧ (last (texts items) = Some (JStr []) → response_text st' = JStr [])
    ∧ delta_calls st' = delta_calls st ++ fragments on_delta (texts items)
    ∧ Forall (λ v, ∃ s, v = JStr s ∧ s ≠ []) (fragments on_delta (texts items)).
Proof.
  intros Hcb Hev Hok. eexists. split; [by apply handle_chat_event_delta|]. simpl.
  split; [by intros ->|]. split; [done|].
  unfold fragments. destruct on_delta; [|constructor].
  apply Forall_forall. intros v [Htruthy Hin]%list_elem_of_filter.
  apply list_elem_of_omap in Hin as (item & Hitem & Ht).
  rewrite forallb_forall in Hok. apply list_elem_of_In, Hok in Hitem.
  unfold content_item_ok in Hitem. rewrite Ht in Hitem.
  apply andb_true_iff in Hitem as [_ Hstr].
  destruct v as [| | |s| |]; try discriminate. exists s. split; [done|].
  intros ->. discriminate.
Qed.

(** C2, as the code has it. On a [delta] or [final] event of the session
    whose content has text items, the accumulated text becomes the text of
    the last text item, whatever it was before; and when the last event
    handed over before the call resumes is such a [final] event, no error
    having been recorded, an acknowledged call resolves with that text,
    trimmed, or with [None] when it is empty (a [delta] event handed over
    after the [final] one would replace the text once more). *)
Theorem chat_text_becomes_last_text_item on_delta state payload items t :
  callback_raises_Exception on_delta →
  state = lit "delta" ∨ state = lit "final" →
  chat_event_with session_key state items payload →
  forallb content_item_ok items = true →
  last (texts items) = Some t →
  (∀ st, ∃ st',
      handle_chat_event session_key on_delta payload st = (Return tt, st')
      ∧ response_text st' = t)
  ∧ (∀ message thinking image_attachments env c earlier,
       state = lit "final" →
       ce_events env = earlier ++ [payload] →
       response_error
         (stream_after session_key on_delta earlier
            (stream_after session_key on_delta (ce_early env) new_stream)) = None →
       acknowledged session_key message thinking image_attachments env c →
       fst (chat_send session_key message thinking on_delta image_attachments env c)
       = chat_result t).
Proof.
  intros Hcb Hstate Hev Hok Hlast. split.
  - intros st. destruct Hstate as [-> | ->].
    + eexists. split; [by apply handle_chat_event_delta|]. simpl. by rewrite Hlast.
    + eexists. split; [by eapply handle_chat_event_final|]. done.
  - intros message thinking image_attachments env c earlier -> Hevents Herr Hack.
    destruct Hack as (params & result & c2 & Hparams & Hreq & Hnoerr).
    rewrite chat_send_paths, Hparams, Hreq, Hnoerr. simpl.
    unfold final_stream. rewrite Hevents, stream_after_snoc by done.
    unfold try_except.
    rewrite (handle_chat_event_final on_delta payload items _ t) by done.
    simpl. unfold chat_outcome. simpl. by rewrite Herr.
Qed.

End ChatStreaming.

Section Runs.

#[local] Abbreviation s1 := Sample.s1.
#[local] Abbreviation hello_events := Sample.hello_events.
#[local] Abbreviation blank_events := Sample.blank_events.

Lemma acked_request_keeps_handlers status h c0 :
  occurrences h (chat_handlers (rq_meanwhile (Sample.acked_request status) c0))
  = occurrences h (chat_handlers c0).
Proof.
  unfold chat_handlers. simpl. by rewrite handle_response_keeps_handlers.
Qed.

(** Every way out of [chat_send] in turn: the final text, an error status
    in the acknowledgment, a chat error, an abort, the timeout, and a
    request on a client that has no socket. Each time the registry has no
    handler left for ["chat"]. *)
Example chat_send_exit_paths :
  let call status events c :=
    chat_send s1 (lit "hi") JNull None JNull (Sample.chat_call status events) c in
  let hello := [Sample.chat_event s1 (lit "delta") [Sample.text_item (lit "he")];
                Sample.chat_event s1 (lit "final") [Sample.text_item (lit "hello")]] in
  fst (call (lit "started") hello Sample.connected_client) = Return (JStr (lit "hello"))
  ∧ fst (call (lit "error") hello Sample.connected_client)
    = Raise (Exn Exception_ (ArgFmt msg_chat_send_failed (JStr (lit "no such session"))))
  ∧ fst (call (lit "started") [Sample.chat_failure s1 (lit "error")] Sample.connected_client)
    = Raise (Exception (JStr (lit "model overloaded")))
  ∧ fst (call (lit "started") [Sample.chat_failure s1 (lit "aborted")]
           Sample.connected_client)
    = Raise (Exception (JStr msg_aborted))
  ∧ fst (call (lit "started") [] Sample.connected_client)
    = Raise (Exn TimeoutError_ (ArgVal JNull))
  ∧ fst (call (lit "started") hello (new_client Sample.config))
    = Raise (Exception (JStr msg_not_connected))
  ∧ Forall (λ c', chat_handlers c' = [])
      [snd (call (lit "started") hello Sample.connected_client);
       snd (call (lit "error") hello Sample.connected_client);
       snd (call (lit "started") [Sample.chat_failure s1 (lit "error")]
              Sample.connected_client);
       snd (call (lit "started") [Sample.chat_failure s1 (lit "aborted")]
              Sample.connected_client);
       snd (call (lit "started") [] Sample.connected_client);
       snd (call (lit "started") hello (new_client Sample.config))].
Proof. vm_compute. repeat split; repeat constructor. Qed.

Lemma chat_send_always_unregisters_witness :
  (1%nat ∉ chat_handlers Sample.connected_client)
  ∧ (1%nat ∉ chat_handlers
               (snd (chat_send s1 (lit "hi") JNull None JNull
                       (Sample.chat_call (lit "started") hello_events)
                       Sample.connected_client))).
Proof.
  assert (Hfresh : 1%nat ∉ chat_handlers Sample.connected_client).
  { vm_compute. apply not_elem_of_nil. }
  split; [exact Hfresh|].
  apply (chat_send_always_unregisters s1 (lit "hi") JNull None JNull
           (Sample.chat_call (lit "started") hello_events) Sample.connected_client).
  - exact Hfresh.
  - intros c0. apply acked_request_keeps_handlers.
  - intros c0. reflexivity.
Defined.

Lemma connect_reports_handshake_failure_witness :
  _closed (new_client Sample.config) = false
  ∧ handshake_refused (cn_handshake Sample.silent_gateway) = true
  ∧ ∃ c', connect Sample.silent_gateway (new_client Sample.config) = (Return false, c')
      ∧ connected c' = false
      ∧ _recv_task c' = None
      ∧ (∀ t, tasks c' !! t = Some TaskRunning →
              tasks (new_client Sample.config) !! t = Some TaskRunning).
Proof.
  split; [reflexivity|]. split; [reflexivity|].
  apply connect_reports_handshake_failure; reflexivity.
Defined.

Lemma sample_call_acknowledged events :
  acknowledged s1 (lit "hi") JNull JNull (Sample.chat_call (lit "started") events)
    Sample.connected_client.
Proof.
  unfold acknowledged. eexists _, _, _. split; [reflexivity|].
  split; [by vm_compute|]. by vm_compute.
Qed.

Lemma chat_send_none_iff_empty_text_witness :
  ∃ v,
    fst (chat_send s1 (lit "hi") JNull None JNull
           (Sample.chat_call (lit "started") blank_events) Sample.connected_client)
    = Return v
    ∧ (v = JNull ↔ [32; 32; 10] = @nil N)
    ∧ ([32; 32; 10] ≠ [] → forallb py_isspace [32; 32; 10] = true → v = JStr []).
Proof.
  apply (chat_send_none_iff_empty_text s1 (lit "hi") JNull None JNull
           (Sample.chat_call (lit "started") blank_events) Sample.connected_client).
  - apply sample_call_acknowledged.
  - by vm_compute.
  - by vm_compute.
  - by vm_compute.
Defined.

Lemma sample_chat_event (state : pystr) (items : list json) :
  chat_event_with s1 state items (Sample.chat_event s1 state items).
Proof.
  exists [(lit "role", JStr (lit "assistant")); (lit "content", JArr items)].
  repeat split; done.
Qed.

Lemma empty_delta_overwrites_without_callback_witness :
  let st := set_response_text (JStr (lit "old")) new_stream in
  ∃ st',
    handle_chat_event s1 (Some Sample.quiet_callback)
      (Sample.chat_event s1 (lit "delta")
         [Sample.text_item (lit "a"); Sample.text_item []]) st
    = (Return tt, st')
    ∧ response_text st' = JStr []
    ∧ delta_calls st' = [JStr (lit "a")].
Proof.
  intros st.
  destruct (empty_delta_overwrites_without_callback s1 (Some Sample.quiet_callback)
              (Sample.chat_event s1 (lit "delta")
                 [Sample.text_item (lit "a"); Sample.text_item []])
              [Sample.text_item (lit "a"); Sample.text_item []] st)
    as (st' & Hrun & Htext & Hcalls & _).
  - by intros v e.
  - apply sample_chat_event.
  - reflexivity.
  - exists st'. split; [exact Hrun|]. split; [by apply Htext|]. exact Hcalls.
Defined.

Lemma chat_text_becomes_last_text_item_witness :
  (∃ st',
      handle_chat_event s1 None
        (Sample.chat_event s1 (lit "final") [Sample.text_item (lit "hello")])
        (set_response_text (JStr (lit "he")) new_stream)
      = (Return tt, st')
      ∧ response_text st' = JStr (lit "hello"))
  ∧ fst (chat_send s1 (lit "hi") JNull None JNull
           (Sample.chat_call (lit "started") hello_events) Sample.connected_client)
    = Return (JStr (lit "hello")).
Proof.
  destruct (chat_text_becomes_last_text_item s1 None (lit "final")
              (Sample.chat_event s1 (lit "final") [Sample.text_item (lit "hello")])
              [Sample.text_item (lit "hello")] (JStr (lit "hello")))
    as [Hhandler Hcall].
  - exact I.
  - by right.
  - apply sample_chat_event.
  - reflexivity.
  - reflexivity.
  - split; [apply Hhandler|].
    rewrite (Hcall (lit "hi") JNull JNull
               (Sample.chat_call (lit "started") hello_events) Sample.connected_client
               [Sample.chat_event s1 (lit "delta") [Sample.text_item (lit "he")]]).
    + by vm_compute.
    + reflexivity.
    + reflexivity.
    + by vm_compute.
    + apply sample_call_acknowledged.
Defined.

(** C2 as stated fails twice. With two text items the accumulated text is
    the text of the second one, not the two texts joined. And the text of
    the last final event is not what the call resolves with when a delta
    event of the session is handed over after it: the delta replaces the
    text once more. *)
Lemma chat_text_is_not_concatenated :
  let payload :=
    Sample.chat_event s1 (lit "final")
      [Sample.text_item (lit "ab"); Sample.text_item (lit "cd")] in
  let st' := snd (handle_chat_event s1 None payload new_stream) in
  let final_then_delta :=
    [Sample.chat_event s1 (lit "final") [Sample.text_item (lit "hello")];
     Sample.chat_event s1 (lit "delta") [Sample.text_item (lit "late")]] in
  (texts [Sample.text_item (lit "ab"); Sample.text_item (lit "cd")]
   = [JStr (lit "ab"); JStr (lit "cd")]
   ∧ response_text st' = JStr (lit "cd")
   ∧ response_text st' ≠ JStr (lit "ab" ++ lit "cd")
   ∧ response_complete st' = true)
  ∧ (fst (chat_send s1 (lit "hi") JNull None JNull
            (Sample.chat_call (lit "started") final_then_delta) Sample.connected_client)
     = Return (JStr (lit "late"))
     ∧ JStr (lit "late") ≠ JStr (lit "hello")).
Proof. vm_compute. repeat split; done. Qed.

End Runs.

(** * More of the client *)

Section Requests.

Implicit Types (c : MoltbotClient) (env : request_env).

Local Arguments waiting_client : simpl never.

(** [request] on an open socket whose write goes through: what the wait
    finds in the future decides how it ends. *)
Lemma request_waits (method : pystr) (params : json) (expect_final : bool) env s c :
  ws c = Some s → rq_delivered env = true →
  request method params expect_final env c
  = let f := fresh (dom (futures c)) in
    let c2 := rq_meanwhile env (waiting_client method params expect_final env s c) in
    match futures c2 !! f with
    | Some (FutResult v) => (Return v, c2)
    | Some (FutException e) =>
        if is_Exception (exn_cls e)
        then (Raise (if except_TimeoutError e then request_timed_out method else e),
              set_pending (delete (rq_id env) (pending c2)) c2)
        else (Raise e, c2)
    | Some FutCancelled => (Raise (Exn CancelledError_ (ArgVal JNull)), c2)
    | Some FutPending | None =>
        (Raise (request_timed_out method),
         set_pending (delete (rq_id env) (pending c2))
           (set_futures (<[f := FutCancelled]> (futures c2)) c2))
    end.
Proof.
  intros Hws Hsend. unfold request, create_future, ws_send, wait_for_future,
    forget_request, try_except, except_Exception. run_py.
  rewrite Hws. simpl. rewrite Hws, Hsend. simpl.
  unfold waiting_client, request_frame, request_timed_out.
  destruct (futures _ !! _) as [[|v|e|]|]; simpl; try reflexivity.
  destruct (is_Exception (exn_cls e)); [|reflexivity].
  by destruct (except_TimeoutError e).
Qed.

Lemma handle_response_not_pending c (k : pystr) frame :
  res_for k frame = true → pending c !! k = None →
  _handle_response frame c = (Return tt, c).
Proof.
  intros Hid Hk. destruct frame as [| | | | |f]; try discriminate.
  simpl in Hid. unfold _handle_response. run_py.
  destruct (default JNull (dict_lookup (lit "id") f)) as [| | |k'| |]; try discriminate.
  simpl in Hid. apply bool_decide_eq_true in Hid. subst k'. simpl.
  destruct (bool_decide (k = [])); simpl; [done|].
  by rewrite bool_decide_eq_true_2.
Qed.

Lemma waiting_client_entry (method : pystr) (params : json) (expect_final : bool) env s c :
  pending (waiting_client method params expect_final env s c) !! rq_id env
  = Some (mkPendingRequest (fresh (dom (futures c))) expect_final)
  ∧ futures (waiting_client method params expect_final env s c) !! fresh (dom (futures c))
    = Some FutPending.
Proof. unfold waiting_client. simpl. by rewrite !lookup_insert_eq. Qed.

(** X1. With [expect_final=False] the first res frame that carries the id
    of the request resolves it, whatever its payload says: [request] returns
    the payload when [ok] is true, and when [ok] is false and the error
    field is absent or a mapping it raises the error message; the entry has
    left the pending map. *)
Theorem request_resolves_on_first_response (method : pystr) (params : json)
    (k : pystr) s c frame :
  ws c = Some s → k ≠ [] →
  res_for k frame = true →
  truthy (frame_field frame (lit "ok")) = true ∨ error_is_mapping frame = true →
  let r := request method params false
             (mkRequestEnv k true (λ c0, snd (_handle_response frame c0))) c in
  fst r = (if truthy (frame_field frame (lit "ok"))
           then Return (frame_field frame (lit "payload"))
           else Raise (Exception (error_message frame)))
  ∧ pending (snd r) = delete k (pending c).
Proof.
  intros Hws Hk Hid Herr. simpl.
  set (env := mkRequestEnv k true (λ c0, snd (_handle_response frame c0))).
  rewrite (request_waits method params false env s c Hws eq_refl). simpl.
  destruct (waiting_client_entry method params false env s c) as [Hentry Hfut].
  assert (Hdone : fut_done (futures (waiting_client method params false env s c))
                    (future (mkPendingRequest (fresh (dom (futures c))) false)) = false).
  { unfold fut_done. cbn [future]. by rewrite Hfut. }
  rewrite (handle_response_complete (waiting_client method params false env s c) k
             (mkPendingRequest (fresh (dom (futures c))) false) frame Hentry Hk Hdone Hid
             eq_refl Herr).
  simpl. rewrite lookup_insert_eq. unfold completion.
  destruct (truthy (frame_field frame (lit "ok"))); simpl.
  - split; [done|]. by rewrite delete_insert_eq.
  - split; [done|]. by rewrite delete_insert_eq, delete_delete_eq.
Qed.

Lemma request_resolves_on_first_response_witness :
  let r := request (lit "send") JNull false
             (mkRequestEnv (lit "r1") true
                (λ c0, snd (_handle_response Sample.ack_frame c0)))
             Sample.connected_client in
  fst r = Return (JObj [(lit "status", JStr (lit "accepted"))])
  ∧ pending (snd r) = delete (lit "r1") (pending Sample.connected_client).
Proof.
  apply (request_resolves_on_first_response (lit "send") JNull (lit "r1") 0%nat
           Sample.connected_client Sample.ack_frame).
  - reflexivity.
  - vm_compute. discriminate.
  - by vm_compute.
  - left. by vm_compute.
Defined.

(** A request whose slot nobody fills while it waits. *)
Lemma request_times_out (method : pystr) (params : json) (expect_final : bool) env s c :
  ws c = Some s → rq_delivered env = true →
  fut_done (futures (rq_meanwhile env (waiting_client method params expect_final env s c)))
    (fresh (dom (futures c))) = false →
  request method params expect_final env c
  = let c2 := rq_meanwhile env (waiting_client method params expect_final env s c) in
    (Raise (request_timed_out method),
     set_pending (delete (rq_id env) (pending c2))
       (set_futures (<[fresh (dom (futures c)) := FutCancelled]> (futures c2)) c2)).
Proof.
  intros Hws Hsend Hdone. rewrite (request_waits _ _ _ _ s c Hws Hsend). simpl.
  unfold fut_done in Hdone. by destruct (futures _ !! _) as [[]|].
Qed.

(** X2. When no response fills the slot while [request] waits, it raises
    [Exception("请求超时: <method>")], its entry has left the pending map
    and its future is cancelled. *)
Theorem request_timeout_forgets_the_request (method : pystr) (params : json)
    (expect_final : bool) env s c :
  ws c = Some s → rq_delivered env = true →
  fut_done (futures (rq_meanwhile env (waiting_client method params expect_final env s c)))
    (fresh (dom (futures c))) = false →
  let r := request method params expect_final env c in
  fst r = Raise (request_timed_out method)
  ∧ pending (snd r) !! rq_id env = None
  ∧ futures (snd r) !! fresh (dom (futures c)) = Some FutCancelled.
Proof.
  intros Hws Hsend Hdone. simpl. rewrite (request_times_out _ _ _ _ s c Hws Hsend Hdone).
  simpl. split; [done|]. by rewrite lookup_delete_eq, lookup_insert_eq.
Qed.

Lemma request_timeout_forgets_the_request_witness :
  let r := request (lit "agent") JNull true (mkRequestEnv (lit "a1") true id)
             Sample.connected_client in
  fst r = Raise (request_timed_out (lit "agent"))
  ∧ pending (snd r) !! lit "a1" = None
  ∧ futures (snd r) !! fresh (dom (futures Sample.connected_client)) = Some FutCancelled.
Proof.
  apply (request_timeout_forgets_the_request (lit "agent") JNull true
           (mkRequestEnv (lit "a1") true id) 0%nat Sample.connected_client).
  - reflexivity.
  - reflexivity.
  - by vm_compute.
Defined.

(** X3. A response that arrives after the request timed out is discarded:
    [_handle_response] leaves the client as it is and does not touch the
    cancelled future. *)
Theorem late_response_is_discarded (method : pystr) (params : json)
    (expect_final : bool) env s c frame :
  ws c = Some s → rq_delivered env = true →
  fut_done (futures (rq_meanwhile env (waiting_client method params expect_final env s c)))
    (fresh (dom (futures c))) = false →
  res_for (rq_id env) frame = true →
  let c' := snd (request method params expect_final env c) in
  _handle_response frame c' = (Return tt, c').
Proof.
  intros Hws Hsend Hdone Hid. simpl.
  rewrite (request_times_out _ _ _ _ s c Hws Hsend Hdone). simpl.
  apply (handle_response_not_pending _ (rq_id env)); [done|].
  simpl. by rewrite lookup_delete_eq.
Qed.

Lemma late_response_is_discarded_witness :
  let c' := snd (request (lit "agent") JNull true (mkRequestEnv (lit "r1") true id)
                   Sample.connected_client) in
  _handle_response Sample.final_frame c' = (Return tt, c').
Proof.
  apply (late_response_is_discarded (lit "agent") JNull true
           (mkRequestEnv (lit "r1") true id) 0%nat Sample.connected_client
           Sample.final_frame).
  - reflexivity.
  - reflexivity.
  - by vm_compute.
  - by vm_compute.
Defined.

Lemma disconnect_state c :
  ∃ c2, disconnect c = (Return tt, c2)
    ∧ _closed c2 = true ∧ connected c2 = false ∧ pending c2 = ∅
    ∧ futures c2 = fail_all_waiters (pending c) (futures c).
Proof.
  unfold disconnect. run_py.
  destruct (_recv_task c), (ws c); simpl; eexists; (split; [reflexivity|]); done.
Qed.

(** X4. A client that is disconnected while [request] waits fails the
    request: it raises [Exception("连接已关闭")], and the client is closed
    with an empty pending map. *)
Theorem request_fails_when_disconnected (method : pystr) (params : json)
    (expect_final : bool) (k : pystr) s c :
  ws c = Some s →
  let r := request method params expect_final
             (mkRequestEnv k true (λ c0, snd (disconnect c0))) c in
  fst r = Raise (Exception (JStr msg_connection_closed))
  ∧ pending (snd r) = ∅
  ∧ _closed (snd r) = true
  ∧ connected (snd r) = false.
Proof.
  intros Hws. simpl.
  set (env := mkRequestEnv k true (λ c0, snd (disconnect c0))).
  rewrite (request_waits method params expect_final env s c Hws eq_refl). simpl.
  destruct (waiting_client_entry method params expect_final env s c) as [Hentry Hfut].
  set (w := waiting_client method params expect_final env s c) in *.
  destruct (disconnect_state w) as (c2 & Hafter).
  destruct Hafter as (-> & Hcl & Hco & Hpe & Hfu). simpl.
  destruct (fail_all_waiters_spec (pending w) (futures w) (fresh (dom (futures c))))
    as (_ & _ & Hfail & _).
  rewrite Hfu, Hfail; [|by unfold fut_done; rewrite Hfut|by eexists _, _].
  simpl. by rewrite Hpe, delete_empty.
Qed.

Lemma request_fails_when_disconnected_witness :
  let r := request (lit "send") JNull false
             (mkRequestEnv (lit "r9") true (λ c0, snd (disconnect c0)))
             Sample.connected_client in
  fst r = Raise (Exception (JStr msg_connection_closed))
  ∧ pending (snd r) = ∅
  ∧ _closed (snd r) = true
  ∧ connected (snd r) = false.
Proof.
  by apply (request_fails_when_disconnected (lit "send") JNull false (lit "r9") 0%nat
              Sample.connected_client).
Defined.

(** X5. When the write of the req frame fails, [request] raises the
    connection error and takes its entry out of the pending map again;
    nothing is recorded as sent. *)
Theorem request_send_failure_leaves_no_entry (method : pystr) (params : json)
    (expect_final : bool) env s c :
  ws c = Some s → rq_delivered env = false →
  let r := request method params expect_final env c in
  fst r = Raise (Exn ConnectionClosed_ (ArgVal JNull))
  ∧ pending (snd r) = delete (rq_id env) (pending c)
  ∧ sent (snd r) = sent c.
Proof.
  intros Hws Hsend. unfold request, create_future, ws_send, forget_request, try_except,
    except_Exception. run_py.
  rewrite Hws. simpl. rewrite Hws, Hsend. simpl. by rewrite delete_insert_eq.
Qed.

Lemma request_send_failure_leaves_no_entry_witness :
  let r := request (lit "send") JNull false (mkRequestEnv (lit "r9") false id)
             Sample.connected_client in
  fst r = Raise (Exn ConnectionClosed_ (ArgVal JNull))
  ∧ pending (snd r) = delete (lit "r9") (pending Sample.connected_client)
  ∧ sent (snd r) = sent Sample.connected_client.
Proof.
  by apply (request_send_failure_leaves_no_entry (lit "send") JNull false
              (mkRequestEnv (lit "r9") false id) 0%nat Sample.connected_client).
Defined.

(** X6. A request is completed at most once: after the res frame that
    completes it, every further res frame with the same id is discarded and
    the slot keeps what the first one put there. *)
Theorem response_completes_at_most_once c (k : pystr) (p : PendingRequest) first second :
  pending c !! k = Some p → k ≠ [] →
  fut_done (futures c) (future p) = false →
  res_for k first = true → res_for k second = true →
  expect_final p && is_accepted_ack (frame_field first (lit "payload")) = false →
  truthy (frame_field first (lit "ok")) = true ∨ error_is_mapping first = true →
  ∃ c1,
    _handle_response first c = (Return tt, c1)
    ∧ futures c1 !! future p = Some (completion first)
    ∧ _handle_response second c1 = (Return tt, c1).
Proof.
  intros Hp Hk Hdone Hfirst Hsecond Hack Herr. eexists. split.
  - by apply (handle_response_complete c k p first).
  - split; [simpl; by rewrite lookup_insert_eq|].
    apply (handle_response_not_pending _ k); [done|]. simpl. by rewrite lookup_delete_eq.
Qed.

Lemma response_completes_at_most_once_witness :
  ∃ c1,
    _handle_response Sample.final_frame Sample.agent_client = (Return tt, c1)
    ∧ futures c1 !! 0%nat = Some (completion Sample.final_frame)
    ∧ _handle_response Sample.failed_ack_frame c1 = (Return tt, c1).
Proof.
  apply (response_completes_at_most_once Sample.agent_client (lit "r1")
           (mkPendingRequest 0 true) Sample.final_frame Sample.failed_ack_frame).
  - by vm_compute.
  - vm_compute. discriminate.
  - by vm_compute.
  - by vm_compute.
  - by vm_compute.
  - by vm_compute.
  - left. by vm_compute.
Defined.

End Requests.

Section Connection.

Implicit Types (c : MoltbotClient).

Lemma cleanup_connection_state c :
  ∃ c', _cleanup_connection c = (Return tt, c')
    ∧ connected c' = false ∧ _recv_task c' = None ∧ ws c' = None
    ∧ pending c' = ∅ ∧ _closed c' = _closed c
    ∧ futures c' = fail_all_waiters (pending c) (futures c)
    ∧ sent c' = sent c ∧ cfg c' = cfg c ∧ event_handlers c' = event_handlers c
    ∧ tasks c' = match _recv_task c with
                 | Some t => cancel_task t (tasks c)
                 | None => tasks c
                 end
    ∧ sockets c' = match ws c with
                   | Some s => close_socket s (sockets c)
                   | None => sockets c
                   end.
Proof.
  unfold _cleanup_connection. run_py.
  destruct (_recv_task c) as [t|], (ws c) as [s|] eqn:Hws; simpl;
    eexists; (split; [reflexivity|]); simpl; rewrite ?Hws; done.
Qed.

(** X7. [_cleanup_connection] returns and leaves the client disconnected:
    no socket, no receive task, an empty pending map, every waiter whose
    slot was unfilled failed with [Exception("连接已关闭")], the closed flag
    as it was; run again, it changes nothing. *)
Theorem cleanup_connection_fails_waiters c :
  ∃ c', _cleanup_connection c = (Return tt, c')
    ∧ connected c' = false ∧ _recv_task c' = None ∧ ws c' = None
    ∧ pending c' = ∅ ∧ _closed c' = _closed c
    ∧ (∀ k p, pending c !! k = Some p →
              fut_done (futures c) (future p) = false →
              futures c' !! future p = Some closed_error)
    ∧ _cleanup_connection c' = (Return tt, c').
Proof.
  unfold _cleanup_connection. run_py.
  destruct (_recv_task c) as [t|], (ws c) as [s|] eqn:Hws; simpl;
    eexists; (split; [reflexivity|]); simpl; rewrite ?Hws;
    repeat (split; [reflexivity|]);
    (split;
     [ intros k p Hk Hp;
       destruct (fail_all_waiters_spec (pending c) (futures c) (future p))
         as (_ & _ & Hfail & _);
       apply Hfail; [done|by exists k, p]
     | by rewrite fail_all_waiters_empty ]).
Qed.

Lemma await_challenge_passes env c s :
  ws c = Some s → first_read_passes (hs_first env) = true →
  await_challenge env c = (Return tt, c).
Proof.
  intros Hws Hpass. unfold await_challenge, ws_recv, json_loads, try_except,
    except_TimeoutError. run_py. rewrite Hws. simpl.
  destruct (hs_first env) as [| |[[| | | | |f]|[]]]; simpl in *; try done.
  destruct (py_eq_str (default JNull (dict_lookup (lit "type") f)) (lit "event")); simpl;
    [|done].
  destruct (py_eq_str (default JNull (dict_lookup (lit "event") f))
              (lit "connect.challenge")); simpl in *; [|done].
  by destruct (default (JObj []) (dict_lookup (lit "payload") f)).
Qed.

Lemma await_challenge_blocks env c :
  first_read_passes (hs_first env) = false →
  ∃ e, await_challenge env c = (Raise e, c) ∧ is_Exception (exn_cls e) = true.
Proof.
  intros Hpass. unfold await_challenge, ws_recv, json_loads, try_except,
    except_TimeoutError. run_py.
  destruct (ws c) as [s|]; simpl; [|by eexists].
  destruct (hs_first env) as [| |[[| | | | |f]|[]]]; simpl in *; try done; try by eexists.
  destruct (py_eq_str (default JNull (dict_lookup (lit "type") f)) (lit "event")); simpl in *;
    [|done].
  destruct (py_eq_str (default JNull (dict_lookup (lit "event") f))
              (lit "connect.challenge")); simpl in *; [|done].
  destruct (default (JObj []) (dict_lookup (lit "payload") f)); simpl in *; try done;
    by eexists.
Qed.

Lemma await_hello_accepts env c s r :
  ws c = Some s → hs_second env = RecvMsg (Parsed r) →
  accepts_handshake (hs_req_id env) r = true →
  await_hello env c = (Return (frame_field r (lit "payload")), c).
Proof.
  intros Hws Hsecond Hacc. unfold await_hello, ws_recv, json_loads. run_py.
  rewrite Hws, Hsecond. simpl. unfold accepts_handshake in Hacc.
  destruct r as [| | | | |f]; try discriminate. simpl in *.
  apply andb_true_iff in Hacc as [Hacc Hok]. apply andb_true_iff in Hacc as [Hty Hid].
  by rewrite Hty, Hid, Hok.
Qed.

Lemma send_connect_accepted env c s r :
  ws c = Some s → first_read_passes (hs_first env) = true → hs_delivered env = true →
  hs_second env = RecvMsg (Parsed r) →
  accepts_handshake (hs_req_id env) r = true →
  _send_connect env c
  = (Return (frame_field r (lit "payload")),
     set_sent (sent c ++ [(s, connect_frame (cfg c) env)]) c).
Proof.
  intros Hws Hfirst Hsend Hsecond Hacc.
  unfold _send_connect, try_except. unfold bind at 1, get_self at 1.
  unfold bind at 1. rewrite (await_challenge_passes env c s Hws Hfirst).
  unfold bind at 1, ws_send. run_py. rewrite Hws, Hsend. simpl.
  by rewrite (await_hello_accepts env _ s r).
Qed.

(** X8. When the read that waits for a challenge brings something that is
    not a mapping (not JSON at all, a JSON list, a closed connection, or a
    challenge whose payload is not a mapping), [_send_connect] returns
    [None] and the connect request is never written, whatever the gateway
    would have answered. *)
Theorem handshake_stops_at_a_bad_first_message env c :
  first_read_passes (hs_first env) = false →
  _send_connect env c = (Return JNull, c).
Proof.
  intros Hfirst. unfold _send_connect, try_except, except_Exception.
  unfold bind at 1, get_self at 1. unfold bind at 1.
  destruct (await_challenge_blocks env c Hfirst) as (e & -> & He). by rewrite He.
Qed.

Lemma handshake_stops_at_a_bad_first_message_witness :
  let env := mkHandshakeEnv (lit "c1") (lit "linux") (RecvMsg (Parsed (JArr [])))
               true (RecvMsg (Parsed Sample.final_frame)) in
  first_read_passes (hs_first env) = false
  ∧ _send_connect env Sample.connected_client = (Return JNull, Sample.connected_client).
Proof.
  split; [reflexivity|]. by apply handshake_stops_at_a_bad_first_message.
Defined.

(** The client as [connect] has it when the handshake starts: the old
    connection torn down and a new socket open. *)
Lemma connect_opens_a_socket env c :
  _closed c = false → cn_opened env = true →
  ∃ c1 s,
    _cleanup_connection c = (Return tt, c1)
    ∧ s = fresh (dom (sockets c1))
    ∧ connect env c
      = match _send_connect (cn_handshake env)
                (set_ws (Some s) (set_sockets (<[s := true]> (sockets c1)) c1)) with
        | (Return hello, c3) =>
            if truthy hello then
              match py_get hello (lit "protocol") JNull with
              | Return _ =>
                  (Return true,
                   set__recv_task (Some (fresh (dom (tasks c3))))
                     (set_tasks (<[fresh (dom (tasks c3)) := TaskRunning]> (tasks c3))
                        (set_connected true c3)))
              | Raise _ => (Return false, snd (_cleanup_connection (set_connected true c3)))
              end
            else (Return false, snd (_cleanup_connection c3))
        | (Raise _, c3) => (Return false, snd (_cleanup_connection c3))
        end.
Proof.
  intros Hcl Hopen. unfold connect. run_py. rewrite Hcl.
  destruct (cleanup_connection_state c) as (c1 & Hrun & _). rewrite Hrun.
  exists c1, (fresh (dom (sockets c1))). split; [done|]. split; [done|].
  unfold try_except, except_Exception, websockets_connect, create_task. run_py.
  rewrite Hopen. simpl.
  destruct (send_connect_spec (cn_handshake env)
              (set_ws (Some (fresh (dom (sockets c1))))
                 (set_sockets (<[fresh (dom (sockets c1)) := true]> (sockets c1)) c1)))
    as (v & c3 & -> & _ & _).
  destruct (truthy v); simpl.
  - destruct (py_get v (lit "protocol") JNull) as [pr|e] eqn:Hpr; simpl; [done|].
    assert (He : is_Exception (exn_cls e) = true).
    { unfold py_get in Hpr. destruct v; by simplify_eq. }
    rewrite He.
    by destruct (cleanup_connection_state (set_connected true c3)) as (c4 & -> & _).
  - by destruct (cleanup_connection_state c3) as (c4 & -> & _).
Qed.

Lemma dom_cancel_task t (ts : gmap nat task_state) : dom (cancel_task t ts) = dom ts.
Proof.
  unfold cancel_task. destruct (ts !! t) as [[]|] eqn:Ht; try done.
  rewrite dom_insert_L. assert (Hin : t ∈ dom ts) by (apply elem_of_dom; eauto).
  apply set_eq. intros x. rewrite elem_of_union, elem_of_singleton.
  split; [by intros [->|?]|by right].
Qed.

(** X9. A handshake that goes through connects the client: [connect()]
    returns [True], the client is connected on a socket that is new and
    open, a new receive task is running, the pending map is empty and the
    one frame written is the connect request. *)
Theorem connect_establishes_the_connection env c r :
  _closed c = false → cn_opened env = true →
  first_read_passes (hs_first (cn_handshake env)) = true →
  hs_delivered (cn_handshake env) = true →
  hs_second (cn_handshake env) = RecvMsg (Parsed r) →
  accepts_handshake (hs_req_id (cn_handshake env)) r = true →
  isinstance_dict (frame_field r (lit "payload"))
  && truthy (frame_field r (lit "payload")) = true →
  ∃ c' s t,
    connect env c = (Return true, c')
    ∧ connected c' = true
    ∧ ws c' = Some s ∧ sockets c !! s = None ∧ sockets c' !! s = Some true
    ∧ _recv_task c' = Some t ∧ tasks c !! t = None ∧ tasks c' !! t = Some TaskRunning
    ∧ pending c' = ∅
    ∧ sent c' = sent c ++ [(s, connect_frame (cfg c) (cn_handshake env))].
Proof.
  intros Hcl Hopen Hfirst Hsend Hsecond Hacc Hhello.
  destruct (connect_opens_a_socket env c Hcl Hopen) as (c1 & s & Hclean & Hs & ->).
  destruct (cleanup_connection_state c) as (c1' & Hclean' & _ & _ & _ & Hpe & _ & _ & Hsent
                                            & Hcfg & _ & Htasks & Hsockets).
  rewrite Hclean in Hclean'. injection Hclean' as <-.
  rewrite (send_connect_accepted (cn_handshake env) _ s r); [|done..].
  apply andb_true_iff in Hhello as [Hdict Htruthy]. rewrite Htruthy.
  destruct (frame_field r (lit "payload")) as [| | | | |hello]; try discriminate. simpl.
  assert (Hnew : sockets c !! s = None).
  { apply not_elem_of_dom. intros Hin. apply (is_fresh (dom (sockets c1))). rewrite <- Hs.
    assert (Hsub : dom (sockets c) ⊆ dom (sockets c1)).
    { rewrite Hsockets. destruct (ws c); [|done]. unfold close_socket.
      rewrite dom_insert_L. apply union_subseteq_r. }
    by apply Hsub. }
  assert (Htask : tasks c !! fresh (dom (tasks c1)) = None).
  { apply not_elem_of_dom. intros Hin. apply (is_fresh (dom (tasks c1))).
    assert (Hdom : dom (tasks c1) = dom (tasks c)).
    { rewrite Htasks. destruct (_recv_task c); [|done]. apply dom_cancel_task. }
    by rewrite Hdom at 2. }
  eexists _, s, (fresh (dom (tasks c1))). split; [reflexivity|]. simpl.
  split; [done|]. split; [done|]. split; [done|].
  split; [by rewrite lookup_insert_eq|]. split; [done|]. split; [done|].
  split; [by rewrite lookup_insert_eq|]. split; [done|]. by rewrite Hsent, Hcfg.
Qed.

Lemma connect_establishes_the_connection_witness :
  let hello :=
    JObj [(lit "type", JStr (lit "res")); (lit "id", JStr (lit "c1"));
          (lit "ok", JBool true); (lit "payload", JObj [(lit "protocol", JNum 3)])] in
  let env :=
    mkConnectEnv true
      (mkHandshakeEnv (lit "c1") (lit "linux") RecvTimeout true (RecvMsg (Parsed hello))) in
  ∃ c' s t,
    connect env (new_client Sample.config) = (Return true, c')
    ∧ connected c' = true
    ∧ ws c' = Some s ∧ sockets (new_client Sample.config) !! s = None
    ∧ sockets c' !! s = Some true
    ∧ _recv_task c' = Some t ∧ tasks (new_client Sample.config) !! t = None
    ∧ tasks c' !! t = Some TaskRunning
    ∧ pending c' = ∅
    ∧ sent c' = sent (new_client Sample.config)
                ++ [(s, connect_frame (cfg (new_client Sample.config)) (cn_handshake env))].
Proof.
  intros hello env.
  apply (connect_establishes_the_connection env (new_client Sample.config) hello);
    reflexivity.
Defined.

(** X10. A handshake that the gateway accepts with a payload that is not a
    non-empty mapping (no payload, null, an empty mapping, a string) is
    reported as a failure: [connect()] returns [False] after writing the
    connect request, and leaves the client disconnected with the new socket
    closed. *)
Theorem connect_rejects_an_empty_hello env c r :
  _closed c = false → cn_opened env = true →
  first_read_passes (hs_first (cn_handshake env)) = true →
  hs_delivered (cn_handshake env) = true →
  hs_second (cn_handshake env) = RecvMsg (Parsed r) →
  accepts_handshake (hs_req_id (cn_handshake env)) r = true →
  isinstance_dict (frame_field r (lit "payload"))
  && truthy (frame_field r (lit "payload")) = false →
  ∃ c' s,
    connect env c = (Return false, c')
    ∧ connected c' = false ∧ ws c' = None ∧ _recv_task c' = None
    ∧ sockets c' !! s = Some false
    ∧ sent c' = sent c ++ [(s, connect_frame (cfg c) (cn_handshake env))].
Proof.
  intros Hcl Hopen Hfirst Hsend Hsecond Hacc Hhello.
  destruct (connect_opens_a_socket env c Hcl Hopen) as (c1 & s & Hclean & Hs & ->).
  destruct (cleanup_connection_state c) as (c1' & Hclean' & _ & _ & _ & _ & _ & _ & Hsent
                                            & Hcfg & _).
  rewrite Hclean in Hclean'. injection Hclean' as <-.
  rewrite (send_connect_accepted (cn_handshake env) _ s r); [|done..].
  set (c3 := set_sent _ _).
  assert (Hend : ∀ c4, ws c4 = Some s → sent c4 = sent c3 →
            ∃ c', _cleanup_connection c4 = (Return tt, c')
              ∧ connected c' = false ∧ ws c' = None ∧ _recv_task c' = None
              ∧ sockets c' !! s = Some false ∧ sent c' = sent c3).
  { intros c4 Hws4 Hsent4.
    destruct (cleanup_connection_state c4)
      as (c' & Hrun & Hco & Hre & Hws & _ & _ & _ & Hse & _ & _ & _ & Hso).
    exists c'. split; [done|]. rewrite Hso, Hws4, Hse. unfold close_socket.
    by rewrite lookup_insert_eq. }
  assert (Hsent3 : sent c3 = sent c ++ [(s, connect_frame (cfg c) (cn_handshake env))]).
  { subst c3. simpl. by rewrite Hsent, Hcfg. }
  destruct (truthy (frame_field r (lit "payload"))) eqn:Htruthy.
  - destruct (frame_field r (lit "payload")) as [| | | | |hello]; try discriminate; simpl;
      (destruct (Hend (set_connected true c3)) as (c' & -> & H); [done..|];
       exists c', s; by rewrite <- Hsent3).
  - destruct (Hend c3) as (c' & -> & H); [done..|]. exists c', s. by rewrite <- Hsent3.
Qed.

Lemma connect_rejects_an_empty_hello_witness :
  let hello :=
    JObj [(lit "type", JStr (lit "res")); (lit "id", JStr (lit "c1"));
          (lit "ok", JBool true); (lit "payload", JObj [])] in
  let env :=
    mkConnectEnv true
      (mkHandshakeEnv (lit "c1") (lit "linux") RecvTimeout true (RecvMsg (Parsed hello))) in
  ∃ c' s,
    connect env (new_client Sample.config) = (Return false, c')
    ∧ connected c' = false ∧ ws c' = None ∧ _recv_task c' = None
    ∧ sockets c' !! s = Some false
    ∧ sent c' = sent (new_client Sample.config)
                ++ [(s, connect_frame (cfg (new_client Sample.config)) (cn_handshake env))].
Proof.
  intros hello env.
  apply (connect_rejects_an_empty_hello env (new_client Sample.config) hello);
    reflexivity.
Defined.

End Connection.

Section Receiving.

Context {W : Type}.
Variable run_handler : nat → list json → W → outcome unit * W.

Implicit Types (rt : runtime W) (env : receive_env).

Lemma for_each_app {S A} (l1 l2 : list A) (body : A → M S unit) (c : S) :
  for_each (l1 ++ l2) body c
  = match for_each l1 body c with
    | (Return _, c') => for_each l2 body c'
    | (Raise e, c') => (Raise e, c')
    end.
Proof.
  revert c. induction l1 as [|y l1 IH]; intros c; simpl; [done|].
  unfold bind at 1 2. destruct (body y c) as [[|e] c']; [apply IH|done].
Qed.

Lemma only_Exception_lift {S A} (o : outcome A) :
  (∀ e, o = Raise e → is_Exception (exn_cls e) = true) →
  only_Exception (S:=S) (lift o).
Proof. intros Ho s e s' [= -> _]. by apply Ho. Qed.

Lemma only_Exception_on_client {A} (m : M MoltbotClient A) :
  only_Exception m → only_Exception (on_client (W:=W) m).
Proof.
  intros Hm rt e rt'. unfold on_client.
  destruct (m (rt_client rt)) as [o c'] eqn:Hrun. intros [= -> _]. by apply (Hm _ _ _ Hrun).
Qed.

Ltac safe_step :=
  first
    [ apply only_Exception_bind; [|intros ?]
    | solve [auto with py_safe]
    | apply only_Exception_raise; reflexivity
    | apply only_Exception_lift; intros ? [=]; subst; reflexivity
    | match goal with
      | |- only_Exception (if ?b then _ else _) => destruct b
      | |- only_Exception (match ?x with _ => _ end) => destruct x
      end ].

Lemma only_Exception_not_in_pending {S} req_id pend :
  only_Exception (S:=S) (lift (not_in_pending req_id pend)).
Proof. apply only_Exception_lift. intros e. destruct req_id; by intros [= <-]. Qed.

Lemma only_Exception_pending_getitem {S} req_id pend :
  only_Exception (S:=S) (lift (pending_getitem req_id pend)).
Proof.
  apply only_Exception_lift. intros e. destruct req_id as [| | |k| |]; simpl;
    try by intros [= <-].
  destruct (pend !! k); by intros [= <-].
Qed.

Lemma handle_response_only_Exception frame : only_Exception (_handle_response frame).
Proof.
  unfold _handle_response, pending_delitem, future_set_result, future_set_exception,
    future_set.
  repeat first
    [ apply only_Exception_not_in_pending
    | apply only_Exception_pending_getitem
    | safe_step ].
Qed.

Lemma handle_event_only_Exception event :
  handlers_raise_Exception run_handler →
  only_Exception (_handle_event run_handler event).
Proof.
  intros Hexc.
  assert (Hguard : ∀ h args, only_Exception (guarded run_handler h args)).
  { intros h args rt e rt'. destruct (guarded_call run_handler h args rt Hexc) as (w & ->).
    by intros [=]. }
  unfold _handle_event, registered, create_task.
  repeat first
    [ apply only_Exception_for_each; intros ?
    | apply Hguard
    | apply only_Exception_on_client
    | safe_step ].
Qed.

Lemma handle_message_only_Exception raw :
  handlers_raise_Exception run_handler →
  only_Exception (_handle_message run_handler raw).
Proof.
  intros Hexc. unfold _handle_message, json_loads.
  apply only_Exception_try_except; [|intros ?; apply only_Exception_ret].
  repeat first
    [ by apply handle_event_only_Exception
    | apply only_Exception_on_client, handle_response_only_Exception
    | apply only_Exception_raise; by destruct why
    | safe_step ].
Qed.

(** X11. With handlers that fail with [Exception]-derived exceptions only,
    and an iteration over the socket that ends by exhaustion or with such
    an exception, [_receive_loop] returns without raising, whatever the
    messages are; and when the iteration ends with an exception the client
    is marked as not connected. *)
Theorem receive_loop_returns env rt :
  handlers_raise_Exception run_handler →
  (∀ e, rv_end env = Some e → is_Exception (exn_cls e) = true) →
  ∃ rt',
    _receive_loop run_handler env rt = (Return tt, rt')
    ∧ (rv_end env ≠ None → connected (rt_client rt') = false).
Proof.
  intros Hexc Hend. unfold _receive_loop, try_except.
  set (body := (rt0 <- get_self ;; _)%py).
  assert (Hbody : only_Exception body).
  { subst body. apply only_Exception_bind; [apply only_Exception_get_self|]. intros rt0.
    destruct (ws (rt_client rt0)); [|by apply only_Exception_raise].
    apply only_Exception_bind.
    - apply only_Exception_for_each. intros raw. by apply handle_message_only_Exception.
    - intros _. destruct (rv_end env) as [e|] eqn:He; [|apply only_Exception_ret].
      apply only_Exception_raise. by apply Hend. }
  destruct (body rt) as [[[]|e] rt1] eqn:Hrun.
  - exists rt1. split; [done|]. intros Hne. exfalso. revert Hrun. subst body. run_py.
    destruct (ws (rt_client rt)); [|done].
    destruct (for_each _ _ rt) as [[[]|e] rt2]; [|done].
    by destruct (rv_end env).
  - unfold except_Exception. rewrite (Hbody _ _ _ Hrun).
    unfold on_client, create_task. run_py.
    destruct (except_ConnectionClosed e); simpl; [|by eexists].
    destruct (_closed (rt_client rt1)); simpl; by eexists.
Qed.

(** X12. When every message was handled and the iteration then ends with
    [ConnectionClosed], [_receive_loop] marks the client as not connected
    and, unless the client was closed, starts exactly one new task (the
    reconnect); on a closed client it starts none. *)
Theorem receive_loop_reconnects_when_the_connection_drops env rt rt1 s e :
  ws (rt_client rt) = Some s →
  for_each (rv_messages env) (_handle_message run_handler) rt = (Return tt, rt1) →
  rv_end env = Some e → except_ConnectionClosed e = true →
  ∃ rt',
    _receive_loop run_handler env rt = (Return tt, rt')
    ∧ connected (rt_client rt') = false
    ∧ rt_calls rt' = rt_calls rt1 ∧ rt_world rt' = rt_world rt1
    ∧ (if _closed (rt_client rt1)
       then tasks (rt_client rt') = tasks (rt_client rt1)
       else ∃ t, tasks (rt_client rt1) !! t = None
                 ∧ tasks (rt_client rt')
                   = <[t := TaskRunning]> (tasks (rt_client rt1))).
Proof.
  intros Hws Hloop Hend Hcc. unfold _receive_loop, try_except. run_py.
  rewrite Hws, Hloop, Hend. simpl.
  assert (He : except_Exception e = true).
  { unfold except_Exception, except_ConnectionClosed in *. by destruct (exn_cls e). }
  rewrite He, Hcc. unfold on_client, create_task. run_py.
  destruct (_closed (rt_client rt1)); simpl.
  - eexists. split; [reflexivity|]. done.
  - eexists. split; [reflexivity|]. simpl. repeat (split; [done|]).
    exists (fresh (dom (tasks (rt_client rt1)))). split; [|done].
    apply not_elem_of_dom, is_fresh.
Qed.

(** X13. A message that is JSON but not a mapping (a list, a number, a
    string, [null]) ends the receive loop: the messages after it are not
    handled, the client is marked as not connected, and no reconnect is
    started. *)
Theorem receive_loop_stops_at_a_message_that_is_no_mapping
    (before rest : list received) (v : json) (ending : option exn) rt rt1 s :
  ws (rt_client rt) = Some s →
  for_each before (_handle_message run_handler) rt = (Return tt, rt1) →
  isinstance_dict v = false →
  _receive_loop run_handler (mkReceiveEnv (before ++ Parsed v :: rest) ending) rt
  = (Return tt,
     mkRuntime (set_connected false (rt_client rt1)) (rt_world rt1) (rt_calls rt1)).
Proof.
  intros Hws Hloop Hv. unfold _receive_loop, try_except. run_py.
  rewrite Hws, for_each_app, Hloop. simpl.
  unfold _handle_message at 1, try_except, json_loads. run_py.
  by destruct v.
Qed.

(** X14. Text that is not JSON (on which [json.loads] raises
    [JSONDecodeError]) and mappings whose type is neither ["event"] nor
    ["res"] are dropped: handling any number of them returns and leaves the
    client, the handlers and the call log as they were. *)
Theorem dropped_messages_change_nothing (messages : list received) rt :
  forallb dropped_message messages = true →
  for_each messages (_handle_message run_handler) rt = (Return tt, rt).
Proof.
  induction messages as [|raw messages IH]; [done|]. simpl.
  intros [Hraw Hrest]%andb_true_iff. unfold bind.
  assert (Hone : _handle_message run_handler raw rt = (Return tt, rt)).
  { unfold _handle_message, try_except, json_loads. run_py.
    destruct raw as [[| | | | |f]|[]]; try done. simpl in *.
    apply andb_true_iff in Hraw as [Hev Hres].
    apply negb_true_iff in Hev, Hres. by rewrite Hev, Hres. }
  rewrite Hone. by apply IH.
Qed.

(** X15. The events [tick] and [connect.challenge] never reach a handler,
    not even one registered for every event: no handler is called and the
    registry stays as it is; a [tick] changes nothing at all. *)
Theorem tick_and_challenge_bypass_the_handlers (fields : list (pystr * json))
    (name : pystr) rt :
  dict_lookup (lit "event") fields = Some (JStr name) →
  name = lit "tick" ∨ name = lit "connect.challenge" →
  let r := _handle_event run_handler (JObj fields) rt in
  rt_calls (snd r) = rt_calls rt
  ∧ rt_world (snd r) = rt_world rt
  ∧ event_handlers (rt_client (snd r)) = event_handlers (rt_client rt)
  ∧ (name = lit "tick" → r = (Return tt, rt)).
Proof.
  intros Hname Hbuiltin. unfold _handle_event, on_client, create_task. run_py.
  rewrite Hname. simpl. destruct Hbuiltin as [-> | ->]; simpl.
  - done.
  - split_and!; try (intros [=]);
      destruct (truthy (default JNull (dict_lookup (lit "payload") fields))); simpl; try done;
      destruct (default JNull (dict_lookup (lit "payload") fields)) as [| | | | |p];
      simpl; try done;
      by destruct (truthy (default JNull (dict_lookup (lit "nonce") p))).
Qed.

(** X16. A [connect.challenge] whose payload is a mapping with a nonce that
    is not empty stores the nonce and starts one new task (the handshake);
    without such a nonce (no payload, an empty mapping, a null or empty
    nonce) the event changes nothing. *)
Theorem challenge_with_a_nonce_starts_a_handshake (fields p : list (pystr * json)) rt :
  dict_lookup (lit "event") fields = Some (JStr (lit "connect.challenge")) →
  default JNull (dict_lookup (lit "payload") fields) = JNull
  ∨ dict_lookup (lit "payload") fields = Some (JObj p) →
  let nonce := default JNull (dict_lookup (lit "nonce") p) in
  let c := rt_client rt in
  _handle_event run_handler (JObj fields) rt
  = (Return tt,
     if truthy (default JNull (dict_lookup (lit "payload") fields)) && truthy nonce
     then mkRuntime
            (set_tasks (<[fresh (dom (tasks c)) := TaskRunning]> (tasks c))
               (set__connect_nonce nonce c))
            (rt_world rt) (rt_calls rt)
     else rt)
  ∧ tasks c !! fresh (dom (tasks c)) = None.
Proof.
  intros Hname Hpayload. simpl. split; [|apply not_elem_of_dom, is_fresh].
  unfold _handle_event, on_client, create_task. run_py. rewrite Hname. simpl.
  destruct Hpayload as [-> | ->]; simpl; [done|].
  destruct p as [|kv p]; simpl; [done|].
  by destruct (truthy _).
Qed.

End Receiving.

Lemma receive_loop_returns_witness :
  let env := mkReceiveEnv [Parsed (JNum 4); Parsed Sample.custom_event]
               (Some (Exn ConnectionClosed_ (ArgVal JNull))) in
  ∃ rt',
    _receive_loop Sample.failing_first env
      (mkRuntime Sample.connected_client 0%nat [])
    = (Return tt, rt')
    ∧ (rv_end env ≠ None → connected (rt_client rt') = false).
Proof.
  intros env.
  apply (receive_loop_returns Sample.failing_first env (mkRuntime Sample.connected_client 0%nat [])).
  - intros h args w e w'. unfold Sample.failing_first.
    destruct (h =? 1)%nat; intros [= <- <-]. reflexivity.
  - intros e [= <-]. reflexivity.
Defined.

Lemma receive_loop_reconnects_when_the_connection_drops_witness :
  let env := mkReceiveEnv [Unloadable NotJSON; Parsed Sample.custom_event]
               (Some (Exn ConnectionClosed_ (ArgVal JNull))) in
  let rt := mkRuntime Sample.connected_client 0%nat [] in
  let rt1 := mkRuntime Sample.connected_client 0%nat [] in
  ∃ rt',
    _receive_loop Sample.failing_first env rt = (Return tt, rt')
    ∧ connected (rt_client rt') = false
    ∧ rt_calls rt' = rt_calls rt1 ∧ rt_world rt' = rt_world rt1
    ∧ (if _closed (rt_client rt1)
       then tasks (rt_client rt') = tasks (rt_client rt1)
       else ∃ t, tasks (rt_client rt1) !! t = None
                 ∧ tasks (rt_client rt')
                   = <[t := TaskRunning]> (tasks (rt_client rt1))).
Proof.
  intros env rt rt1.
  apply (receive_loop_reconnects_when_the_connection_drops Sample.failing_first env rt rt1 0%nat
           (Exn ConnectionClosed_ (ArgVal JNull))); reflexivity.
Defined.

Lemma receive_loop_stops_at_a_message_that_is_no_mapping_witness :
  _receive_loop Sample.failing_first
    (mkReceiveEnv ([Unloadable NotJSON] ++ [Parsed (JArr []); Parsed Sample.custom_event]) None)
    (mkRuntime Sample.connected_client 0%nat [])
  = (Return tt,
     mkRuntime (set_connected false Sample.connected_client) 0%nat []).
Proof.
  by apply (receive_loop_stops_at_a_message_that_is_no_mapping Sample.failing_first
              [Unloadable NotJSON] [Parsed Sample.custom_event] (JArr []) None
              (mkRuntime Sample.connected_client 0%nat [])
              (mkRuntime Sample.connected_client 0%nat []) 0%nat).
Defined.

Lemma dropped_messages_change_nothing_witness :
  let rt := mkRuntime Sample.observed_client 0%nat [] in
  for_each [Unloadable NotJSON; Parsed (JObj [(lit "type", JStr (lit "hello-ok"))]);
            Parsed (JObj [])]
    (_handle_message Sample.failing_first) rt
  = (Return tt, rt).
Proof.
  intros rt. by apply dropped_messages_change_nothing.
Defined.

Lemma tick_and_challenge_bypass_the_handlers_witness :
  let rt := mkRuntime Sample.observed_client 0%nat [] in
  let r := _handle_event Sample.failing_first
             (JObj [(lit "type", JStr (lit "event")); (lit "event", JStr (lit "tick"))]) rt in
  rt_calls (snd r) = rt_calls rt
  ∧ rt_world (snd r) = rt_world rt
  ∧ event_handlers (rt_client (snd r)) = event_handlers (rt_client rt)
  ∧ (lit "tick" = lit "tick" → r = (Return tt, rt)).
Proof.
  intros rt.
  apply (tick_and_challenge_bypass_the_handlers Sample.failing_first
           [(lit "type", JStr (lit "event")); (lit "event", JStr (lit "tick"))]
           (lit "tick") rt).
  - reflexivity.
  - by left.
Defined.

Lemma challenge_with_a_nonce_starts_a_handshake_witness :
  let fields :=
    [(lit "type", JStr (lit "event")); (lit "event", JStr (lit "connect.challenge"));
     (lit "payload", JObj [(lit "nonce", JStr (lit "n-1"))])] in
  let rt := mkRuntime Sample.observed_client 0%nat [] in
  let nonce := default JNull (dict_lookup (lit "nonce") [(lit "nonce", JStr (lit "n-1"))]) in
  let c := rt_client rt in
  _handle_event Sample.failing_first (JObj fields) rt
  = (Return tt,
     if truthy (default JNull (dict_lookup (lit "payload") fields)) && truthy nonce
     then mkRuntime
            (set_tasks (<[fresh (dom (tasks c)) := TaskRunning]> (tasks c))
               (set__connect_nonce nonce c))
            (rt_world rt) (rt_calls rt)
     else rt)
  ∧ tasks c !! fresh (dom (tasks c)) = None.
Proof.
  intros fields rt.
  apply (challenge_with_a_nonce_starts_a_handshake Sample.failing_first fields
           [(lit "nonce", JStr (lit "n-1"))] rt).
  - reflexivity.
  - by right.
Defined.

Section Moves.

Context {S : Type} (R : S → S → Prop).
Hypothesis R_refl : ∀ s, R s s.
Hypothesis R_trans : ∀ s1 s2 s3, R s1 s2 → R s2 s3 → R s1 s3.

Lemma moves_ret {A} (a : A) : moves R (ret a).
Proof. intros s. apply R_refl. Qed.

Lemma moves_raise {A} (e : exn) : moves R (raise (A:=A) e).
Proof. intros s. apply R_refl. Qed.

Lemma moves_lift {A} (o : outcome A) : moves R (lift o).
Proof. intros s. apply R_refl. Qed.

Lemma moves_get_self : moves R get_self.
Proof. intros s. apply R_refl. Qed.

Lemma moves_modify (g : S → S) : (∀ s, R s (g s)) → moves R (modify g).
Proof. intros Hg s. apply Hg. Qed.

Lemma moves_bind {A B} (m : M S A) (k : A → M S B) :
  moves R m → (∀ a, moves R (k a)) → moves R (bind m k).
Proof.
  intros Hm Hk s. unfold bind. specialize (Hm s).
  destruct (m s) as [[a|e] s1]; simpl in *; [|done].
  by apply (R_trans _ s1), Hk.
Qed.

Lemma moves_for_each {A} (l : list A) (body : A → M S unit) :
  (∀ x, moves R (body x)) → moves R (for_each l body).
Proof.
  intros Hbody. induction l as [|x l IH]; simpl; [apply moves_ret|].
  apply moves_bind; [apply Hbody|by intros _].
Qed.

Lemma moves_try_except {A} (m : M S A) catches (handler : exn → M S A) :
  moves R m → (∀ e, moves R (handler e)) → moves R (try_except m catches handler).
Proof.
  intros Hm Hh s. unfold try_except. specialize (Hm s).
  destruct (m s) as [[a|e] s1]; simpl in *; [done|].
  destruct (catches e); [|done]. by apply (R_trans _ s1), Hh.
Qed.

End Moves.

Section ChatSessions.

Variable session_key : pystr.

Implicit Types (st : ChatStream) (on_delta : option (json → outcome unit))
  (payload : json) (payloads : list json).

Lemma latched_refl st : latched st st.
Proof. split; [done|by left]. Qed.

Lemma latched_trans st1 st2 st3 : latched st1 st2 → latched st2 st3 → latched st1 st3.
Proof.
  intros [Hc1 He1] [Hc2 He2]. split; [by intros ?; apply Hc2, Hc1|].
  destruct He2 as [He2|He2]; [|by right]. rewrite He2. exact He1.
Qed.

Lemma latched_failed st st' : latched st st' → failed st → failed st'.
Proof.
  intros [Hc He] [Hdone Herr]. split; [by apply Hc|].
  destruct He as [He|He]; [by rewrite He|done].
Qed.

Ltac latched_step :=
  first
    [ apply (moves_bind latched latched_trans); [|intros ?]
    | apply (moves_for_each latched latched_refl latched_trans); intros ?
    | apply (moves_try_except latched latched_trans); [|intros ?]
    | apply (moves_ret latched latched_refl)
    | apply (moves_raise latched latched_refl)
    | apply (moves_lift latched latched_refl)
    | apply (moves_get_self latched latched_refl)
    | apply moves_modify; intros ?; split; [done|by left]
    | apply moves_modify; intros ?; split; [done|right; by eexists]
    | match goal with
      | |- moves _ (if ?b then _ else _) => destruct b
      | |- moves _ (match ?x with _ => _ end) => destruct x
      end ].

(** Whatever the event, the closure never resets the completion flag and
    never forgets an error. *)
Lemma handle_chat_event_latched on_delta payload :
  moves latched (handle_chat_event session_key on_delta payload).
Proof.
  unfold handle_chat_event, delta_item, final_item, call_on_delta.
  repeat latched_step.
Qed.

Lemma deliver_latched on_delta payloads :
  moves latched (deliver session_key on_delta payloads).
Proof.
  unfold deliver. apply (moves_for_each latched latched_refl latched_trans). intros payload.
  apply (moves_try_except latched latched_trans).
  - apply handle_chat_event_latched.
  - intros e. apply (moves_ret latched latched_refl).
Qed.

(** An event of another session, or a payload that is not a mapping, goes
    by without a trace. *)
Lemma guarded_foreign_event on_delta payload st :
  for_session session_key payload = false →
  try_except (handle_chat_event session_key on_delta payload)
    except_Exception (λ _, ret tt) st
  = (Return tt, st).
Proof.
  intros Hsk. destruct payload as [| | | | |f]; try done.
  unfold for_session in Hsk. simpl in Hsk.
  unfold try_except, handle_chat_event. run_py. by rewrite Hsk.
Qed.

Lemma deliver_own_events on_delta payloads st :
  deliver session_key on_delta payloads st
  = deliver session_key on_delta (own_events session_key payloads) st.
Proof.
  revert st. induction payloads as [|payload payloads IH]; intros st; [done|].
  unfold own_events. destruct (for_session session_key payload) eqn:Hsk.
  - rewrite filter_cons_True by done. unfold deliver. simpl. unfold bind.
    destruct (try_except _ _ _ st) as [[[]|e] st1]; [|done]. apply IH.
  - rewrite filter_cons_False by (by rewrite Hsk). unfold deliver at 1. simpl.
    unfold bind. rewrite (guarded_foreign_event on_delta payload st Hsk). apply IH.
Qed.

(** X17. A chat call sees the events of its own session only: events of
    other sessions, and payloads that are not mappings, can be taken out of
    what the closure is handed without changing how [chat_send] ends or
    what it leaves behind. *)
Theorem chat_send_ignores_other_sessions (message : pystr) (thinking : json) on_delta
    (image_attachments : json) (env : chat_env) (c : MoltbotClient) :
  chat_send session_key message thinking on_delta image_attachments env c
  = chat_send session_key message thinking on_delta image_attachments
      (with_events (own_events session_key (ce_early env))
         (own_events session_key (ce_events env)) env) c.
Proof.
  rewrite !chat_send_paths. simpl.
  assert (Hsame : final_stream session_key on_delta
                    (with_events (own_events session_key (ce_early env))
                       (own_events session_key (ce_events env)) env)
                  = final_stream session_key on_delta env).
  { unfold final_stream, stream_after. simpl. by rewrite <- !deliver_own_events. }
  by rewrite Hsame.
Qed.

Lemma guarded_failure_event on_delta payload st :
  failure_event session_key payload = true →
  ∃ st', try_except (handle_chat_event session_key on_delta payload)
           except_Exception (λ _, ret tt) st
         = (Return tt, st')
    ∧ failed st'.
Proof.
  intros Hfail. unfold failure_event, for_session in Hfail.
  apply andb_true_iff in Hfail as [Hsk Hstate].
  destruct payload as [| | | | |f]; try discriminate. simpl in Hsk, Hstate.
  unfold try_except, handle_chat_event. run_py. rewrite Hsk. simpl.
  destruct (default JNull (dict_lookup (lit "state") f)) as [| | |state| |];
    try discriminate.
  simpl in *. apply orb_true_iff in Hstate as [Hstate|Hstate];
    apply bool_decide_eq_true in Hstate; subst state; simpl;
    eexists; (split; [reflexivity|]); split; try done; by eexists.
Qed.

Lemma deliver_reaches_failure on_delta payloads payload st :
  callback_raises_Exception on_delta →
  payload ∈ payloads → failure_event session_key payload = true →
  failed (snd (deliver session_key on_delta payloads st)).
Proof.
  intros Hcb Hin Hfail. revert st.
  induction payloads as [|q payloads IH]; intros st; [by apply elem_of_nil in Hin|].
  unfold deliver. simpl. unfold bind.
  apply elem_of_cons in Hin as [<-|Hin].
  - destruct (guarded_failure_event on_delta payload st Hfail) as (st1 & -> & Hfailed).
    apply (latched_failed st1); [|done]. apply deliver_latched.
  - destruct (guarded_chat_event_returns session_key on_delta q st Hcb) as (st1 & ->).
    by apply IH.
Qed.

(** X18. Once an event of the session in state ["error"] or ["aborted"]
    was handed to the closure, the call fails: an acknowledged [chat_send]
    raises an [Exception], also when a final event with a text follows. *)
Theorem chat_send_fails_after_an_error_event (message : pystr) (thinking : json) on_delta
    (image_attachments : json) (env : chat_env) (c : MoltbotClient) payload :
  callback_raises_Exception on_delta →
  acknowledged session_key message thinking image_attachments env c →
  payload ∈ ce_early env ++ ce_events env →
  failure_event session_key payload = true →
  ∃ msg,
    fst (chat_send session_key message thinking on_delta image_attachments env c)
    = Raise (Exception msg).
Proof.
  intros Hcb (params & result & c2 & Hparams & Hreq & Hnoerr) Hin Hfail.
  rewrite chat_send_paths, Hparams, Hreq, Hnoerr. simpl.
  assert (Hfailed : failed (final_stream session_key on_delta env)).
  { unfold final_stream, stream_after. apply elem_of_app in Hin as [Hin|Hin].
    - apply (latched_failed (snd (deliver session_key on_delta (ce_early env) new_stream))).
      + apply deliver_latched.
      + by apply (deliver_reaches_failure on_delta _ payload).
    - by apply (deliver_reaches_failure on_delta _ payload). }
  destruct Hfailed as [Hdone [msg Herr]]. exists msg.
  unfold chat_outcome. by rewrite Hdone, Herr.
Qed.

Lemma keeps_for_each {S A X} (f : S → X) (l : list A) (body : A → M S unit) :
  (∀ x, keeps f (body x)) → keeps f (for_each l body).
Proof.
  intros Hbody. induction l as [|x l IH]; simpl; [apply keeps_ret|].
  apply keeps_bind; [apply Hbody|by intros _].
Qed.

Lemma keeps_try_except {S A X} (f : S → X) (m : M S A) catches (handler : exn → M S A) :
  keeps f m → (∀ e, keeps f (handler e)) → keeps f (try_except m catches handler).
Proof.
  intros Hm Hh s. unfold try_except. specialize (Hm s).
  destruct (m s) as [[a|e] s1]; simpl in *; [done|].
  destruct (catches e); [|done]. by rewrite Hh.
Qed.

Lemma delta_items_keep_the_flag on_delta (msg : json) :
  keeps response_complete
    (content <- lift (py_get msg (lit "content") (JArr [])) ;;
     items <- lift (py_iter content) ;;
     for_each items (delta_item on_delta))%py.
Proof.
  unfold delta_item, call_on_delta.
  repeat first
    [ apply keeps_for_each; intros ?
    | apply keeps_try_except; [|intros ?]
    | keeps_step ].
Qed.

Lemma handle_chat_event_incomplete on_delta payload st :
  completing_event session_key payload = false →
  response_complete (snd (handle_chat_event session_key on_delta payload st))
  = response_complete st.
Proof.
  intros Hnot. destruct payload as [| | | | |f]; try done.
  unfold completing_event, for_session in Hnot. simpl in Hnot.
  unfold handle_chat_event. unfold bind at 1, lift at 1. simpl.
  destruct (py_eq_str (default JNull (dict_lookup (lit "sessionKey") f)) session_key);
    simpl in *; [|done].
  apply orb_false_iff in Hnot as [Hnot Haborted]. apply orb_false_iff in Hnot as [Hfinal Herror].
  unfold bind at 1, lift at 1. simpl. unfold bind at 1, lift at 1. simpl.
  rewrite Hfinal, Herror, Haborted.
  destruct (py_eq_str _ (lit "delta") && truthy _); [|done].
  apply delta_items_keep_the_flag.
Qed.

Lemma deliver_incomplete on_delta payloads st :
  forallb (λ payload, negb (completing_event session_key payload)) payloads = true →
  response_complete (snd (deliver session_key on_delta payloads st))
  = response_complete st.
Proof.
  revert st. induction payloads as [|payload payloads IH]; intros st; [done|].
  simpl. intros [Hnot Hrest]%andb_true_iff. apply negb_true_iff in Hnot.
  unfold deliver. simpl. unfold bind.
  pose proof (handle_chat_event_incomplete on_delta payload st Hnot) as Hstep.
  unfold try_except.
  destruct (handle_chat_event session_key on_delta payload st) as [[[]|e] st1]; simpl in *.
  - rewrite <- Hstep. by apply IH.
  - destruct (except_Exception e); simpl; [|done]. rewrite <- Hstep. by apply IH.
Qed.

(** X19. Without an event of the session in state ["final"], ["error"] or
    ["aborted"], an acknowledged [chat_send] ends with [TimeoutError],
    however many delta events (with text or not) and events of other
    sessions the closure was handed. *)
Theorem chat_send_times_out_without_a_completing_event (message : pystr)
    (thinking : json) on_delta (image_attachments : json) (env : chat_env)
    (c : MoltbotClient) :
  acknowledged session_key message thinking image_attachments env c →
  forallb (λ payload, negb (completing_event session_key payload))
    (ce_early env ++ ce_events env) = true →
  fst (chat_send session_key message thinking on_delta image_attachments env c)
  = Raise (Exn TimeoutError_ (ArgVal JNull)).
Proof.
  intros (params & result & c2 & Hparams & Hreq & Hnoerr) Hnone.
  rewrite chat_send_paths, Hparams, Hreq, Hnoerr. simpl.
  rewrite forallb_app in Hnone. apply andb_true_iff in Hnone as [Hearly Hevents].
  unfold chat_outcome, final_stream, stream_after.
  by rewrite (deliver_incomplete on_delta (ce_events env)),
    (deliver_incomplete on_delta (ce_early env)).
Qed.

End ChatSessions.

Lemma chat_send_fails_after_an_error_event_witness :
  ∃ msg,
    fst (chat_send Sample.s1 (lit "hi") JNull None JNull
           (Sample.chat_call (lit "started")
              (Sample.chat_failure Sample.s1 (lit "error") :: Sample.hello_events))
           Sample.connected_client)
    = Raise (Exception msg).
Proof.
  apply (chat_send_fails_after_an_error_event Sample.s1 (lit "hi") JNull None JNull
           (Sample.chat_call (lit "started")
              (Sample.chat_failure Sample.s1 (lit "error") :: Sample.hello_events))
           Sample.connected_client (Sample.chat_failure Sample.s1 (lit "error"))).
  - exact I.
  - apply sample_call_acknowledged.
  - simpl. by left.
  - by vm_compute.
Defined.

Lemma chat_send_times_out_without_a_completing_event_witness :
  fst (chat_send Sample.s1 (lit "hi") JNull None JNull
         (Sample.chat_call (lit "started")
            [Sample.chat_event Sample.s1 (lit "delta") [Sample.text_item (lit "he")];
             Sample.chat_event (lit "s2") (lit "final") [Sample.text_item (lit "other")]])
         Sample.connected_client)
  = Raise (Exn TimeoutError_ (ArgVal JNull)).
Proof.
  apply (chat_send_times_out_without_a_completing_event Sample.s1 (lit "hi") JNull None
           JNull).
  - apply sample_call_acknowledged.
  - by vm_compute.
Defined.

Section Calls.

Implicit Types (c : MoltbotClient) (k : pystr) (on_delta : option (json → outcome unit)).

Local Arguments waiting_client : simpl never.

(** [request] whose wait ends with the slot filled by [frame]. *)
Lemma request_completed (method : pystr) (params : json) (expect_final : bool)
    (env : request_env) s c frame :
  ws c = Some s → rq_delivered env = true →
  rq_meanwhile env (waiting_client method params expect_final env s c)
  = set_futures (<[fresh (dom (futures c)) := completion frame]>
                   (futures (waiting_client method params expect_final env s c)))
      (set_pending (delete (rq_id env)
                      (pending (waiting_client method params expect_final env s c)))
         (waiting_client method params expect_final env s c)) →
  ∃ c2,
    request method params expect_final env c
    = (if truthy (frame_field frame (lit "ok"))
       then Return (frame_field frame (lit "payload"))
       else Raise (Exception (error_message frame)),
       c2)
    ∧ pending c2 = delete (rq_id env) (pending c)
    ∧ event_handlers c2 = event_handlers c
    ∧ sent c2 = sent c ++ [(s, request_frame method params env)].
Proof.
  intros Hws Hsend Hmean. rewrite (request_waits _ _ _ _ s c Hws Hsend). simpl.
  rewrite Hmean. simpl. rewrite lookup_insert_eq. unfold completion.
  destruct (truthy (frame_field frame (lit "ok"))); simpl.
  - eexists. split; [reflexivity|]. unfold waiting_client. simpl.
    by rewrite delete_insert_eq.
  - eexists. split; [reflexivity|]. unfold waiting_client. simpl.
    by rewrite delete_insert_eq, delete_delete_eq.
Qed.

(** The gateway answers the request [k] with acknowledgments and then with
    [final]; frames with the same id that come later are discarded. *)
Lemma responses_complete_the_waiter (method : pystr) (params : json) (expect_final : bool)
    k s c (acks later : list json) (final : json) :
  k ≠ [] →
  Forall (λ r, res_for k r = true
               ∧ expect_final && is_accepted_ack (frame_field r (lit "payload")) = true)
    acks →
  res_for k final = true →
  expect_final && is_accepted_ack (frame_field final (lit "payload")) = false →
  truthy (frame_field final (lit "ok")) = true ∨ error_is_mapping final = true →
  Forall (λ r, res_for k r = true) later →
  let env := mkRequestEnv k true
               (λ c0, snd (for_each (acks ++ final :: later) _handle_response c0)) in
  rq_meanwhile env (waiting_client method params expect_final env s c)
  = set_futures (<[fresh (dom (futures c)) := completion final]>
                   (futures (waiting_client method params expect_final env s c)))
      (set_pending (delete (rq_id env)
                      (pending (waiting_client method params expect_final env s c)))
         (waiting_client method params expect_final env s c)).
Proof.
  intros Hk Hacks Hid Hnack Herr Hlater env. simpl.
  destruct (waiting_client_entry method params expect_final env s c) as [Hentry Hfut].
  set (w := waiting_client method params expect_final env s c) in *.
  set (p := mkPendingRequest (fresh (dom (futures c))) expect_final) in *.
  assert (Hloop : for_each acks _handle_response w = (Return tt, w)).
  { change (pending w !! k = Some p) in Hentry. clearbody w. clear -Hacks Hentry Hk.
    induction Hacks as [|r acks [Hr1 Hr2] _ IH]; [done|].
    simpl. unfold bind. apply andb_true_iff in Hr2 as [Hef Hr2].
    by rewrite (handle_response_ack w k p r). }
  assert (Hdone : fut_done (futures w) (future p) = false).
  { unfold fut_done. subst p. cbn [future]. by rewrite Hfut. }
  rewrite for_each_app, Hloop. simpl. unfold bind.
  rewrite (handle_response_complete w k p final Hentry Hk Hdone Hid Hnack Herr).
  set (w2 := set_futures _ _).
  assert (Hgone : pending w2 !! k = None) by (subst w2; simpl; apply lookup_delete_eq).
  clearbody w2. clear -Hlater Hgone.
  induction Hlater as [|r later Hr _ IH]; [done|].
  simpl. unfold bind. by rewrite (handle_response_not_pending w2 k r).
Qed.

(** X20. [send_message] resolves with the first response to its request,
    an accepted acknowledgment included: it returns the payload of that
    frame, and the frames with the same id that follow are discarded. *)
Theorem send_message_returns_the_first_response (to message : pystr)
    (channel account_id : json) (idempotency_key : pystr) k s c
    (first : json) (later : list json) :
  ws c = Some s → k ≠ [] →
  res_for k first = true →
  truthy (frame_field first (lit "ok")) = true →
  Forall (λ r, res_for k r = true) later →
  let r := send_message to message channel account_id idempotency_key
             (mkRequestEnv k true
                (λ c0, snd (for_each (first :: later) _handle_response c0))) c in
  fst r = Return (frame_field first (lit "payload"))
  ∧ pending (snd r) = delete k (pending c).
Proof.
  intros Hws Hk Hid Hok Hlater. cbv zeta. unfold send_message.
  set (params := send_params _ _ _ _ _).
  pose proof (responses_complete_the_waiter (lit "send") params false k s c [] later first
                Hk (Forall_nil_2 _) Hid eq_refl (or_introl Hok) Hlater) as Hmean.
  set (env := mkRequestEnv k true (λ c0, snd (for_each (first :: later) _handle_response c0))).
  destruct (request_completed (lit "send") params false env s c first Hws eq_refl Hmean)
    as (c2 & -> & Hpending & _).
  by rewrite Hok.
Qed.

Lemma send_message_returns_the_first_response_witness :
  let r := send_message (lit "+15550100") (lit "hi") (JStr (lit "whatsapp")) JNull
             (lit "key-1")
             (mkRequestEnv (lit "r1") true
                (λ c0, snd (for_each (Sample.ack_frame :: [Sample.final_frame])
                              _handle_response c0)))
             Sample.connected_client in
  fst r = Return (frame_field Sample.ack_frame (lit "payload"))
  ∧ pending (snd r) = delete (lit "r1") (pending Sample.connected_client).
Proof.
  apply (send_message_returns_the_first_response (lit "+15550100") (lit "hi")
           (JStr (lit "whatsapp")) JNull (lit "key-1") (lit "r1") 0%nat
           Sample.connected_client Sample.ack_frame [Sample.final_frame]).
  - reflexivity.
  - vm_compute. discriminate.
  - by vm_compute.
  - by vm_compute.
  - repeat constructor.
Defined.

Section AgentCalls.

Variable py_repr : json → pystr.

Lemma agent_send_answered (message : pystr) (session_key agent_id thinking : json)
    (idempotency_key : pystr) k s c (acks : list json) (final : json) :
  ws c = Some s → k ≠ [] →
  Forall (λ r, res_for k r = true
               ∧ is_accepted_ack (frame_field r (lit "payload")) = true) acks →
  res_for k final = true →
  is_accepted_ack (frame_field final (lit "payload")) = false →
  truthy (frame_field final (lit "ok")) = true →
  request (lit "agent")
    (agent_params message session_key agent_id thinking idempotency_key) true
    (mkRequestEnv k true (λ c0, snd (for_each (acks ++ [final]) _handle_response c0))) c
  = (Return (frame_field final (lit "payload")),
     snd (request (lit "agent")
            (agent_params message session_key agent_id thinking idempotency_key) true
            (mkRequestEnv k true
               (λ c0, snd (for_each (acks ++ [final]) _handle_response c0))) c)).
Proof.
  intros Hws Hk Hacks Hid Hnack Hok.
  set (params := agent_params _ _ _ _ _).
  assert (Hacks' : Forall (λ r, res_for k r = true
                     ∧ true && is_accepted_ack (frame_field r (lit "payload")) = true) acks).
  { eapply Forall_impl; [exact Hacks|]. by intros r [? ?]. }
  pose proof (responses_complete_the_waiter (lit "agent") params true k s c acks [] final
                Hk Hacks' Hid Hnack (or_introl Hok) (Forall_nil_2 _)) as Hmean.
  set (env := mkRequestEnv k true (λ c0, snd (for_each (acks ++ [final]) _handle_response c0))).
  destruct (request_completed (lit "agent") params true env s c final Hws eq_refl Hmean)
    as (c2 & -> & _).
  by rewrite Hok.
Qed.

Lemma agent_send_reply (message : pystr) (session_key agent_id thinking : json)
    (idempotency_key : pystr) k s c (acks : list json) (final : json) :
  ws c = Some s → k ≠ [] →
  Forall (λ r, res_for k r = true
               ∧ is_accepted_ack (frame_field r (lit "payload")) = true) acks →
  res_for k final = true →
  is_accepted_ack (frame_field final (lit "payload")) = false →
  truthy (frame_field final (lit "ok")) = true →
  fst (agent_send py_repr message session_key agent_id thinking idempotency_key
         (mkRequestEnv k true (λ c0, snd (for_each (acks ++ [final]) _handle_response c0)))
         c)
  = match frame_field final (lit "payload") with
    | JObj pf =>
        let first := default JNull (dict_lookup (lit "text") pf) in
        let text := if truthy first then first
                    else default JNull (dict_lookup (lit "response") pf) in
        if truthy text then Return (JStr (py_strip (py_str py_repr text)))
        else Return JNull
    | _ => Return JNull
    end.
Proof.
  intros Hws Hk Hacks Hid Hnack Hok.
  unfold agent_send, try_except. unfold bind at 1.
  rewrite (agent_send_answered message session_key agent_id thinking idempotency_key
             k s c acks final Hws Hk Hacks Hid Hnack Hok).
  destruct (frame_field final (lit "payload")) as [| | | | |pf]; try done.
  run_py. destruct (truthy (default JNull (dict_lookup (lit "text") pf))) eqn:Hfirst; simpl.
  - by rewrite Hfirst.
  - by destruct (truthy (default JNull (dict_lookup (lit "response") pf))).
Qed.

(** X21. [agent_send] waits past the acknowledgments: when the gateway
    answers with any number of accepted acknowledgments and then with a
    successful response whose payload carries a text that is a non-empty
    string, [agent_send] returns that text, trimmed. *)
Theorem agent_send_returns_the_final_text (message : pystr)
    (session_key agent_id thinking : json) (idempotency_key : pystr) k s c
    (acks : list json) (final : json) (pf : list (pystr * json)) (t : pystr) :
  ws c = Some s → k ≠ [] →
  Forall (λ r, res_for k r = true
               ∧ is_accepted_ack (frame_field r (lit "payload")) = true) acks →
  res_for k final = true →
  is_accepted_ack (frame_field final (lit "payload")) = false →
  truthy (frame_field final (lit "ok")) = true →
  frame_field final (lit "payload") = JObj pf →
  dict_lookup (lit "text") pf = Some (JStr t) → t ≠ [] →
  fst (agent_send py_repr message session_key agent_id thinking idempotency_key
         (mkRequestEnv k true (λ c0, snd (for_each (acks ++ [final]) _handle_response c0)))
         c)
  = Return (JStr (py_strip t)).
Proof.
  intros Hws Hk Hacks Hid Hnack Hok Hpayload Htext Hne.
  rewrite (agent_send_reply message session_key agent_id thinking idempotency_key
             k s c acks final Hws Hk Hacks Hid Hnack Hok).
  rewrite Hpayload, Htext. simpl.
  rewrite (bool_decide_eq_false_2 (t = [])) by done. simpl.
  by rewrite (bool_decide_eq_false_2 (t = [])).
Qed.

(** X22. When the successful response to [agent_send] has no usable text
    (none, null, or an empty string), the ["response"] field takes its
    place: a non-empty string there is returned trimmed, and without a
    usable response either [agent_send] returns [None]; it returns [None]
    as well when the payload is not a mapping. *)
Theorem agent_send_falls_back_to_the_response (message : pystr)
    (session_key agent_id thinking : json) (idempotency_key : pystr) k s c
    (acks : list json) (final : json) :
  ws c = Some s → k ≠ [] →
  Forall (λ r, res_for k r = true
               ∧ is_accepted_ack (frame_field r (lit "payload")) = true) acks →
  res_for k final = true →
  is_accepted_ack (frame_field final (lit "payload")) = false →
  truthy (frame_field final (lit "ok")) = true →
  truthy (frame_field (frame_field final (lit "payload")) (lit "text")) = false →
  let reply :=
    fst (agent_send py_repr message session_key agent_id thinking idempotency_key
           (mkRequestEnv k true
              (λ c0, snd (for_each (acks ++ [final]) _handle_response c0))) c) in
  (∀ r, frame_field (frame_field final (lit "payload")) (lit "response") = JStr r →
        r ≠ [] → reply = Return (JStr (py_strip r)))
  ∧ (truthy (frame_field (frame_field final (lit "payload")) (lit "response")) = false →
     reply = Return JNull)
  ∧ (isinstance_dict (frame_field final (lit "payload")) = false → reply = Return JNull).
Proof.
  intros Hws Hk Hacks Hid Hnack Hok Htext. cbv zeta.
  rewrite (agent_send_reply message session_key agent_id thinking idempotency_key
             k s c acks final Hws Hk Hacks Hid Hnack Hok).
  destruct (frame_field final (lit "payload")) as [| | | | |pf]; try by split_and!.
  simpl in *. rewrite Htext. split_and!.
  - intros r -> Hne. simpl. by rewrite bool_decide_eq_false_2.
  - by intros ->.
  - done.
Qed.

End AgentCalls.

Lemma agent_send_returns_the_final_text_witness :
  fst (agent_send (λ _, []) (lit "hi") JNull JNull JNull (lit "key-1")
         (mkRequestEnv (lit "r1") true
            (λ c0, snd (for_each ([Sample.ack_frame; Sample.ack_frame]
                                  ++ [Sample.final_frame]) _handle_response c0)))
         Sample.connected_client)
  = Return (JStr (py_strip (lit "hello"))).
Proof.
  apply (agent_send_returns_the_final_text (λ _, []) (lit "hi") JNull JNull JNull
           (lit "key-1") (lit "r1") 0%nat Sample.connected_client
           [Sample.ack_frame; Sample.ack_frame] Sample.final_frame
           [(lit "status", JStr (lit "ok")); (lit "text", JStr (lit "hello"))]
           (lit "hello")).
  - reflexivity.
  - vm_compute. discriminate.
  - repeat constructor.
  - by vm_compute.
  - by vm_compute.
  - by vm_compute.
  - reflexivity.
  - by vm_compute.
  - vm_compute. discriminate.
Defined.

Lemma agent_send_falls_back_to_the_response_witness :
  let final :=
    JObj [(lit "type", JStr (lit "res")); (lit "id", JStr (lit "r1"));
          (lit "ok", JBool true);
          (lit "payload", JObj [(lit "text", JStr []);
                                (lit "response", JStr (lit " done "))])] in
  let reply :=
    fst (agent_send (λ _, []) (lit "hi") JNull JNull JNull (lit "key-1")
           (mkRequestEnv (lit "r1") true
              (λ c0, snd (for_each ([Sample.ack_frame] ++ [final]) _handle_response c0)))
           Sample.connected_client) in
  (∀ r, frame_field (frame_field final (lit "payload")) (lit "response") = JStr r →
        r ≠ [] → reply = Return (JStr (py_strip r)))
  ∧ (truthy (frame_field (frame_field final (lit "payload")) (lit "response")) = false →
     reply = Return JNull)
  ∧ (isinstance_dict (frame_field final (lit "payload")) = false → reply = Return JNull).
Proof.
  intros final.
  apply (agent_send_falls_back_to_the_response (λ _, []) (lit "hi") JNull JNull JNull
           (lit "key-1") (lit "r1") 0%nat Sample.connected_client [Sample.ack_frame] final).
  - reflexivity.
  - vm_compute. discriminate.
  - repeat constructor.
  - by vm_compute.
  - by vm_compute.
  - by vm_compute.
  - by vm_compute.
Defined.

End Calls.

Section ChatCalls.

Implicit Types (c : MoltbotClient) (k : pystr) (on_delta : option (json → outcome unit)).

Local Arguments waiting_client : simpl never.

(** X23. When the gateway answers the chat.send request with a payload
    whose status is ["error"], [chat_send] raises
    [Exception("chat.send 失败: <summary>")], whatever chat events the
    closure was handed, a final one included. *)
Theorem chat_send_reports_a_refused_request (session_key message : pystr)
    (thinking : json) on_delta (env : chat_env) k s c (frame : json)
    (pf : list (pystr * json)) :
  ws c = Some s → k ≠ [] →
  ce_request env = mkRequestEnv k true (λ c0, snd (_handle_response frame c0)) →
  res_for k frame = true →
  truthy (frame_field frame (lit "ok")) = true →
  frame_field frame (lit "payload") = JObj pf →
  dict_lookup (lit "status") pf = Some (JStr (lit "error")) →
  fst (chat_send session_key message thinking on_delta JNull env c)
  = Raise (Exn Exception_
             (ArgFmt msg_chat_send_failed
                (default (JStr msg_unknown_error) (dict_lookup (lit "summary") pf)))).
Proof.
  intros Hws Hk Hreq Hid Hok Hpayload Hstatus.
  rewrite chat_send_paths.
  assert (Hparams : ∃ params, chat_params session_key message thinking JNull
                                (ce_idempotency_key env) = Return params)
    by (by eexists).
  destruct Hparams as [params ->]. rewrite Hreq.
  set (c1 := snd (on_event (lit "chat") (ce_handler env) c)).
  set (renv := mkRequestEnv k true (λ c0, snd (_handle_response frame c0))).
  assert (Hws1 : ws c1 = Some s) by done.
  destruct (waiting_client_entry (lit "chat.send") params false renv s c1) as [Hentry Hfut].
  assert (Hmean :
    rq_meanwhile renv (waiting_client (lit "chat.send") params false renv s c1)
    = set_futures (<[fresh (dom (futures c1)) := completion frame]>
                     (futures (waiting_client (lit "chat.send") params false renv s c1)))
        (set_pending (delete (rq_id renv)
                        (pending (waiting_client (lit "chat.send") params false renv s c1)))
           (waiting_client (lit "chat.send") params false renv s c1))).
  { simpl.
    rewrite (handle_response_complete _ k
               (mkPendingRequest (fresh (dom (futures c1))) false) frame Hentry Hk);
      [done| |done|done|by left].
    unfold fut_done. cbn [future]. by rewrite Hfut. }
  destruct (request_completed (lit "chat.send") params false renv s c1 frame Hws1 eq_refl
              Hmean) as (c2 & -> & _).
  rewrite Hok, Hpayload. unfold ack_reports_error. simpl. rewrite Hstatus. done.
Qed.

Lemma chat_send_reports_a_refused_request_witness :
  fst (chat_send Sample.s1 (lit "hi") JNull None JNull
         (Sample.chat_call (lit "error") Sample.hello_events) Sample.connected_client)
  = Raise (Exn Exception_
             (ArgFmt msg_chat_send_failed
                (default (JStr msg_unknown_error)
                   (dict_lookup (lit "summary")
                      [(lit "runId", JStr (lit "run-1"));
                       (lit "status", JStr (lit "error"));
                       (lit "summary", JStr (lit "no such session"))])))).
Proof.
  apply (chat_send_reports_a_refused_request Sample.s1 (lit "hi") JNull None
           (Sample.chat_call (lit "error") Sample.hello_events) (lit "q1") 0%nat
           Sample.connected_client (Sample.chat_ack (lit "error"))).
  - reflexivity.
  - vm_compute. discriminate.
  - reflexivity.
  - by vm_compute.
  - by vm_compute.
  - reflexivity.
  - by vm_compute.
Defined.

Lemma attachments_with_a_stray_item (imgs : list json) (img : json) :
  img ∈ imgs → isinstance_dict img = false →
  map_outcome attachment imgs = Raise (Exn AttributeError_ (ArgVal (JStr (lit "get")))).
Proof.
  intros Hin Himg. induction imgs as [|x imgs IH]; [by apply elem_of_nil in Hin|].
  simpl. destruct (isinstance_dict x) eqn:Hx.
  - apply elem_of_cons in Hin as [->|Hin]; [congruence|].
    rewrite (IH Hin). destruct x; try discriminate. by simpl.
  - destruct x; try discriminate; done.
Qed.

(** X24. An attachment list with an item that is not a mapping makes
    [chat_send] raise [AttributeError] before it registered its handler
    and before it sent anything: the client is left as it was. *)
Theorem chat_send_rejects_a_malformed_attachment (session_key message : pystr)
    (thinking : json) on_delta (imgs : list json) (env : chat_env) c (img : json) :
  img ∈ imgs → isinstance_dict img = false →
  chat_send session_key message thinking on_delta (JArr imgs) env c
  = (Raise (Exn AttributeError_ (ArgVal (JStr (lit "get")))), c).
Proof.
  intros Hin Himg. unfold chat_send. unfold bind at 1, lift at 1. unfold chat_params.
  destruct imgs as [|x imgs]; [by apply elem_of_nil in Hin|].
  cbn [truthy py_iter]. by rewrite (attachments_with_a_stray_item (x :: imgs) img).
Qed.

Lemma chat_send_rejects_a_malformed_attachment_witness :
  let imgs := [JObj [(lit "base64", JStr (lit "AAAA"))]; JStr (lit "BBBB")] in
  chat_send Sample.s1 (lit "hi") JNull None (JArr imgs)
    (Sample.chat_call (lit "started") Sample.hello_events) Sample.connected_client
  = (Raise (Exn AttributeError_ (ArgVal (JStr (lit "get")))), Sample.connected_client).
Proof.
  intros imgs.
  apply (chat_send_rejects_a_malformed_attachment Sample.s1 (lit "hi") JNull None imgs
           (Sample.chat_call (lit "started") Sample.hello_events) Sample.connected_client
           (JStr (lit "BBBB"))).
  - subst imgs. apply elem_of_cons. right. apply elem_of_cons. by left.
  - reflexivity.
Defined.

Lemma remove_first_snoc (h : nat) (l : list nat) : h ∉ l → remove_first h (l ++ [h]) = l.
Proof.
  induction l as [|x l IH]; intros Hnot; simpl.
  - by rewrite bool_decide_eq_true_2.
  - apply not_elem_of_cons in Hnot as [Hne Hnot].
    rewrite bool_decide_eq_false_2 by done. by rewrite IH.
Qed.

Lemma chat_handlers_after_unregister h c :
  chat_handlers (snd (unregister_chat h c)) = remove_first h (chat_handlers c).
Proof.
  rewrite unregister_chat_spec. unfold chat_handlers. simpl.
  destruct (event_handlers c !! lit "chat") as [l|] eqn:Hl; simpl.
  - by rewrite lookup_insert_eq.
  - by rewrite Hl.
Qed.

Lemma request_keeps_chat_handlers (method : pystr) (params : json) (expect_final : bool)
    (env : request_env) c :
  (∀ c0, chat_handlers (rq_meanwhile env c0) = chat_handlers c0) →
  chat_handlers (snd (request method params expect_final env c)) = chat_handlers c.
Proof.
  intros Hmean. unfold request, create_future, ws_send, wait_for_future,
    forget_request, try_except. run_py.
  destruct (ws c) as [s|] eqn:Hws; simpl; [|done]. rewrite ?Hws.
  destruct (rq_delivered env); simpl.
  - match goal with
    | |- context [rq_meanwhile env ?x] =>
        pose proof (Hmean x) as Hx; destruct (futures (rq_meanwhile env x) !! _)
          as [[| | |]|]; simpl
    end;
      repeat match goal with
        | |- context [if ?b then _ else _] => destruct b; simpl
        end;
      exact Hx.
  - done.
Qed.

(** X25. [chat_send] leaves the list of chat handlers exactly as it found
    it, whichever way it ends: its own closure is gone and the handlers
    that were registered before are all there, in their order (no other
    task touching the list in between). *)
Theorem chat_send_restores_the_chat_handlers (session_key message : pystr)
    (thinking : json) on_delta (image_attachments : json) (env : chat_env) c :
  ce_handler env ∉ chat_handlers c →
  (∀ c0, chat_handlers (rq_meanwhile (ce_request env) c0) = chat_handlers c0) →
  (∀ c0, chat_handlers (ce_meanwhile env c0) = chat_handlers c0) →
  chat_handlers
    (snd (chat_send session_key message thinking on_delta image_attachments env c))
  = chat_handlers c.
Proof.
  intros Hfresh Hreq Hmean. rewrite chat_send_paths.
  destruct (chat_params _ _ _ _ _) as [params|e]; [|done].
  pose proof (request_keeps_chat_handlers (lit "chat.send") params false (ce_request env)
                (snd (on_event (lit "chat") (ce_handler env) c)) Hreq) as Hkeep.
  rewrite chat_handlers_on_event in Hkeep.
  destruct (request _ _ _ _ _) as [[result|e] c2]; simpl in Hkeep |- *.
  - destruct (ack_reports_error result); simpl;
      rewrite chat_handlers_after_unregister, ?Hmean, Hkeep; by apply remove_first_snoc.
  - rewrite chat_handlers_after_unregister, Hkeep. by apply remove_first_snoc.
Qed.

Lemma chat_send_restores_the_chat_handlers_witness :
  let c := snd (on_event (lit "chat") 7 Sample.connected_client) in
  chat_handlers
    (snd (chat_send Sample.s1 (lit "hi") JNull None JNull
            (Sample.chat_call (lit "started") Sample.hello_events) c))
  = chat_handlers c.
Proof.
  intros c.
  apply (chat_send_restores_the_chat_handlers Sample.s1 (lit "hi") JNull None JNull
           (Sample.chat_call (lit "started") Sample.hello_events) c).
  - vm_compute. intros Hin. apply elem_of_cons in Hin as [Hin|Hin]; [discriminate|].
    by apply elem_of_nil in Hin.
  - intros c0. unfold chat_handlers. simpl. by rewrite handle_response_keeps_handlers.
  - intros c0. reflexivity.
Defined.

End ChatCalls.

Section Reconnecting.

Implicit Types (c : MoltbotClient).

(** [connect()] on a client that is not closed: the flag [connected] tells
    what it returned, and no waiter is left. *)
Lemma connect_result env c :
  _closed c = false →
  ∃ b c', connect env c = (Return b, c')
    ∧ connected c' = b ∧ _closed c' = false ∧ pending c' = ∅
    ∧ futures c' = fail_all_waiters (pending c) (futures c).
Proof.
  intros Hcl.
  destruct (cleanup_connection_state c)
    as (c1 & Hclean & _ & _ & _ & Hpe1 & Hcl1 & Hfu1 & _).
  assert (Hagain : ∀ c3, _closed c3 = false → pending c3 = ∅ → futures c3 = futures c1 →
            ∃ c', snd (_cleanup_connection c3) = c'
              ∧ connected c' = false ∧ _closed c' = false ∧ pending c' = ∅
              ∧ futures c' = fail_all_waiters (pending c) (futures c)).
  { intros c3 Hcl3 Hpe3 Hfu3.
    destruct (cleanup_connection_state c3)
      as (c' & -> & Hco & _ & _ & Hpe & Hcl' & Hfu & _).
    exists c'. split; [done|]. split; [done|]. split; [congruence|]. split; [done|].
    by rewrite Hfu, Hpe3, fail_all_waiters_empty, Hfu3. }
  destruct (cn_opened env) eqn:Hopen.
  - destruct (connect_opens_a_socket env c Hcl Hopen) as (c1' & s & Hclean' & Hs & ->).
    rewrite Hclean in Hclean'. injection Hclean' as <-.
    set (c2 := set_ws _ (set_sockets _ c1)).
    destruct (send_connect_spec (cn_handshake env) c2) as (v & c3 & -> & Hc3 & _).
    assert (Hf3 : _closed c3 = false ∧ pending c3 = ∅ ∧ futures c3 = futures c1).
    { rewrite Hc3. subst c2. simpl. split; [congruence|]. by split. }
    destruct Hf3 as (Hcl3 & Hpe3 & Hfu3).
    destruct (truthy v).
    + destruct (py_get v (lit "protocol") JNull).
      * eexists _, _. split; [reflexivity|]. simpl. split; [done|]. split; [done|].
        split; [done|]. congruence.
      * destruct (Hagain (set_connected true c3)) as (c' & -> & Hrest); [done..|].
        by exists false, c'.
    + destruct (Hagain c3) as (c' & -> & Hrest); [done..|]. by exists false, c'.
  - unfold connect. run_py. rewrite Hcl, Hclean.
    unfold try_except, except_Exception, websockets_connect. run_py. rewrite Hopen. simpl.
    destruct (Hagain c1) as (c' & Hrun & Hrest); [congruence|done|done|].
    destruct (_cleanup_connection c1) as [o c4] eqn:Hc4.
    destruct (cleanup_connection_state c1) as (c5 & Hc5 & _).
    rewrite Hc4 in Hc5. injection Hc5 as -> ->. simpl in Hrun. subst c'.
    by exists false, c5.
Qed.

(** X26. [connect()] on a client that is not closed leaves no waiter
    behind, whether it succeeds or not: the pending map is empty, each
    request that was waiting with an unfilled slot has failed with
    [Exception("连接已关闭")], and the flag [connected] tells what
    [connect()] returned. *)
Theorem connect_fails_the_earlier_waiters env c :
  _closed c = false →
  ∃ b c',
    connect env c = (Return b, c')
    ∧ connected c' = b
    ∧ pending c' = ∅
    ∧ (∀ k p, pending c !! k = Some p →
              fut_done (futures c) (future p) = false →
              futures c' !! future p = Some closed_error).
Proof.
  intros Hcl. destruct (connect_result env c Hcl) as (b & c' & Hrun & Hco & _ & Hpe & Hfu).
  exists b, c'. split; [done|]. split; [done|]. split; [done|].
  intros k p Hk Hp. rewrite Hfu.
  destruct (fail_all_waiters_spec (pending c) (futures c) (future p)) as (_ & _ & Hfail & _).
  apply Hfail; [done|by exists k, p].
Qed.

Lemma connect_fails_the_earlier_waiters_witness :
  ∃ b c',
    connect Sample.silent_gateway Sample.agent_client = (Return b, c')
    ∧ connected c' = b
    ∧ pending c' = ∅
    ∧ (∀ k p, pending Sample.agent_client !! k = Some p →
              fut_done (futures Sample.agent_client) (future p) = false →
              futures c' !! future p = Some closed_error).
Proof.
  by apply (connect_fails_the_earlier_waiters Sample.silent_gateway Sample.agent_client).
Defined.

Lemma reconnect_loop_ends turns (b : Z) c :
  ∃ waits c',
    reconnect_loop turns b c = (Return waits, c')
    ∧ ((length waits < length turns)%nat → _closed c' = true ∨ connected c' = true).
Proof.
  revert b c. induction turns as [|turn turns IH]; intros b c; simpl.
  - exists [], c. split; [done|]. simpl. lia.
  - run_py. destruct (_closed c) eqn:Hcl; simpl.
    { exists [], c. split; [done|]. by left. }
    destruct (connected c) eqn:Hco; simpl.
    { exists [], c. split; [done|]. by right. }
    destruct (_closed (tn_meanwhile turn c)) eqn:Hcl1; simpl.
    { eexists [b], _. split; [done|]. by left. }
    destruct (connect_result (tn_connect turn) (tn_meanwhile turn c) Hcl1)
      as (ok & c1 & -> & Hco1 & _).
    destruct ok.
    + eexists [b], _. split; [done|]. by right.
    + destruct (IH (Z.min (b * 2) max_backoff) c1) as (waits & c2 & -> & Hend).
      exists (b :: waits), c2. split; [done|]. simpl. intros Hlen. apply Hend. lia.
Qed.

(** X27. [_reconnect] gives up before its turns are used up only on a
    client that is closed or connected: as long as the client is neither,
    it goes on to the next wait and the next attempt. *)
Theorem reconnect_ends_closed_or_connected turns c :
  ∃ waits c',
    _reconnect turns c = (Return waits, c')
    ∧ ((length waits < length turns)%nat → _closed c' = true ∨ connected c' = true).
Proof.
  unfold _reconnect. run_py. destruct (_closed c) eqn:Hcl.
  - exists [], c. split; [done|]. by left.
  - apply reconnect_loop_ends.
Qed.

(** X28. A [disconnect()] during the wait of the reconnect loop ends the
    loop: no connection is attempted afterwards, whatever the turns that
    would have followed, and the client stays as [disconnect()] left it. *)
Theorem reconnect_stops_when_disconnected_during_the_wait (cenv : connect_env)
    (turns : list reconnect_turn) c :
  _closed c = false → connected c = false →
  _reconnect (mkTurn (λ c0, snd (disconnect c0)) cenv :: turns) c
  = (Return [1%Z], snd (disconnect c)).
Proof.
  intros Hcl Hco. unfold _reconnect. run_py. rewrite Hcl. simpl. run_py.
  rewrite Hcl, Hco. simpl.
  destruct (disconnect_state c) as (c2 & Hrun & Hcl2 & _). rewrite Hrun. simpl.
  by rewrite Hcl2.
Qed.

Lemma reconnect_stops_when_disconnected_during_the_wait_witness :
  _reconnect (mkTurn (λ c0, snd (disconnect c0)) Sample.unreachable
              :: replicate 3 Sample.failed_turn) (new_client Sample.config)
  = (Return [1%Z], snd (disconnect (new_client Sample.config))).
Proof.
  by apply (reconnect_stops_when_disconnected_during_the_wait Sample.unreachable
              (replicate 3 Sample.failed_turn) (new_client Sample.config)).
Defined.

End Reconnecting.

Section Backoff.

Local Open Scope Z_scope.

Implicit Types (c : MoltbotClient) (turns : list reconnect_turn).

Lemma doubling_capped (k : nat) :
  Z.min (Z.min (2 ^ Z.of_nat k) max_backoff * 2) max_backoff
  = Z.min (2 ^ Z.of_nat (S k)) max_backoff.
Proof.
  unfold max_backoff. rewrite Nat2Z.inj_succ, Z.pow_succ_r by lia.
  assert (0 < 2 ^ Z.of_nat k) by (apply Z.pow_pos_nonneg; lia). lia.
Qed.

(** A chain of waits that starts at the [k]-th term of the schedule is the
    schedule from there on. *)
Lemma backoff_chain_closed_form (k : nat) (waits : list Z) :
  backoff_chain (Z.min (2 ^ Z.of_nat k) max_backoff) waits →
  waits = map (λ i, Z.min (2 ^ Z.of_nat i) max_backoff) (seq k (length waits)).
Proof.
  revert k. induction waits as [|w waits IH]; intros k Hchain; [done|].
  destruct Hchain as [-> Hchain]. simpl. f_equal.
  apply IH. by rewrite <- doubling_capped.
Qed.

(** Attempts that fail one after the other: one wait each, and the loop
    goes on with what follows. *)
Lemma reconnect_loop_after_failures (failed more : list reconnect_turn) (b : Z) c :
  _closed c = false → connected c = false → Forall failed_attempt failed →
  ∃ ws c1 b1,
    length ws = length failed ∧ _closed c1 = false ∧ connected c1 = false
    ∧ ∀ waits c', reconnect_loop more b1 c1 = (Return waits, c') →
                  reconnect_loop (failed ++ more) b c = (Return (ws ++ waits), c').
Proof.
  intros Hcl Hco Hfailed. revert b c Hcl Hco.
  induction Hfailed as [|turn failed [Hquiet Hfails] _ IH]; intros b c Hcl Hco.
  - by exists [], c, b.
  - destruct (connect_result (tn_connect turn) (tn_meanwhile turn c) (Hquiet c Hcl))
      as (ok & c2 & Hrun & Hco2 & Hcl2 & _).
    pose proof (Hfails (tn_meanwhile turn c) (Hquiet c Hcl)) as Hfalse.
    rewrite Hrun in Hfalse. simpl in Hfalse. injection Hfalse as ->.
    destruct (IH (Z.min (b * 2) max_backoff) c2 Hcl2 Hco2)
      as (ws & c1 & b1 & Hlen & Hcl1 & Hco1 & Hmore).
    exists (b :: ws), c1, b1. split; [by simpl; rewrite Hlen|]. split; [done|].
    split; [done|]. intros waits c' Hrest. simpl. run_py.
    rewrite Hcl, Hco. simpl. rewrite (Hquiet c Hcl), Hrun. simpl.
    by rewrite (Hmore waits c' Hrest).
Qed.

(** C4. The waits of the reconnect procedure are, in order, the first
    terms of 1, 2, 4, 8, 16, 30, 30, ...: the first wait is 1, each next one
    is the double of the one before, capped at 30, no wait is below 1 or
    above 30, and the waits never decrease. And the procedure does wait:
    on a client that is neither closed nor connected, attempts that all
    fail are each preceded by a wait (as many waits as attempts, the client
    still not connected), and an attempt that succeeds after [n] failed
    ones ends the procedure after [n + 1] waits with the client connected. *)
Theorem reconnect_backoff_schedule turns c :
  ∃ waits c', _reconnect turns c = (Return waits, c')
    ∧ waits = schedule (length waits)
    ∧ (∀ w, waits !! 0%nat = Some w → w = 1)
    ∧ (∀ i w w', waits !! i = Some w → waits !! S i = Some w' →
                 w' = Z.min (2 * w) 30 ∧ w ≤ w')
    ∧ (∀ i w, waits !! i = Some w → 1 ≤ w ≤ 30)
    ∧ (_closed c = false → connected c = false →
       (Forall failed_attempt turns →
        waits = schedule (length turns) ∧ _closed c' = false ∧ connected c' = false)
       ∧ (∀ failed turn rest,
            turns = failed ++ turn :: rest →
            Forall failed_attempt failed → successful_attempt turn →
            waits = schedule (S (length failed)) ∧ connected c' = true)).
Proof.
  unfold _reconnect. run_py. destruct (_closed c) eqn:Hcl.
  { exists [], c. split; [done|]. split; [done|].
    repeat split; intros; simplify_eq. }
  destruct (reconnect_loop_chain turns 1 c) as (waits & c' & Hrun & Hchain).
  exists waits, c'. split; [done|].
  assert (Hform : waits = schedule (length waits)).
  { by apply (backoff_chain_closed_form 0). }
  split; [done|].
  destruct (backoff_chain_bounds 1 waits) as (Hfirst & Hstep & Hbound); [lia|done|].
  split; [done|]. split; [done|]. split; [done|].
  intros _ Hco. split.
  - intros Hfailed.
    destruct (reconnect_loop_after_failures turns [] 1 c Hcl Hco Hfailed)
      as (ws & c1 & b1 & Hlen & Hcl1 & Hco1 & Hmore).
    specialize (Hmore [] c1 eq_refl). rewrite !app_nil_r in Hmore.
    rewrite Hmore in Hrun. injection Hrun as <- <-.
    rewrite <- Hlen. by split.
  - intros failed turn rest -> Hfailed [Hquiet Hsucceeds].
    destruct (reconnect_loop_after_failures failed (turn :: rest) 1 c Hcl Hco Hfailed)
      as (ws & c1 & b1 & Hlen & Hcl1 & Hco1 & Hmore).
    destruct (connect_result (tn_connect turn) (tn_meanwhile turn c1) (Hquiet c1 Hcl1))
      as (ok & c2 & Hconnect & Hco2 & _).
    pose proof (Hsucceeds (tn_meanwhile turn c1) (Hquiet c1 Hcl1)) as Htrue.
    rewrite Hconnect in Htrue. simpl in Htrue. injection Htrue as ->.
    assert (Hlast : reconnect_loop (turn :: rest) b1 c1 = (Return [b1], c2)).
    { simpl. run_py. rewrite Hcl1, Hco1. simpl. by rewrite (Hquiet c1 Hcl1), Hconnect. }
    rewrite (Hmore [b1] c2 Hlast) in Hrun. injection Hrun as <- <-.
    split; [|done]. rewrite <- Hlen.
    replace (S (length ws)) with (length (ws ++ [b1])); [done|].
    rewrite length_app. simpl. lia.
Qed.

End Backoff.

Lemma connect_accepted env c (r : json) :
  _closed c = false → cn_opened env = true →
  first_read_passes (hs_first (cn_handshake env)) = true →
  hs_delivered (cn_handshake env) = true →
  hs_second (cn_handshake env) = RecvMsg (Parsed r) →
  accepts_handshake (hs_req_id (cn_handshake env)) r = true →
  isinstance_dict (frame_field r (lit "payload"))
  && truthy (frame_field r (lit "payload")) = true →
  fst (connect env c) = Return true.
Proof.
  intros Hcl Hopen Hfirst Hsend Hsecond Hacc Hhello.
  destruct (connect_opens_a_socket env c Hcl Hopen) as (c1 & s & Hclean & Hs & ->).
  rewrite (send_connect_accepted (cn_handshake env) _ s r); [|done..].
  apply andb_true_iff in Hhello as [Hdict Htruthy]. rewrite Htruthy.
  by destruct (frame_field r (lit "payload")).
Qed.

Lemma sample_failed_turn : failed_attempt Sample.failed_turn.
Proof.
  split; [by intros c Hcl|]. intros c Hcl.
  change (fst (connect Sample.unreachable c) = Return false).
  by destruct (connect_unreachable Sample.unreachable c eq_refl Hcl) as (c' & -> & _).
Qed.

Lemma sample_accepted_turn : successful_attempt Sample.accepted_turn.
Proof.
  split; [by intros c Hcl|]. intros c Hcl.
  change (fst (connect Sample.accepting c) = Return true).
  by apply (connect_accepted Sample.accepting c Sample.hello_frame).
Qed.

Lemma reconnect_backoff_schedule_witness :
  ∃ c',
    _reconnect (replicate 6 Sample.failed_turn
                ++ Sample.accepted_turn :: [Sample.failed_turn])
      (new_client Sample.config)
    = (Return [1; 2; 4; 8; 16; 30; 30]%Z, c')
    ∧ connected c' = true.
Proof.
  destruct (reconnect_backoff_schedule
              (replicate 6 Sample.failed_turn
               ++ Sample.accepted_turn :: [Sample.failed_turn])
              (new_client Sample.config))
    as (waits & c' & Hrun & _ & _ & _ & _ & Hwaits).
  destruct (Hwaits eq_refl eq_refl) as [_ Hends].
  destruct (Hends (replicate 6 Sample.failed_turn) Sample.accepted_turn
              [Sample.failed_turn] eq_refl) as [Hseven Hco].
  - apply Forall_replicate, sample_failed_turn.
  - apply sample_accepted_turn.
  - exists c'. split; [|exact Hco]. rewrite Hrun, Hseven. reflexivity.
Defined.

Section Unloadable.

Context {W : Type}.
Variable run_handler : nat → list json → W → outcome unit * W.

(** X29. A message on which [json.loads] raises something other than
    [JSONDecodeError] (a binary frame that is not UTF-8, nesting that is too
    deep, an integer with too many digits) is not dropped: it ends the
    receive loop, the messages after it are not handled, the client is
    marked as not connected, and no reconnect is started. *)
Theorem receive_loop_stops_at_an_unloadable_message
    (before rest : list received) (why : loads_failure) (ending : option exn)
    (rt rt1 : runtime W) (s : nat) :
  ws (rt_client rt) = Some s →
  for_each before (_handle_message run_handler) rt = (Return tt, rt1) →
  why ≠ NotJSON →
  _receive_loop run_handler (mkReceiveEnv (before ++ Unloadable why :: rest) ending) rt
  = (Return tt,
     mkRuntime (set_connected false (rt_client rt1)) (rt_world rt1) (rt_calls rt1)).
Proof.
  intros Hws Hloop Hwhy. unfold _receive_loop, try_except. run_py.
  rewrite Hws, for_each_app, Hloop. simpl.
  unfold _handle_message at 1, try_except, json_loads. run_py.
  by destruct why.
Qed.

End Unloadable.

Lemma receive_loop_stops_at_an_unloadable_message_witness :
  _receive_loop Sample.failing_first
    (mkReceiveEnv ([Unloadable NotJSON]
                   ++ Unloadable NotUTF8 :: [Parsed Sample.custom_event]) None)
    (mkRuntime Sample.connected_client 0%nat [])
  = (Return tt,
     mkRuntime (set_connected false Sample.connected_client) 0%nat []).
Proof.
  by apply (receive_loop_stops_at_an_unloadable_message Sample.failing_first
              [Unloadable NotJSON] [Parsed Sample.custom_event] NotUTF8 None
              (mkRuntime Sample.connected_client 0%nat [])
              (mkRuntime Sample.connected_client 0%nat []) 0%nat).
Defined.
